(** * Study-RAG: the quiz response parser, the quiz form and the summary card

    A shallow embedding of [utils/st_utils.py]:
    - [parse_quiz_response] (lines 75-103),
    - [display_interactive_quiz_with_form] (lines 7-59),
    - [display_enhanced_summary] (lines 106-206),
    - [display_coding_question_with_answer] (lines 209-239),
    - [extract_text_from_pdfs] (lines 63-71),
    of what [utils/openai_utils.py] does with the provider's reply, and of
    [initialize_settings] and [validate_api_key] of [pages/Settings.py].

    The functions work on whatever the model provider sent back, so values
    are dynamically typed ([pyval]); a failing operation raises a Python
    exception ([exn]); every call into Streamlit is recorded, in order, in a
    log of [st_call]s.  [json.loads] belongs to Python's standard library,
    not to the repository: the embedded functions take it from the
    [JsonModule] interface, and [json.loads] below is an executable reader
    with which the embedding can be run on concrete texts. *)

From Stdlib Require Import ZArith String Ascii List Bool Lia.
From Stdlib Require Import Floats.SpecFloat.
From stdpp Require Import base option list strings gmap.

Local Open Scope string_scope.
Local Open Scope Z_scope.

(** ** Python values *)

Set Warnings "-register-all".

(** The values [json.loads] can produce, which are also the values the three
    functions receive.  [PInt] is Python's unbounded [int]; [PFloat] is an
    IEEE-754 double; [PStr] holds the text as its UTF-8 bytes; [PDict] keeps
    the insertion order of its (string) keys, and a lookup finds the first
    entry of a key. *)
Inductive pyval : Type :=
| PNone
| PBool (b : bool)
| PInt (z : Z)
| PFloat (f : spec_float)
| PStr (s : string)
| PList (l : list pyval)
| PDict (d : list (string * pyval)).

(** The exceptions that the modelled code can meet; all derive from
    [Exception]. *)
Inductive exn : Type :=
| KeyError (key : pyval)
| IndexError
| TypeError
| AttributeError (attr : string)
| JSONDecodeError (msg : string) (pos : nat)
| RecursionError
| ValueError.

Inductive outcome (A : Type) : Type :=
| Ok (a : A)
| Raise (e : exn).
Arguments Ok {A} a.
Arguments Raise {A} e.

(** [type(v).__name__] *)
Definition py_type (v : pyval) : string :=
  match v with
  | PNone => "NoneType"
  | PBool _ => "bool"
  | PInt _ => "int"
  | PFloat _ => "float"
  | PStr _ => "str"
  | PList _ => "list"
  | PDict _ => "dict"
  end.

(** *** Dictionaries *)

Fixpoint dict_lookup {A : Type} (k : string) (d : list (string * A)) : option A :=
  match d with
  | [] => None
  | (k', v) :: d' => if String.eqb k k' then Some v else dict_lookup k d'
  end.

(** [d[k] = v]: an existing key keeps its place, a new one goes last. *)
Fixpoint dict_set {A : Type} (k : string) (v : A) (d : list (string * A)) : list (string * A) :=
  match d with
  | [] => [(k, v)]
  | (k', v') :: d' => if String.eqb k k' then (k', v) :: d' else (k', v') :: dict_set k v d'
  end.

(** *** Equality, [a == b] *)

Definition double_prec : Z := 53.
Definition double_emax : Z := 1024.

Definition float_eq_int (f : spec_float) (z : Z) : bool :=
  match f with
  | S754_zero _ => z =? 0
  | S754_finite s m e =>
      let v := cond_Zopp s (Z.pos m) in
      if 0 <=? e then z =? v * 2 ^ e else z * 2 ^ (- e) =? v
  | _ => false
  end.

Definition int_of_bool (b : bool) : Z := if b then 1 else 0.

(** Value equality.  [bool], [int] and [float] compare by numeric value
    ([True == 1], [1 == 1.0], NaN equal to nothing); lists compare element
    by element; dicts compare as sets of key-value pairs. *)
Fixpoint py_eq (a b : pyval) {struct a} : bool :=
  match a, b with
  | PNone, PNone => true
  | PBool x, PBool y => Bool.eqb x y
  | PBool x, PInt y => int_of_bool x =? y
  | PBool x, PFloat y => float_eq_int y (int_of_bool x)
  | PInt x, PBool y => x =? int_of_bool y
  | PInt x, PInt y => x =? y
  | PInt x, PFloat y => float_eq_int y x
  | PFloat x, PBool y => float_eq_int x (int_of_bool y)
  | PFloat x, PInt y => float_eq_int x y
  | PFloat x, PFloat y => SFeqb x y
  | PStr s, PStr t => String.eqb s t
  | PList l, PList m =>
      (fix all2 (l m : list pyval) {struct l} : bool :=
         match l, m with
         | [], [] => true
         | x :: l', y :: m' => py_eq x y && all2 l' m'
         | _, _ => false
         end) l m
  | PDict d, PDict e =>
      Nat.eqb (length d) (length e) &&
      (fix all (d : list (string * pyval)) {struct d} : bool :=
         match d with
         | [] => true
         | (k, v) :: d' =>
             match dict_lookup k e with
             | Some w => py_eq v w && all d'
             | None => false
             end
         end) d
  | _, _ => false
  end.

(** *** Subscripts, [a[i]] *)

(** A Python index into a sequence of [n] items: a negative index counts
    from the end. *)
Definition normalize_index (n : nat) (i : Z) : option nat :=
  let j := if i <? 0 then i + Z.of_nat n else i in
  if (0 <=? j) && (j <? Z.of_nat n) then Some (Z.to_nat j) else None.

Definition list_item (l : list pyval) (i : Z) : outcome pyval :=
  match normalize_index (length l) i with
  | Some j => match l !! j with Some v => Ok v | None => Raise IndexError end
  | None => Raise IndexError
  end.

Definition str_item (s : string) (i : Z) : outcome pyval :=
  match normalize_index (String.length s) i with
  | Some j => match String.get j s with
              | Some c => Ok (PStr (String c EmptyString))
              | None => Raise IndexError
              end
  | None => Raise IndexError
  end.

Definition dict_item (d : list (string * pyval)) (k : pyval) : outcome pyval :=
  match k with
  | PStr s => match dict_lookup s d with Some v => Ok v | None => Raise (KeyError k) end
  | PList _ | PDict _ => Raise TypeError      (* unhashable key *)
  | _ => Raise (KeyError k)                   (* no string key equals it *)
  end.

Definition py_getitem (a i : pyval) : outcome pyval :=
  match a with
  | PList l =>
      match i with
      | PInt z => list_item l z
      | PBool b => list_item l (int_of_bool b)
      | _ => Raise TypeError
      end
  | PStr s =>
      match i with
      | PInt z => str_item s z
      | PBool b => str_item s (int_of_bool b)
      | _ => Raise TypeError
      end
  | PDict d => dict_item d i
  | _ => Raise TypeError
  end.

(** [d.get(k, default)] *)
Definition py_get (d : pyval) (k : string) (default : pyval) : outcome pyval :=
  match d with
  | PDict d => Ok (from_option id default (dict_lookup k d))
  | _ => Raise (AttributeError "get")
  end.

(** *** Iteration, [len], [in] *)

Fixpoint chars (s : string) : list pyval :=
  match s with
  | EmptyString => []
  | String c s' => PStr (String c EmptyString) :: chars s'
  end.

(** The items a [for] loop (or [enumerate]) goes through. *)
Definition py_iter (v : pyval) : outcome (list pyval) :=
  match v with
  | PList l => Ok l
  | PDict d => Ok (map (fun kv => PStr (fst kv)) d)
  | PStr s => Ok (chars s)
  | _ => Raise TypeError
  end.

Definition py_len (v : pyval) : outcome nat :=
  match v with
  | PList l => Ok (length l)
  | PDict d => Ok (length d)
  | PStr s => Ok (String.length s)
  | _ => Raise TypeError
  end.

Fixpoint is_substring (k s : string) : bool :=
  String.prefix k s ||
  match s with
  | EmptyString => false
  | String _ s' => is_substring k s'
  end.

(** [k in c] for a string [k]. *)
Definition py_contains (k : string) (c : pyval) : outcome bool :=
  match c with
  | PDict d => Ok (bool_decide (is_Some (dict_lookup k d)))
  | PList l => Ok (existsb (py_eq (PStr k)) l)
  | PStr s => Ok (is_substring k s)
  | _ => Raise TypeError
  end.

(** *** [str.lower] and [str.replace] *)

Definition lower_ascii (c : ascii) : ascii :=
  let n := nat_of_ascii c in
  if (Nat.leb 65 n && Nat.leb n 90)%bool then ascii_of_nat (n + 32)%nat else c.

(** Lower-casing of the letters A-Z; the bytes of other characters are
    kept. *)
Fixpoint lower (s : string) : string :=
  match s with
  | EmptyString => EmptyString
  | String c s' => String (lower_ascii c) (lower s')
  end.

(** [v.lower()] *)
Definition py_lower (v : pyval) : outcome string :=
  match v with
  | PStr s => Ok (lower s)
  | _ => Raise (AttributeError "lower")
  end.

(** [s.replace(' ', '_')] *)
Fixpoint replace_space (s : string) : string :=
  match s with
  | EmptyString => EmptyString
  | String c s' => String (if Ascii.eqb c " " then "_"%char else c) (replace_space s')
  end.

(** ** Streamlit calls and the effect monad *)

(** The texts handed to Streamlit.  An f-string is kept as its template
    name and the values substituted into it, not as the formatted text. *)
Inductive text : Type :=
| Literal (s : string)
| Value (v : pyval)                               (* a value shown as it is *)
| QuestionHeading (number : nat) (question : pyval)   (* "Question {idx + 1}: {question_data['question']}" *)
| ChooseAnswer (number : nat)                     (* "Choose an answer for Question {idx + 1}" *)
| QuestionCorrect (number : nat)                  (* "Question {idx + 1}: Correct!" *)
| QuestionWrong (number : nat)                    (* "Question {idx + 1}: Wrong!" *)
| CorrectAnswer (answer : pyval)                  (* "**Correct Answer:** {correct_answer}" *)
| YourScore (correct_count total_questions : nat) (* "### Your Score: {correct_count}/{total_questions}" *)
| UnexpectedResponseType (type : string)          (* "Unexpected response type: {type(raw_response)}" *)
| JSONDecodeErrorText (e : exn)                   (* "JSONDecodeError: {e}" *)
| ErrorText (e : exn)                             (* "Error: {e}" *)
| StyleSheet                                      (* the <style> block *)
| SummaryCard (summary : pyval)
| KeySkillsCard (skills : list pyval)
| DifficultyCard (easy medium hard : bool)        (* which item carries 'highlight' *)
| EstimatedTimeCard (minutes : pyval).

Inductive st_call : Type :=
| st_form (key : string)
| st_write (t : text)
| st_subheader (t : text)
| st_radio (label : text) (options : pyval) (key : string * nat)
| st_form_submit_button (label : string)
| st_success (t : text)
| st_error (t : text)
| st_markdown (t : text)
| st_expander (label : string).

(** A computation: the Streamlit calls made so far, and how it ended. *)
Definition M (A : Type) : Type := list st_call * outcome A.

Definition ret {A} (a : A) : M A := ([], Ok a).

Definition bind {A B} (m : M A) (k : A -> M B) : M B :=
  match m with
  | (log, Ok a) => let '(log', r) := k a in ((log ++ log')%list, r)
  | (log, Raise e) => (log, Raise e)
  end.

Definition call (c : st_call) : M unit := ([c], Ok tt).

Definition lift {A} (o : outcome A) : M A := ([], o).

(** [try: body  except ... as e: handler e] *)
Definition try_except {A} (body : M A) (handler : exn -> M A) : M A :=
  match body with
  | (log, Ok a) => (log, Ok a)
  | (log, Raise e) => let '(log', r) := handler e in ((log ++ log')%list, r)
  end.

Definition calls {A} (m : M A) : list st_call := fst m.
Definition result {A} (m : M A) : outcome A := snd m.

Declare Scope py_scope.
Delimit Scope py_scope with py.
Notation "x <- m ;; k" := (bind m (fun x => k))
  (at level 100, m at next level, right associativity) : py_scope.
Notation "m ;; k" := (bind m (fun _ => k))
  (at level 100, right associativity) : py_scope.
Local Open Scope py_scope.

(** ** The JSON decoder interface *)

(** [json.loads]: the decoded value, or the exception it raised. *)
Class JsonModule : Type := { json_loads : string -> outcome pyval }.

(** ** A reader for JSON texts *)

(** An executable decoder with the behaviour of CPython's [json.loads]
    (the decoder of CPython 3.12: its grammar, its [NaN] and [Infinity]
    constants, its error messages and offsets).  A text is its UTF-8
    bytes, so an offset counts bytes; the interpreter's recursion limit and
    its limit on the number of digits of an [int] are not modelled. *)
Module json.

Definition quote : ascii := "034".

Definition is_whitespace (c : ascii) : bool :=
  Ascii.eqb c " " || Ascii.eqb c "009" || Ascii.eqb c "010" || Ascii.eqb c "013".

Definition is_digit (c : ascii) : bool :=
  let n := nat_of_ascii c in Nat.leb 48 n && Nat.leb n 57.

Definition digit_value (c : ascii) : Z := Z.of_nat (nat_of_ascii c) - 48.

Definition hex_value (c : ascii) : option N :=
  let n := N_of_ascii c in
  (if (48 <=? n) && (n <=? 57) then Some (n - 48)
   else if (65 <=? n) && (n <=? 70) then Some (n - 55)
   else if (97 <=? n) && (n <=? 102) then Some (n - 87)
   else None)%N.

(** The text is not at its end and its next character is [c]. *)
Definition next_is (c : ascii) (s : string) : bool :=
  match s with
  | String c' _ => Ascii.eqb c' c
  | EmptyString => false
  end.

Definition tail (s : string) : string :=
  match s with
  | String _ rest => rest
  | EmptyString => EmptyString
  end.

Fixpoint drop (n : nat) (s : string) : string :=
  match n, s with
  | S n, String _ rest => drop n rest
  | _, _ => s
  end.

Fixpoint skip_whitespace (s : string) (pos : nat) : string * nat :=
  match s with
  | String c rest => if is_whitespace c then skip_whitespace rest (S pos) else (s, pos)
  | EmptyString => (s, pos)
  end.

(** *** Strings *)

Definition byte (n : N) : ascii := ascii_of_N n.

(** The UTF-8 bytes of a code point (a lone surrogate takes the
    three-byte form). *)
Definition utf8 (cp : N) : string :=
  (if cp <? 128 then
     String (byte cp) ""
   else if cp <? 2048 then
     String (byte (192 + cp / 64)) (String (byte (128 + cp mod 64)) "")
   else if cp <? 65536 then
     String (byte (224 + cp / 4096))
       (String (byte (128 + (cp / 64) mod 64)) (String (byte (128 + cp mod 64)) ""))
   else
     String (byte (240 + cp / 262144))
       (String (byte (128 + (cp / 4096) mod 64))
          (String (byte (128 + (cp / 64) mod 64)) (String (byte (128 + cp mod 64)) ""))))%N.

(** Four hexadecimal digits, and what follows them. *)
Definition hex4 (s : string) : option (N * string) :=
  match s with
  | String a (String b (String c (String d rest))) =>
      match hex_value a, hex_value b, hex_value c, hex_value d with
      | Some a, Some b, Some c, Some d => Some (((a * 16 + b) * 16 + c) * 16 + d, rest)%N
      | _, _, _, _ => None
      end
  | _ => None
  end.

Definition escape (c : ascii) : option ascii :=
  if Ascii.eqb c quote then Some quote
  else if Ascii.eqb c "\" then Some "\"%char
  else if Ascii.eqb c "/" then Some "/"%char
  else if Ascii.eqb c "b" then Some "008"%char
  else if Ascii.eqb c "f" then Some "012"%char
  else if Ascii.eqb c "n" then Some "010"%char
  else if Ascii.eqb c "r" then Some "013"%char
  else if Ascii.eqb c "t" then Some "009"%char
  else None.

Definition is_high_surrogate (cp : N) : bool := ((55296 <=? cp) && (cp <=? 56319))%N.
Definition is_low_surrogate (cp : N) : bool := ((56320 <=? cp) && (cp <=? 57343))%N.

(** A [\uXXXX] escape whose [u] is at [pos] and whose digits start [s]:
    the code point, what follows, and the new offset.  The four digits
    must not end the text.  A high surrogate absorbs a low surrogate
    escape that follows it. *)
Definition unicode_escape (s : string) (pos : nat) : outcome (N * (string * nat)) :=
  match hex4 s with
  | Some (cp, after) =>
      if String.eqb after "" then Raise (JSONDecodeError "Invalid \uXXXX escape" pos)
      else if is_high_surrogate cp && Nat.ltb 6 (String.length after)
              && next_is "\" after && next_is "u" (tail after) then
        match hex4 (tail (tail after)) with
        | Some (cp2, after2) =>
            if is_low_surrogate cp2
            then Ok ((65536 + ((cp - 55296) * 1024 + (cp2 - 56320)))%N, (after2, pos + 11)%nat)
            else Ok (cp, (after, pos + 5)%nat)
        | None => Raise (JSONDecodeError "Invalid \uXXXX escape" (pos + 6))
        end
      else Ok (cp, (after, pos + 5)%nat)
  | None => Raise (JSONDecodeError "Invalid \uXXXX escape" pos)
  end.

(** The string whose opening quote is at [begin] and whose content starts
    [s], at offset [pos]; [acc] is what was read of it so far. *)
Fixpoint scanstring (fuel : nat) (s : string) (pos begin : nat) (acc : string)
    : outcome (string * (string * nat)) :=
  match fuel with
  | O => Raise RecursionError
  | S fuel =>
      match s with
      | EmptyString => Raise (JSONDecodeError "Unterminated string starting at" begin)
      | String c rest =>
          if Ascii.eqb c quote then Ok (acc, (rest, S pos))
          else if Ascii.eqb c "\" then
            match rest with
            | EmptyString => Raise (JSONDecodeError "Unterminated string starting at" begin)
            | String e rest' =>
                if Ascii.eqb e "u" then
                  match unicode_escape rest' (S pos) with
                  | Ok (cp, (rest'', pos')) => scanstring fuel rest'' pos' begin (acc ++ utf8 cp)
                  | Raise err => Raise err
                  end
                else
                  match escape e with
                  | Some ch => scanstring fuel rest' (pos + 2) begin (acc ++ String ch "")
                  | None => Raise (JSONDecodeError "Invalid \escape" pos)
                  end
            end
          else if Nat.leb (nat_of_ascii c) 31 then
            Raise (JSONDecodeError "Invalid control character at" pos)
          else scanstring fuel rest (S pos) begin (acc ++ String c "")
      end
  end.

(** *** Numbers *)

Fixpoint span_digits (s : string) : string * string :=
  match s with
  | String c rest =>
      if is_digit c then let '(ds, rest') := span_digits rest in (String c ds, rest')
      else ("", s)
  | EmptyString => ("", s)
  end.

Fixpoint digits_value (ds : string) (acc : Z) : Z :=
  match ds with
  | String c rest => digits_value rest (10 * acc + digit_value c)
  | EmptyString => acc
  end.

(** The double nearest to [m * 10 ^ e10], ties to even. *)
Definition float_of_decimal (negative : bool) (m e10 : Z) : spec_float :=
  match m with
  | Z.pos _ =>
      if 0 <=? e10 then
        match m * 10 ^ e10 with
        | Z.pos p => binary_round double_prec double_emax negative p 0
        | _ => S754_zero negative
        end
      else
        let d := 10 ^ (- e10) in
        let shift := Z.log2 d + 64 in
        let n := m * 2 ^ shift in
        let sticky := if n mod d =? 0 then 0 else 1 in
        match 2 * (n / d) + sticky with
        | Z.pos p => binary_round double_prec double_emax negative p (- (shift + 1))
        | _ => S754_zero negative
        end
  | _ => S754_zero negative
  end.

(** The integer part, an optional minus sign and then either a single 0
    or a digit 1-9 followed by digits: its sign, its digits and the rest. *)
Definition match_integer (s : string) : option (bool * string * string) :=
  let negative := next_is "-" s in
  let s' := if negative then tail s else s in
  if next_is "0" s' then Some (negative, "0", tail s')
  else
    match span_digits s' with
    | (String d ds, rest) => Some (negative, String d ds, rest)
    | _ => None
    end.

(** The fraction, a point followed by at least one digit, when there is
    one. *)
Definition match_fraction (s : string) : string * string :=
  if next_is "." s then
    match span_digits (tail s) with
    | (String d ds, rest) => (String d ds, rest)
    | _ => ("", s)
    end
  else ("", s).

(** The exponent, e or E, an optional sign and at least one digit, when
    there is one: whether it is there, its value and the rest. *)
Definition match_exponent (s : string) : bool * Z * string :=
  if next_is "e" s || next_is "E" s then
    let negative := next_is "-" (tail s) in
    let signed := negative || next_is "+" (tail s) in
    match span_digits (if signed then tail (tail s) else tail s) with
    | (String d ds, rest) => (true, cond_Zopp negative (digits_value (String d ds) 0), rest)
    | _ => (false, 0, s)
    end
  else (false, 0, s).

Definition match_number (s : string) : option (pyval * string) :=
  match match_integer s with
  | Some (negative, int_digits, s1) =>
      let '(frac_digits, s2) := match_fraction s1 in
      let '(has_exp, exp, s3) := match_exponent s2 in
      if negb (String.eqb frac_digits "") || has_exp then
        let m := digits_value (int_digits ++ frac_digits) 0 in
        Some (PFloat (float_of_decimal negative m (exp - Z.of_nat (String.length frac_digits))), s3)
      else
        Some (PInt (cond_Zopp negative (digits_value int_digits 0)), s3)
  | None => None
  end.

(** *** Values *)

Definition expecting_value {A} (pos : nat) : outcome A :=
  Raise (JSONDecodeError "Expecting value" pos).

Definition consumed (s rest : string) : nat := (String.length s - String.length rest)%nat.

(** The value that starts [s], what follows it and the offset there. *)
Fixpoint scan_once (fuel : nat) (s : string) (pos : nat) {struct fuel}
    : outcome (pyval * (string * nat)) :=
  match fuel with
  | O => Raise RecursionError
  | S fuel =>
      if next_is quote s then
        match scanstring (String.length s) (tail s) (S pos) pos "" with
        | Ok (str, cur) => Ok (PStr str, cur)
        | Raise e => Raise e
        end
      else if next_is "{" s then
        let '(s', pos') := skip_whitespace (tail s) (S pos) in
        if next_is "}" s' then Ok (PDict [], (tail s', S pos'))
        else object_items fuel s' pos' []
      else if next_is "[" s then
        let '(s', pos') := skip_whitespace (tail s) (S pos) in
        if next_is "]" s' then Ok (PList [], (tail s', S pos'))
        else array_items fuel s' pos' []
      else if String.prefix "null" s then Ok (PNone, (drop 4 s, pos + 4))%nat
      else if String.prefix "true" s then Ok (PBool true, (drop 4 s, pos + 4))%nat
      else if String.prefix "false" s then Ok (PBool false, (drop 5 s, pos + 5))%nat
      else if String.prefix "NaN" s then Ok (PFloat S754_nan, (drop 3 s, pos + 3))%nat
      else if String.prefix "Infinity" s then
        Ok (PFloat (S754_infinity false), (drop 8 s, pos + 8))%nat
      else if String.prefix "-Infinity" s then
        Ok (PFloat (S754_infinity true), (drop 9 s, pos + 9))%nat
      else
        match match_number s with
        | Some (v, rest) => Ok (v, (rest, pos + consumed s rest))%nat
        | None => expecting_value pos
        end
  end

(** The members of an object from the first key on; [acc] holds the
    members read so far. *)
with object_items (fuel : nat) (s : string) (pos : nat) (acc : list (string * pyval))
    {struct fuel} : outcome (pyval * (string * nat)) :=
  match fuel with
  | O => Raise RecursionError
  | S fuel =>
      if next_is quote s then
        match scanstring (String.length s) (tail s) (S pos) pos "" with
        | Ok (key, (s1, pos1)) =>
            let '(s2, pos2) := skip_whitespace s1 pos1 in
            if next_is ":" s2 then
              let '(s3, pos3) := skip_whitespace (tail s2) (S pos2) in
              match scan_once fuel s3 pos3 with
              | Ok (value, (s4, pos4)) =>
                  let acc := dict_set key value acc in
                  let '(s5, pos5) := skip_whitespace s4 pos4 in
                  if next_is "}" s5 then Ok (PDict acc, (tail s5, S pos5))
                  else if next_is "," s5 then
                    let '(s6, pos6) := skip_whitespace (tail s5) (S pos5) in
                    object_items fuel s6 pos6 acc
                  else Raise (JSONDecodeError "Expecting ',' delimiter" pos5)
              | Raise e => Raise e
              end
            else Raise (JSONDecodeError "Expecting ':' delimiter" pos2)
        | Raise e => Raise e
        end
      else Raise (JSONDecodeError "Expecting property name enclosed in double quotes" pos)
  end

(** The items of an array from the first one on. *)
with array_items (fuel : nat) (s : string) (pos : nat) (acc : list pyval)
    {struct fuel} : outcome (pyval * (string * nat)) :=
  match fuel with
  | O => Raise RecursionError
  | S fuel =>
      match scan_once fuel s pos with
      | Ok (value, (s1, pos1)) =>
          let acc := (acc ++ [value])%list in
          let '(s2, pos2) := skip_whitespace s1 pos1 in
          if next_is "]" s2 then Ok (PList acc, (tail s2, S pos2))
          else if next_is "," s2 then
            let '(s3, pos3) := skip_whitespace (tail s2) (S pos2) in
            array_items fuel s3 pos3 acc
          else Raise (JSONDecodeError "Expecting ',' delimiter" pos2)
      | Raise e => Raise e
      end
  end.

Definition byte_order_mark : string :=
  String (byte 239) (String (byte 187) (String (byte 191) "")).

(** [json.loads(s)].  The fuel bounds the depth of the calls; twice the
    length of the text, and two, is never used up. *)
Definition loads (s : string) : outcome pyval :=
  if String.prefix byte_order_mark s then
    Raise (JSONDecodeError "Unexpected UTF-8 BOM (decode using utf-8-sig)" 0)
  else
    let '(s1, pos1) := skip_whitespace s 0 in
    match scan_once (2 * String.length s + 2) s1 pos1 with
    | Ok (obj, (s2, pos2)) =>
        let '(s3, pos3) := skip_whitespace s2 pos2 in
        if String.eqb s3 "" then Ok obj
        else Raise (JSONDecodeError "Extra data" pos3)
    | Raise e => Raise e
    end.

End json.

(** ** utils/st_utils.py *)

Section st_utils.
Context {J : JsonModule}.

(** Lines 85-97, the body of the [try]. *)
Definition parse_quiz_response_body (raw_response : pyval) : M pyval :=
  match raw_response with
  | PList _ => ret raw_response
  | PStr s => lift (json_loads s)
  | PDict d => ret (from_option id (PList []) (dict_lookup "questions" d))
  | _ =>
      call (st_error (UnexpectedResponseType (py_type raw_response)));;
      ret (PList [])
  end.

(** Lines 98-103, the two [except] clauses. *)
Definition parse_quiz_response_handler (e : exn) : M pyval :=
  match e with
  | JSONDecodeError _ _ =>
      call (st_error (JSONDecodeErrorText e));;
      ret (PList [])
  | _ =>
      call (st_error (ErrorText e));;
      ret (PList [])
  end.

Definition parse_quiz_response (raw_response : pyval) : M pyval :=
  try_except (parse_quiz_response_body raw_response) parse_quiz_response_handler.
End st_utils.

(** What comes back from the browser while the form is drawn: the value of
    each [st.radio] (the selected option, or [None] while nothing is
    selected, since the widget is created with [index=None]) and whether the
    submit button was pressed. *)
Record session : Type := {
  radio : nat -> pyval -> outcome pyval;   (* question index, options offered *)
  form_submit_button : bool
}.

(** Lines 23-31: draw each question and collect the selections. *)
Fixpoint display_questions (st : session) (form_key : string) (idx : nat)
    (items : list pyval) (selected_answers : gmap nat pyval) : M (gmap nat pyval) :=
  match items with
  | [] => ret selected_answers
  | question_data :: rest =>
      question <- lift (py_getitem question_data (PStr "question"));;
      call (st_subheader (QuestionHeading (idx + 1) question));;
      options <- lift (py_getitem question_data (PStr "options"));;
      call (st_radio (ChooseAnswer (idx + 1)) options (form_key, idx));;
      selected <- lift (radio st idx options);;
      display_questions st form_key (S idx) rest (<[idx := selected]> selected_answers)
  end.

(** Lines 42-56: one round of the loop under "Evaluate answers"; the new
    value of [correct_count]. *)
Definition evaluate_answer (selected_answers : gmap nat pyval) (idx : nat)
    (question_data : pyval) (correct_count : nat) : M nat :=
  let user_answer := default PNone (selected_answers !! idx) in
  correct_index <- lift (py_getitem question_data (PStr "correct_answer"));;
  options <- lift (py_getitem question_data (PStr "options"));;
  correct_answer <- lift (py_getitem options correct_index);;
  correct_count <-
    (if py_eq user_answer correct_answer then
       call (st_success (QuestionCorrect (idx + 1)));;
       ret (correct_count + 1)%nat
     else
       call (st_error (QuestionWrong (idx + 1)));;
       call (st_markdown (CorrectAnswer correct_answer));;
       ret correct_count);;
  has_explanation <- lift (py_contains "explanation" question_data);;
  (if has_explanation : bool then
     call (st_expander "See Explanation");;
     explanation <- lift (py_getitem question_data (PStr "explanation"));;
     call (st_markdown (Value explanation))
   else ret tt);;
  ret correct_count.

(** Lines 41-56: the loop. *)
Fixpoint evaluate_answers (selected_answers : gmap nat pyval) (idx : nat)
    (items : list pyval) (correct_count : nat) : M nat :=
  match items with
  | [] => ret correct_count
  | question_data :: rest =>
      correct_count <- evaluate_answer selected_answers idx question_data correct_count;;
      evaluate_answers selected_answers (S idx) rest correct_count
  end.

(** Lines 37-59, the block under [if submitted:]: grade the selections and
    show the score.  The result is [(correct_count, total_questions)]. *)
Definition grade (quiz_data : pyval) (selected_answers : gmap nat pyval) : M (nat * nat) :=
  let correct_count := 0%nat in
  total_questions <- lift (py_len quiz_data);;
  items <- lift (py_iter quiz_data);;
  correct_count <- evaluate_answers selected_answers 0 items correct_count;;
  call (st_markdown (YourScore correct_count total_questions));;
  ret (correct_count, total_questions).

Definition display_interactive_quiz_with_form (st : session)
    (quiz_data : pyval) (doc_name : string) : M unit :=
  let form_key := "quiz_form_" ++ replace_space doc_name in
  let selected_answers : gmap nat pyval := ∅ in
  call (st_form form_key);;
  call (st_write (Literal "Answer the questions and click 'Submit' to check your score."));;
  items <- lift (py_iter quiz_data);;
  selected_answers <- display_questions st form_key 0 items selected_answers;;
  call (st_form_submit_button "Submit & Check Score");;
  let submitted := form_submit_button st in
  if submitted then
    grade quiz_data selected_answers;;
    ret tt
  else ret tt.

(** Lines 168-173. *)
Definition summary_section (summary_data : pyval) : M unit :=
  summary <- lift (py_getitem summary_data (PStr "summary"));;
  call (st_markdown (SummaryCard summary)).

(** Lines 176-185. *)
Definition key_skills_section (summary_data : pyval) : M unit :=
  key_skills <- lift (py_getitem summary_data (PStr "key_skills"));;
  skills <- lift (py_iter key_skills);;
  call (st_markdown (KeySkillsCard skills)).

(** Lines 188-198. *)
Definition difficulty_section (summary_data : pyval) : M unit :=
  difficulty <- lift (py_get summary_data "difficulty" (PStr "Medium"));;
  difficulty <- lift (py_lower difficulty);;
  call (st_markdown (DifficultyCard (String.eqb difficulty "easy")
                                    (String.eqb difficulty "medium")
                                    (String.eqb difficulty "hard"))).

(** Lines 201-206. *)
Definition estimated_time_section (summary_data : pyval) : M unit :=
  estimated_time <- lift (py_getitem summary_data (PStr "estimated_time"));;
  call (st_markdown (EstimatedTimeCard estimated_time)).

(** Lines 106-206. *)
Definition display_enhanced_summary (summary_data : pyval) : M unit :=
  call (st_markdown StyleSheet);;
  summary_section summary_data;;
  key_skills_section summary_data;;
  difficulty_section summary_data;;
  estimated_time_section summary_data.

(** ** Vocabulary of the properties *)

(** CPython's decoder as the [json] module. *)
Definition python_json : JsonModule := {| json_loads := json.loads |}.

Definition is_text (v : pyval) : bool :=
  match v with PStr _ => true | _ => false end.

(** The part of the QuestionRecord invariant that grading relies on: the
    record is a dict, its options are texts and its [correct_answer] is an
    index into them.  (A record with, in addition, a non-empty question and
    exactly four options is valid in this sense too.) *)
Definition valid_question (question_data : pyval) : bool :=
  match question_data with
  | PDict d =>
      match dict_lookup "options" d, dict_lookup "correct_answer" d with
      | Some (PList options), Some (PInt c) =>
          forallb is_text options && (0 <=? c) && (c <? Z.of_nat (length options))
      | _, _ => false
      end
  | _ => false
  end.

(** [options[correct_answer]] of a record, when the record has both keys,
    [options] is a list and [correct_answer] an index in [0, len(options)). *)
Definition correct_option (question_data : pyval) : option pyval :=
  match question_data with
  | PDict d =>
      match dict_lookup "options" d, dict_lookup "correct_answer" d with
      | Some (PList options), Some (PInt c) =>
          if 0 <=? c then options !! Z.to_nat c else None
      | _, _ => None
      end
  | _ => None
  end.

(** The selection recorded for question [idx] is a text, and it is the text
    of the correct option. *)
Definition answered_correctly (answers : gmap nat pyval) (idx : nat)
    (question_data : pyval) : bool :=
  match answers !! idx, correct_option question_data with
  | Some (PStr selected), Some (PStr correct) => String.eqb selected correct
  | _, _ => false
  end.

(** The number of questions answered correctly, the first of [items] being
    question [idx]. *)
Fixpoint count_correct (answers : gmap nat pyval) (idx : nat) (items : list pyval) : nat :=
  match items with
  | [] => 0
  | question_data :: rest =>
      ((if answered_correctly answers idx question_data then 1 else 0)
       + count_correct answers (S idx) rest)%nat
  end.

(** The two verdicts the grading loop can announce for a question. *)
Definition is_correct_call (c : st_call) : bool :=
  match c with st_success (QuestionCorrect _) => true | _ => false end.

Definition is_wrong_call (c : st_call) : bool :=
  match c with st_error (QuestionWrong _) => true | _ => false end.

Fixpoint count_calls (p : st_call -> bool) (log : list st_call) : nat :=
  match log with
  | [] => 0
  | c :: log' => ((if p c then 1 else 0) + count_calls p log')%nat
  end.

(** A visitor who selects option [choice idx] of question [idx] (or none)
    and presses the button when [submit] holds. *)
Definition visitor (choice : nat -> option nat) (submit : bool) : session :=
  {| radio := fun idx options =>
       match choice idx, options with
       | Some j, PList l => Ok (default PNone (l !! j))
       | _, _ => Ok PNone
       end;
     form_submit_button := submit |}.

(** What the grading loop shows for the explanation of a record. *)
Definition explanation_calls (d : list (string * pyval)) : list st_call :=
  match dict_lookup "explanation" d with
  | Some explanation => [st_expander "See Explanation"; st_markdown (Value explanation)]
  | None => []
  end.

(** What the grading loop shows for question [idx] when [question_data] is a
    valid record. *)
Definition question_calls (answers : gmap nat pyval) (idx : nat) (question_data : pyval)
    : list st_call :=
  match question_data, correct_option question_data with
  | PDict d, Some correct =>
      ((if answered_correctly answers idx question_data
        then [st_success (QuestionCorrect (idx + 1))]
        else [st_error (QuestionWrong (idx + 1)); st_markdown (CorrectAnswer correct)])
       ++ explanation_calls d)%list
  | _, _ => []
  end.

Fixpoint quiz_calls (answers : gmap nat pyval) (idx : nat) (items : list pyval)
    : list st_call :=
  match items with
  | [] => []
  | question_data :: rest =>
      (question_calls answers idx question_data ++ quiz_calls answers (S idx) rest)%list
  end.

(** The record is a dict whose [options] is a list and whose
    [correct_answer] is an integer that is no index of that list, not even
    counted from the end. *)
Definition index_out_of_range (question_data : pyval) : bool :=
  match question_data with
  | PDict d =>
      match dict_lookup "options" d, dict_lookup "correct_answer" d with
      | Some (PList options), Some (PInt c) =>
          (c <? - Z.of_nat (length options)) || (Z.of_nat (length options) <=? c)
      | _, _ => false
      end
  | _ => false
  end.

(** What the specification calls valid JSON is the grammar of RFC 8259: a
    JSON text is a value between optional whitespace (space, tab, line
    feed, carriage return), and a value is an object, an array, a string, a
    number, or one of the names [false], [null], [true].  A value
    therefore begins with one of the characters below, and a text that,
    after its leading whitespace, begins with none of them is not valid
    JSON.  [begins_value] is only this necessary condition. *)
Module rfc8259.





End rfc8259.

(** *** Sample data *)

Definition sample_options : pyval := PList [PStr "3"; PStr "4"; PStr "5"; PStr "6"].

(** [{question: "2+2?", options: ["3","4","5","6"], correct_answer: c}] *)
Definition sample_question (c : Z) : pyval :=
  PDict [("question", PStr "2+2?"); ("options", sample_options); ("correct_answer", PInt c)].

(** [s] between double quotes. *)
Definition quoted (s : string) : string :=
  String json.quote (s ++ String json.quote "").

(** The text
    [{"questions": [{"question": "2+2?", "options": ["3", "4", "5", "6"], "correct_answer": 1}]}] *)
Definition sample_reply : string :=
  "{" ++ quoted "questions" ++ ": [{"
      ++ quoted "question" ++ ": " ++ quoted "2+2?" ++ ", "
      ++ quoted "options" ++ ": ["
      ++ quoted "3" ++ ", " ++ quoted "4" ++ ", " ++ quoted "5" ++ ", " ++ quoted "6" ++ "], "
      ++ quoted "correct_answer" ++ ": 1}]}".

Definition sample_summary : list (string * pyval) :=
  [("summary", PStr "..."); ("key_skills", PList [PStr "a"; PStr "b"]); ("estimated_time", PInt 30)].

(** ** Further vocabulary for the quiz form *)

(** The calls that only the block under [if submitted:] makes. *)
Definition is_grading_call (c : st_call) : bool :=
  match c with
  | st_success _ | st_error _ | st_markdown _ | st_expander _ => true
  | _ => false
  end.

(** A valid record that also has the [question] key the form shows. *)
Definition askable (question_data : pyval) : bool :=
  valid_question question_data &&
  match question_data with
  | PDict d => match dict_lookup "question" d with Some _ => true | None => false end
  | _ => false
  end.

(** The key of the Streamlit form of a document, line 15. *)
Definition form_key_of (doc_name : string) : string :=
  "quiz_form_" ++ replace_space doc_name.

Fixpoint has_space (s : string) : bool :=
  match s with
  | EmptyString => false
  | String c s' => Ascii.eqb c " " || has_space s'
  end.

(** ** Further vocabulary for the summary card *)

(** The values a [for] loop can go through. *)
Definition can_iterate (v : pyval) : bool :=
  match v with
  | PList _ | PDict _ | PStr _ => true
  | _ => false
  end.

(** The record is a dict with [summary], [estimated_time] and a
    [key_skills] that can be iterated, and what it has under [difficulty],
    if anything, is a text. *)
Definition drawable_summary (summary_data : pyval) : bool :=
  match summary_data with
  | PDict d =>
      match dict_lookup "summary" d, dict_lookup "key_skills" d,
            dict_lookup "estimated_time" d with
      | Some _, Some key_skills, Some _ =>
          can_iterate key_skills &&
          match dict_lookup "difficulty" d with
          | None | Some (PStr _) => true
          | Some _ => false
          end
      | _, _, _ => false
      end
  | _ => false
  end.

(** The number of items of a difficulty card that carry [highlight]. *)
Definition highlighted (e m h : bool) : nat :=
  ((if e then 1 else 0) + (if m then 1 else 0) + (if h then 1 else 0))%nat.

(** ** display_coding_question_with_answer *)

Definition float_is_zero (f : spec_float) : bool :=
  match f with S754_zero _ => true | _ => false end.

(** [bool(v)], the truth value an [if] or an [and] takes of [v]. *)
Definition py_bool (v : pyval) : bool :=
  match v with
  | PNone => false
  | PBool b => b
  | PInt z => negb (z =? 0)
  | PFloat f => negb (float_is_zero f)
  | PStr s => negb (String.eqb s "")
  | PList l => match l with [] => false | _ :: _ => true end
  | PDict d => match d with [] => false | _ :: _ => true end
  end.

(** A computation that records calls of any kind [E]; [M] is the case of
    [st_call]. *)
Definition W (E A : Type) : Type := list E * outcome A.

Definition retW {E A} (a : A) : W E A := ([], Ok a).

Definition bindW {E A B} (m : W E A) (k : A -> W E B) : W E B :=
  match m with
  | (log, Ok a) => let '(log', r) := k a in ((log ++ log')%list, r)
  | (log, Raise e) => (log, Raise e)
  end.

Definition callW {E} (c : E) : W E unit := ([c], Ok tt).

Definition liftW {E A} (o : outcome A) : W E A := ([], o).

Declare Scope w_scope.
Delimit Scope w_scope with w.
Notation "x <- m ;; k" := (bindW m (fun x => k))
  (at level 100, m at next level, right associativity) : w_scope.
Notation "m ;; k" := (bindW m (fun _ => k))
  (at level 100, right associativity) : w_scope.

Module coding.
Local Open Scope w_scope.

(** The texts of the function; an f-string is kept with its argument. *)
Inductive text : Type :=
| Heading (s : string)                (* a literal *)
| Question (question : pyval)         (* "**Question:** {question_data['question']}" *)
| TestNumber (i : nat)                (* "Test {i}:" *)
| Value (v : pyval).                  (* a value passed as it is *)

(** The first argument of [st.code]. *)
Inductive code : Type :=
| Body (v : pyval)                    (* a value passed as it is *)
| StrOf (v : pyval).                  (* str(test) *)

Inductive st_call : Type :=
| st_markdown (t : text)
| st_code (body : code) (language : string)
| st_expander (label : string).

(** [key in question_data and question_data[key]], as a condition. *)
Definition present (key : string) (question_data : pyval) : outcome bool :=
  match py_contains key question_data with
  | Ok true =>
      match py_getitem question_data (PStr key) with
      | Ok v => Ok (py_bool v)
      | Raise e => Raise e
      end
  | Ok false => Ok false
  | Raise e => Raise e
  end.

(** Lines 220-222. *)
Definition starter_code_section (question_data : pyval) : W st_call unit :=
  shown <- liftW (present "starter_code" question_data);;
  if shown : bool then
    callW (st_markdown (Heading "**Starter Code:**"));;
    starter_code <- liftW (py_getitem question_data (PStr "starter_code"));;
    callW (st_code (Body starter_code) "python")
  else retW tt.

(** Lines 227-229, the loop over [enumerate(..., 1)]. *)
Fixpoint show_tests (i : nat) (tests : list pyval) : W st_call unit :=
  match tests with
  | [] => retW tt
  | test :: rest =>
      callW (st_markdown (TestNumber i));;
      callW (st_code (StrOf test) "python");;
      show_tests (S i) rest
  end.

(** Lines 225-229. *)
Definition test_cases_section (question_data : pyval) : W st_call unit :=
  shown <- liftW (present "test_cases" question_data);;
  if shown : bool then
    callW (st_markdown (Heading "**Test Cases:**"));;
    test_cases <- liftW (py_getitem question_data (PStr "test_cases"));;
    tests <- liftW (py_iter test_cases);;
    show_tests 1 tests
  else retW tt.

(** Lines 232-239. *)
Definition solution_section (question_data : pyval) (show_explanation : bool)
    : W st_call unit :=
  if show_explanation then
    callW (st_expander "💡 See Solution");;
    has_solution <- liftW (py_contains "solution" question_data);;
    (if has_solution : bool then
       callW (st_markdown (Heading "**Solution:**"));;
       solution <- liftW (py_getitem question_data (PStr "solution"));;
       callW (st_code (Body solution) "python")
     else retW tt);;
    has_explanation <- liftW (py_contains "explanation" question_data);;
    (if has_explanation : bool then
       callW (st_markdown (Heading "**Explanation:**"));;
       explanation <- liftW (py_getitem question_data (PStr "explanation"));;
       callW (st_markdown (Value explanation))
     else retW tt)
  else retW tt.

(** Lines 209-239. *)
Definition display_coding_question_with_answer (question_data : pyval)
    (show_explanation : bool) : W st_call unit :=
  question <- liftW (py_getitem question_data (PStr "question"));;
  callW (st_markdown (Question question));;
  starter_code_section question_data;;
  test_cases_section question_data;;
  solution_section question_data show_explanation.

(** The record is a dict with a [question], and its [test_cases], when
    there and true, can be iterated. *)
Definition showable (question_data : pyval) : bool :=
  match question_data with
  | PDict d =>
      match dict_lookup "question" d with
      | Some _ =>
          match dict_lookup "test_cases" d with
          | Some test_cases => negb (py_bool test_cases) || can_iterate test_cases
          | None => true
          end
      | None => false
      end
  | _ => false
  end.

(** The record has nothing under [key], or something false. *)
Definition blank (key : string) (d : list (string * pyval)) : bool :=
  match dict_lookup key d with
  | Some v => negb (py_bool v)
  | None => true
  end.

Definition is_test_label (c : st_call) : bool :=
  match c with st_markdown (TestNumber _) => true | _ => false end.

Fixpoint count (p : st_call -> bool) (log : list st_call) : nat :=
  match log with
  | [] => 0
  | c :: log' => ((if p c then 1 else 0) + count p log')%nat
  end.

End coding.

(** ** extract_text_from_pdfs *)

(** PyPDF2 is a library: what it finds in an uploaded file is given with the
    file, either the exception that [PdfReader] raises or the pages, each
    with the text that [extract_text] returns or the exception it raises.
    [E] is the type of PyPDF2's exceptions.  The function is under
    [st.cache_data], which stores what the body returns: the body is what
    is embedded. *)
Module pdf.
Section reader.
Variable E : Type.

Record uploaded_file : Type := {
  name : string;
  pdf_reader : E + list (E + string)
}.

(** Lines 67-69: the text of the pages, appended to [text]. *)
Fixpoint extract_pages (pages : list (E + string)) (text : string) : E + string :=
  match pages with
  | [] => inr text
  | inr page_text :: rest => extract_pages rest (text ++ page_text)
  | inl e :: _ => inl e
  end.

(** Lines 66-70: the document made of one uploaded file. *)
Definition document_of (file : uploaded_file) : E + pyval :=
  match pdf_reader file with
  | inr pages =>
      match extract_pages pages "" with
      | inr text => inr (PDict [("name", PStr (name file)); ("content", PStr text)])
      | inl e => inl e
      end
  | inl e => inl e
  end.

(** Lines 65-70: the loop, [documents] being the list built so far. *)
Fixpoint extract_loop (uploaded_files : list uploaded_file) (documents : list pyval)
    : E + list pyval :=
  match uploaded_files with
  | [] => inr documents
  | file :: rest =>
      match document_of file with
      | inr document => extract_loop rest (documents ++ [document])
      | inl e => inl e
      end
  end.

(** Lines 63-71. *)
Definition extract_text_from_pdfs (uploaded_files : list uploaded_file) : E + list pyval :=
  extract_loop uploaded_files [].

(** All the pages, when each of them gave its text. *)
Fixpoint page_texts (pages : list (E + string)) : option (list string) :=
  match pages with
  | [] => Some []
  | inr page_text :: rest =>
      match page_texts rest with
      | Some texts => Some (page_text :: texts)
      | None => None
      end
  | inl _ :: _ => None
  end.

(** The texts one after the other. *)
Fixpoint joined (texts : list string) : string :=
  match texts with
  | [] => ""
  | text :: rest => text ++ joined rest
  end.

(** The document of a file whose pages all gave their text. *)
Definition readable (file : uploaded_file) : option pyval :=
  match pdf_reader file with
  | inr pages =>
      match page_texts pages with
      | Some texts => Some (PDict [("name", PStr (name file)); ("content", PStr (joined texts))])
      | None => None
      end
  | inl _ => None
  end.

End reader.
Arguments name {E} _.
Arguments pdf_reader {E} _.
Arguments extract_pages {E} _ _.
Arguments document_of {E} _.
Arguments extract_loop {E} _ _.
Arguments extract_text_from_pdfs {E} _.
Arguments page_texts {E} _.
Arguments readable {E} _.

(** Sample uploads, PyPDF2's exceptions being numbered. *)
Definition two_pages : uploaded_file nat :=
  {| name := "notes.pdf"; pdf_reader := inr [inr "Chapter 1. "; inr "Chapter 2."] |}.

Definition no_pages : uploaded_file nat :=
  {| name := "notes.pdf"; pdf_reader := inr [] |}.

Definition bad_page : uploaded_file nat :=
  {| name := "scan.pdf"; pdf_reader := inr [inr "Page 1"; inl 7%nat] |}.
End pdf.

(** ** utils/openai_utils.py, from the reply on *)

(** Of [generate_quiz] only the end is embedded, lines 87-88, which take the
    content of the reply's first choice and give the function's result.
    What comes before (the client of [get_openai_client], the prompt, the
    call of the provider) belongs to Streamlit and to the OpenAI library
    and is not part of the embedding. *)
Section openai_utils.
Context {J : JsonModule}.

(** Lines 87-88 of [generate_quiz]: what the function returns when the
    provider's reply has the text [content]. *)
Definition quiz_of_reply (content : string) : outcome pyval :=
  match json_loads content with
  | Ok result => py_get result "questions" (PList [])
  | Raise e => Raise e
  end.

(** Lines 87-88 for the content as the library types it, a text or [None]:
    [json.loads(None)] raises TypeError. *)
Definition quiz_of_content (content : option string) : outcome pyval :=
  match content with
  | Some text => quiz_of_reply text
  | None => Raise TypeError
  end.
End openai_utils.

(** ** pages/Settings.py *)

Module settings.

(** A byte 10xxxxxx continues a character that started before it. *)
Definition is_continuation (c : ascii) : bool :=
  let n := nat_of_ascii c in Nat.leb 128 n && Nat.leb n 191.

(** [len(api_key)]: the number of characters of a text held as UTF-8
    bytes, each character having one byte that is not a continuation. *)
Fixpoint len (s : string) : nat :=
  match s with
  | EmptyString => 0
  | String c s' => ((if is_continuation c then 0 else 1) + len s')%nat
  end.

(** Lines 56-68; [None] is Python's [None]. *)
Definition validate_api_key (api_key : option string) (provider : string) : bool :=
  match api_key with
  | None => false
  | Some api_key =>
      if String.eqb api_key "" then false
      else if String.eqb provider "openai" && String.prefix "sk-" api_key then
        Nat.ltb 20 (len api_key)
      else if String.eqb provider "mistral" && Nat.ltb 20 (len api_key) then true
      else if String.eqb provider "together" && Nat.ltb 20 (len api_key) then true
      else false
  end.

Definition default_api_keys : pyval :=
  PDict [("openai", PStr ""); ("mistral", PStr ""); ("together", PStr "")].

(** The double 0.7. *)
Definition seven_tenths : spec_float :=
  Eval vm_compute in json.float_of_decimal false 7 (-1).

Definition default_model_preferences : pyval :=
  PDict [("default_model", PStr "gpt4-o-mini"); ("temperature", PFloat seven_tenths);
         ("max_tokens", PInt 2000)].

Definition default_ui_preferences : pyval :=
  PDict [("theme", PStr "light"); ("show_explanations", PBool true)].

(** Lines 15-30. *)
Definition default_settings : list (string * pyval) :=
  [("api_keys", default_api_keys);
   ("model_preferences", default_model_preferences);
   ("ui_preferences", default_ui_preferences)].

(** [a[key] = value] for a text [key]. *)
Definition py_setitem (a : pyval) (key : string) (value : pyval) : outcome pyval :=
  match a with
  | PDict d => Ok (PDict (dict_set key value d))
  | _ => Raise TypeError
  end.

(** [if key not in settings: settings[key] = value]; the settings after
    it. *)
Definition ensure (key : string) (value : pyval) (settings : pyval) : outcome pyval :=
  match py_contains key settings with
  | Ok true => Ok settings
  | Ok false => py_setitem settings key value
  | Raise e => Raise e
  end.

(** The dict after [if key not in d: d[key] = value]. *)
Definition ensured (key : string) (value : pyval) (d : list (string * pyval))
    : list (string * pyval) :=
  if bool_decide (is_Some (dict_lookup key d)) then d else dict_set key value d.

Section initialize.
Context {J : JsonModule}.

(** Lines 8-30: the settings of the session once they are there.
    [session] is [st.session_state.settings] when the session has it,
    [settings_file] the text of settings.json when the file exists. *)
Definition load_settings (session : option pyval) (settings_file : option string)
    : outcome pyval :=
  match session with
  | Some settings => Ok settings
  | None =>
      match settings_file with
      | Some content => json_loads content
      | None => Ok (PDict default_settings)
      end
  end.

(** Lines 6-48: [st.session_state.settings] at the end ([None] when the
    session still has none), and how the function ended. *)
Definition initialize_settings (session : option pyval) (settings_file : option string)
    : option pyval * outcome unit :=
  match load_settings session settings_file with
  | Raise e => (session, Raise e)
  | Ok settings =>
      match ensure "model_preferences" default_model_preferences settings with
      | Raise e => (Some settings, Raise e)
      | Ok settings1 =>
          match ensure "ui_preferences" default_ui_preferences settings1 with
          | Raise e => (Some settings1, Raise e)
          | Ok settings2 =>
              match ensure "api_keys" default_api_keys settings2 with
              | Raise e => (Some settings2, Raise e)
              | Ok settings3 => (Some settings3, Ok tt)
              end
          end
      end
  end.
End initialize.

(** What line 11 finds under settings.json: nothing; a file that [open] or
    the read of [json.load] cannot deliver, with the exception they raise
    (an OSError for a directory or a missing permission, a
    UnicodeDecodeError); or a file, with its text.  [E] is the type of
    these exceptions. *)
Inductive settings_json (E : Type) : Type :=
| Absent
| Unreadable (e : E)
| Content (text : string).
Arguments Absent {E}.
Arguments Unreadable {E} e.
Arguments Content {E} text.

(** The text that [json.load] gets to decode, if any. *)
Definition file_text {E : Type} (disk : settings_json E) : option string :=
  match disk with
  | Content text => Some text
  | Absent | Unreadable _ => None
  end.

(** Lines 6-48 with the file system in.  When the session has no settings
    and the file cannot be read, lines 12-13 raise before
    [st.session_state.settings] is assigned; in every other case the
    function goes as [initialize_settings] says (a session that has
    settings does not look at the file).  The second component is the
    exception of the file system that left the function, or else how
    [initialize_settings] ended. *)
Definition initialize_settings_on_disk {E : Type} {J : JsonModule}
    (session : option pyval) (disk : settings_json E)
    : option pyval * (E + outcome unit) :=
  match session, disk with
  | None, Unreadable e => (None, inl e)
  | _, _ =>
      (fst (initialize_settings session (file_text disk)),
       inr (snd (initialize_settings session (file_text disk))))
  end.

(** Line 99, [st.session_state.settings["api_keys"]["openai"]], the first
    thing the page reads after [initialize_settings()]. *)
Definition openai_key_of (settings : pyval) : outcome pyval :=
  match py_getitem settings (PStr "api_keys") with
  | Ok api_keys => py_getitem api_keys (PStr "openai")
  | Raise e => Raise e
  end.

(** The text [{"api_keys": {"mistral": "k"}}] of a settings.json. *)
Definition partial_file : string :=
  "{" ++ quoted "api_keys" ++ ": {" ++ quoted "mistral" ++ ": " ++ quoted "k" ++ "}}".

End settings.

(** * Properties *)

(** ** The effect monad *)

Lemma bind_ret {A B} (a : A) (k : A -> M B) : bind (ret a) k = k a.
Proof. unfold bind, ret. destruct (k a) as [log r]. reflexivity. Qed.

Lemma bind_lift_ok {A B} (a : A) (k : A -> M B) : bind (lift (Ok a)) k = k a.
Proof. apply bind_ret. Qed.

Lemma bind_lift_raise {A B} (e : exn) (k : A -> M B) :
  bind (lift (Raise e)) k = ([], Raise e).
Proof. reflexivity. Qed.

Lemma bind_call {B} (c : st_call) (k : unit -> M B) :
  bind (call c) k = (c :: calls (k tt), result (k tt)).
Proof. unfold bind, call, calls, result. destruct (k tt) as [log r]. reflexivity. Qed.

Lemma result_bind {A B} (m : M A) (k : A -> M B) :
  result (bind m k) =
  match result m with
  | Ok a => result (k a)
  | Raise e => Raise e
  end.
Proof.
  destruct m as [log [a | e]]; simpl; [| reflexivity].
  destruct (k a) as [log' r]. reflexivity.
Qed.

(** ** The JSON reader *)

(** The reader is total in the sense that matters here: every call reads
    at least one character before it recurses, so the fuel that [json.loads]
    supplies is never used up. *)
Module json_facts.
Import json.
Local Open Scope nat_scope.

Local Abbreviation len := String.length.

Lemma tail_length (c : ascii) (s : string) :
  next_is c s = true -> S (len (tail s)) = len s.
Proof. destruct s; [discriminate | reflexivity]. Qed.

Lemma tail_le (s : string) : len (tail s) <= len s.
Proof. destruct s; simpl; lia. Qed.

Lemma skip_whitespace_length (s : string) : forall pos,
  len (fst (skip_whitespace s pos)) <= len s.
Proof.
  induction s as [| c rest IH]; intros pos; simpl; [lia |].
  destruct (is_whitespace c); simpl; [specialize (IH (S pos)) |]; lia.
Qed.

Lemma skip_whitespace_le (s s' : string) (pos pos' : nat) :
  skip_whitespace s pos = (s', pos') -> len s' <= len s.
Proof. intros H. pose proof (skip_whitespace_length s pos) as Hle. rewrite H in Hle. exact Hle. Qed.

Lemma span_digits_length (s : string) :
  len (fst (span_digits s)) + len (snd (span_digits s)) = len s.
Proof.
  induction s as [| c rest IH]; simpl; [reflexivity |].
  destruct (is_digit c); [| reflexivity].
  destruct (span_digits rest) as [ds rest']. simpl in *. lia.
Qed.

Lemma span_digits_le (s ds rest : string) :
  span_digits s = (ds, rest) -> len ds + len rest = len s.
Proof. intros H. pose proof (span_digits_length s) as Hlen. rewrite H in Hlen. exact Hlen. Qed.

Lemma hex4_length (s rest : string) (n : N) :
  hex4 s = Some (n, rest) -> len s = 4 + len rest.
Proof.
  unfold hex4. destruct s as [| a [| b [| c [| d s]]]]; try discriminate.
  destruct (hex_value a), (hex_value b), (hex_value c), (hex_value d); try discriminate.
  intros [= _ <-]. reflexivity.
Qed.

Lemma unicode_escape_ok (s rest : string) (pos p : nat) (cp : N) :
  unicode_escape s pos = Ok (cp, (rest, p)) -> len rest < len s.
Proof.
  unfold unicode_escape.
  destruct (hex4 s) as [[cp1 after] |] eqn:Hhex; [| discriminate].
  apply hex4_length in Hhex.
  destruct (String.eqb after ""); [discriminate |].
  destruct (_ && _ && _ && _).
  - destruct (hex4 (tail (tail after))) as [[cp2 after2] |] eqn:Hhex2; [| discriminate].
    apply hex4_length in Hhex2.
    pose proof (tail_le after). pose proof (tail_le (tail after)).
    destruct (is_low_surrogate cp2); intros [= _ <- _]; lia.
  - intros [= _ <- _]. lia.
Qed.

Lemma unicode_escape_raise (s : string) (pos : nat) (e : exn) :
  unicode_escape s pos = Raise e -> e <> RecursionError.
Proof.
  unfold unicode_escape.
  destruct (hex4 s) as [[cp1 after] |]; [| intros [= <-]; discriminate].
  destruct (String.eqb after ""); [intros [= <-]; discriminate |].
  destruct (_ && _ && _ && _); [| discriminate].
  destruct (hex4 (tail (tail after))) as [[cp2 after2] |]; [| intros [= <-]; discriminate].
  destruct (is_low_surrogate cp2); discriminate.
Qed.

Lemma scanstring_ok : forall (fuel : nat) (s : string) (pos begin : nat) (acc str rest : string) (p : nat),
  scanstring fuel s pos begin acc = Ok (str, (rest, p)) -> len rest < len s.
Proof.
  induction fuel as [| fuel IH]; intros s pos begin acc str rest p; [discriminate |].
  cbn [scanstring]. destruct s as [| c s]; [discriminate |].
  destruct (Ascii.eqb c quote); [intros [= _ <- _]; simpl; lia |].
  destruct (Ascii.eqb c "\").
  - destruct s as [| e s]; [discriminate |].
    destruct (Ascii.eqb e "u").
    + destruct (unicode_escape s (S pos)) as [[cp [s' pos']] | err] eqn:Hesc; [| discriminate].
      apply unicode_escape_ok in Hesc. intros H. apply IH in H. simpl. lia.
    + destruct (escape e); [| discriminate].
      intros H. apply IH in H. simpl. lia.
  - destruct (Nat.leb _ 31); [discriminate |].
    intros H. apply IH in H. simpl. lia.
Qed.

Lemma scanstring_fuel : forall (fuel : nat) (s : string) (pos begin : nat) (acc : string),
  len s < fuel -> scanstring fuel s pos begin acc <> Raise RecursionError.
Proof.
  induction fuel as [| fuel IH]; intros s pos begin acc Hfuel; [lia |].
  cbn [scanstring]. destruct s as [| c s]; [discriminate |]. simpl in Hfuel.
  destruct (Ascii.eqb c quote); [discriminate |].
  destruct (Ascii.eqb c "\").
  - destruct s as [| e s]; [discriminate |]. simpl in Hfuel.
    destruct (Ascii.eqb e "u").
    + destruct (unicode_escape s (S pos)) as [[cp [s' pos']] | err] eqn:Hesc.
      * apply unicode_escape_ok in Hesc. apply IH. lia.
      * apply unicode_escape_raise in Hesc. congruence.
    + destruct (escape e); [| discriminate]. apply IH. lia.
  - destruct (Nat.leb _ 31); [discriminate |]. apply IH. lia.
Qed.

Lemma drop_le (n : nat) : forall s : string, len (drop n s) <= len s.
Proof.
  induction n as [| n IH]; intros s; [destruct s; simpl; lia |].
  destruct s as [| c s]; simpl; [lia |]. specialize (IH s). lia.
Qed.

Lemma drop_lt (n : nat) (s : string) : s <> "" -> len (drop (S n) s) < len s.
Proof.
  destruct s as [| c s]; [congruence | intros _]. simpl.
  pose proof (drop_le n s). lia.
Qed.


Lemma prefix_nonempty (c : ascii) (p s : string) :
  String.prefix (String c p) s = true -> s <> "".
Proof. destruct s; [discriminate | discriminate]. Qed.

Lemma match_integer_length (s ds rest : string) (negative : bool) :
  match_integer s = Some (negative, ds, rest) -> len rest < len s.
Proof.
  unfold match_integer. pose proof (tail_le s) as Htail.
  set (s' := if next_is "-" s then tail s else s).
  assert (len s' <= len s) as Hs' by (subst s'; destruct (next_is "-" s); lia).
  destruct (next_is "0" s') eqn:Hzero.
  - intros [= _ _ <-]. apply tail_length in Hzero. lia.
  - destruct (span_digits s') as [[| d ds'] rest'] eqn:Hspan; [discriminate |].
    apply span_digits_le in Hspan. intros [= _ _ <-]. simpl in Hspan. lia.
Qed.

Lemma match_fraction_length (s : string) : len (snd (match_fraction s)) <= len s.
Proof.
  unfold match_fraction. destruct (next_is "." s) eqn:Hpoint; [| simpl; lia].
  apply tail_length in Hpoint.
  destruct (span_digits (tail s)) as [[| d ds] rest] eqn:Hspan; simpl; [lia |].
  apply span_digits_le in Hspan. simpl in Hspan. lia.
Qed.

Lemma match_exponent_length (s : string) : len (snd (match_exponent s)) <= len s.
Proof.
  unfold match_exponent. destruct (next_is "e" s || next_is "E" s); [| simpl; lia].
  pose proof (tail_le s). pose proof (tail_le (tail s)).
  destruct (span_digits _) as [[| d ds] rest] eqn:Hspan; simpl; [lia |].
  apply span_digits_le in Hspan. simpl in Hspan.
  destruct (_ || _); lia.
Qed.

Lemma match_number_length (s rest : string) (v : pyval) :
  match_number s = Some (v, rest) -> len rest < len s.
Proof.
  unfold match_number.
  destruct (match_integer s) as [[[negative ds] s1] |] eqn:Hint; [| discriminate].
  apply match_integer_length in Hint.
  pose proof (match_fraction_length s1) as Hfrac.
  destruct (match_fraction s1) as [frac s2]. simpl in Hfrac.
  pose proof (match_exponent_length s2) as Hexp.
  destruct (match_exponent s2) as [[has_exp exp] s3]. simpl in Hexp.
  destruct (_ || _); intros [= _ <-]; lia.
Qed.

Ltac skip_ws :=
  match goal with
  | |- context [skip_whitespace ?s ?pos] =>
      let s' := fresh "s" in let pos' := fresh "pos" in let H := fresh "Hskip" in
      destruct (skip_whitespace s pos) as [s' pos'] eqn:H;
      apply skip_whitespace_le in H
  end.

Ltac constant :=
  match goal with
  | |- (if String.prefix ?p ?s then Ok (_, (?r, _)) else _) = Ok (_, (?rest, _)) -> _ =>
      let Hprefix := fresh "Hprefix" in
      destruct (String.prefix p s) eqn:Hprefix;
      [ let H := fresh "H" in
        intros H; assert (rest = r) as -> by congruence;
        eapply drop_lt, prefix_nonempty; exact Hprefix
      | clear Hprefix ]
  end.

(** What a value, a member or an item is read from gets shorter. *)
Lemma scan_consumes (fuel : nat) :
  (forall s pos v rest p,
      scan_once fuel s pos = Ok (v, (rest, p)) -> len rest < len s) /\
  (forall s pos acc v rest p,
      object_items fuel s pos acc = Ok (v, (rest, p)) -> len rest < len s) /\
  (forall s pos acc v rest p,
      array_items fuel s pos acc = Ok (v, (rest, p)) -> len rest < len s).
Proof.
  induction fuel as [| fuel (IHscan & IHobject & IHarray)];
    [repeat split; discriminate |].
  split; [| split].
  - intros s pos v rest p. cbn [scan_once].
    pose proof (tail_le s) as Htail.
    destruct (next_is quote s) eqn:Hquote.
    { destruct (scanstring _ _ _ _ _) as [[str [s' pos']] | e] eqn:Hstr; [| discriminate].
      apply scanstring_ok in Hstr. intros [= _ <- _]. lia. }
    destruct (next_is "{" s) eqn:Hbrace.
    { apply tail_length in Hbrace. skip_ws.
      destruct (next_is "}" s0) eqn:Hclose.
      - apply tail_length in Hclose. intros [= _ <- _]. lia.
      - intros H. apply IHobject in H. lia. }
    destruct (next_is "[" s) eqn:Hbracket.
    { apply tail_length in Hbracket. skip_ws.
      destruct (next_is "]" s0) eqn:Hclose.
      - apply tail_length in Hclose. intros [= _ <- _]. lia.
      - intros H. apply IHarray in H. lia. }
    do 6 constant.
    destruct (match_number s) as [[v' rest'] |] eqn:Hnum; [| discriminate].
    apply match_number_length in Hnum. intros [= _ <- _]. lia.
  - intros s pos acc v rest p. cbn [object_items].
    destruct (next_is quote s) eqn:Hquote; [| discriminate].
    apply tail_length in Hquote.
    destruct (scanstring _ _ _ _ _) as [[key [s1 pos1]] | e] eqn:Hstr; [| discriminate].
    apply scanstring_ok in Hstr. skip_ws.
    destruct (next_is ":" s0) eqn:Hcolon; [| discriminate].
    apply tail_length in Hcolon. skip_ws.
    destruct (scan_once fuel s2 pos2) as [[value [s4 pos4]] | e] eqn:Hvalue; [| discriminate].
    apply IHscan in Hvalue. skip_ws.
    destruct (next_is "}" s3) eqn:Hclose.
    { apply tail_length in Hclose. intros [= _ <- _]. lia. }
    destruct (next_is "," s3) eqn:Hcomma; [| discriminate].
    apply tail_length in Hcomma. skip_ws.
    intros H. apply IHobject in H. lia.
  - intros s pos acc v rest p. cbn [array_items].
    destruct (scan_once fuel s pos) as [[value [s1 pos1]] | e] eqn:Hvalue; [| discriminate].
    apply IHscan in Hvalue. skip_ws.
    destruct (next_is "]" s0) eqn:Hclose.
    { apply tail_length in Hclose. intros [= _ <- _]. lia. }
    destruct (next_is "," s0) eqn:Hcomma; [| discriminate].
    apply tail_length in Hcomma. skip_ws.
    intros H. apply IHarray in H. lia.
Qed.

Lemma scan_once_consumes fuel s pos v rest p :
  scan_once fuel s pos = Ok (v, (rest, p)) -> len rest < len s.
Proof. apply (scan_consumes fuel). Qed.

(** With twice the length of the text as fuel (and one or two more), the
    reader never stops for lack of fuel. *)
Lemma scan_fuel (fuel : nat) :
  (forall s pos, 2 * len s + 1 <= fuel -> scan_once fuel s pos <> Raise RecursionError) /\
  (forall s pos acc,
      2 * len s + 2 <= fuel -> object_items fuel s pos acc <> Raise RecursionError) /\
  (forall s pos acc,
      2 * len s + 2 <= fuel -> array_items fuel s pos acc <> Raise RecursionError).
Proof.
  induction fuel as [| fuel (IHscan & IHobject & IHarray)];
    [repeat split; intros; lia |].
  split; [| split].
  - intros s pos Hfuel. cbn [scan_once].
    pose proof (tail_le s) as Htail.
    destruct (next_is quote s) eqn:Hquote.
    { pose proof (scanstring_fuel (len s) (tail s) (S pos) pos "") as Hstr.
      apply tail_length in Hquote.
      destruct (scanstring _ _ _ _ _) as [[str cur] | e]; [discriminate |].
      intros [= ->]. apply Hstr; [lia | reflexivity]. }
    destruct (next_is "{" s) eqn:Hbrace.
    { apply tail_length in Hbrace. skip_ws.
      destruct (next_is "}" s0); [discriminate |]. apply IHobject. lia. }
    destruct (next_is "[" s) eqn:Hbracket.
    { apply tail_length in Hbracket. skip_ws.
      destruct (next_is "]" s0); [discriminate |]. apply IHarray. lia. }
    do 6 (destruct (String.prefix _ s); [discriminate |]).
    destruct (match_number s) as [[v rest] |]; discriminate.
  - intros s pos acc Hfuel. cbn [object_items].
    destruct (next_is quote s) eqn:Hquote; [| discriminate].
    apply tail_length in Hquote.
    pose proof (scanstring_fuel (len s) (tail s) (S pos) pos "") as Hfuel_str.
    destruct (scanstring _ _ _ _ _) as [[key [s1 pos1]] | e] eqn:Hstr;
      [| intros [= ->]; apply Hfuel_str; [lia | reflexivity]].
    apply scanstring_ok in Hstr. skip_ws.
    destruct (next_is ":" s0) eqn:Hcolon; [| discriminate].
    apply tail_length in Hcolon. skip_ws.
    pose proof (IHscan s2 pos2) as Hfuel_value.
    destruct (scan_once fuel s2 pos2) as [[value [s4 pos4]] | e] eqn:Hvalue;
      [| intros [= ->]; apply Hfuel_value; [lia | reflexivity]].
    apply scan_once_consumes in Hvalue. skip_ws.
    destruct (next_is "}" s3); [discriminate |].
    destruct (next_is "," s3) eqn:Hcomma; [| discriminate].
    apply tail_length in Hcomma. skip_ws.
    apply IHobject. lia.
  - intros s pos acc Hfuel. cbn [array_items].
    pose proof (IHscan s pos) as Hfuel_value.
    destruct (scan_once fuel s pos) as [[value [s1 pos1]] | e] eqn:Hvalue;
      [| intros [= ->]; apply Hfuel_value; [lia | reflexivity]].
    apply scan_once_consumes in Hvalue. skip_ws.
    destruct (next_is "]" s0); [discriminate |].
    destruct (next_is "," s0) eqn:Hcomma; [| discriminate].
    apply tail_length in Hcomma. skip_ws.
    apply IHarray. lia.
Qed.

(** [json.loads] never fails for lack of fuel. *)
Lemma loads_has_fuel (s : string) : loads s <> Raise RecursionError.
Proof.
  unfold loads. destruct (String.prefix byte_order_mark s); [discriminate |].
  skip_ws.
  pose proof (proj1 (scan_fuel (2 * len s + 2)) s0 pos) as Hfuel.
  destruct (scan_once _ s0 pos) as [[obj [s2 pos2]] | e];
    [| intros [= ->]; apply Hfuel; [lia | reflexivity]].
  destruct (skip_whitespace s2 pos2) as [s3 pos3].
  destruct (String.eqb s3 ""); discriminate.
Qed.
End json_facts.

Example loads_list_of_numbers :
  json.loads " [1, -2, 0.5] " =
  Ok (PList [PInt 1; PInt (-2); PFloat (S754_finite false 4503599627370496 (-53))]).
Proof. reflexivity. Qed.

Example loads_last_duplicate_key_wins :
  json.loads ("{" ++ quoted "a" ++ ": 1, " ++ quoted "b" ++ ": null, " ++ quoted "a" ++ ": true}")
  = Ok (PDict [("a", PBool true); ("b", PNone)]).
Proof. reflexivity. Qed.

Example loads_trailing_comma :
  json.loads "[1,]" = Raise (JSONDecodeError "Expecting value" 3).
Proof. reflexivity. Qed.

Example loads_extra_data :
  json.loads "01" = Raise (JSONDecodeError "Extra data" 1).
Proof. reflexivity. Qed.

(** ** parse_quiz_response *)

Section parse_quiz_response_properties.
Context {J : JsonModule}.

(** A text is handed to [json.loads]; what it decodes to is returned as it
    is, and what it raises goes to the [except] clauses. *)
Lemma parse_quiz_response_text (s : string) :
  parse_quiz_response (PStr s) =
  match json_loads s with
  | Ok v => ([], Ok v)
  | Raise e => parse_quiz_response_handler e
  end.
Proof.
  unfold parse_quiz_response, parse_quiz_response_body, try_except, lift.
  destruct (json_loads s) as [v | e]; [reflexivity |].
  destruct (parse_quiz_response_handler e) as [log r]. reflexivity.
Qed.

(** A text that decodes to a list is treated like that list. *)
Lemma parse_quiz_response_text_of_list (s : string) (l : list pyval) :
  json_loads s = Ok (PList l) ->
  parse_quiz_response (PStr s) = parse_quiz_response (PList l).
Proof. intros Hloads. rewrite parse_quiz_response_text, Hloads. reflexivity. Qed.


(** C9: a list comes back unchanged, and nothing is reported:
    [parse_quiz_response] is the identity on lists. *)
Theorem parse_quiz_response_list_identity (l : list pyval) :
  parse_quiz_response (PList l) = ([], Ok (PList l)).
Proof. reflexivity. Qed.

(** C8: for a dict the result is the value stored under ["questions"], and
    the empty list when the key is absent; in both cases nothing is
    reported. *)
Theorem parse_quiz_response_dict_questions (d : list (string * pyval)) :
  parse_quiz_response (PDict d) =
  ([], Ok (match dict_lookup "questions" d with
           | Some questions => questions
           | None => PList []
           end)).
Proof.
  unfold parse_quiz_response, parse_quiz_response_body, try_except, ret.
  destruct (dict_lookup "questions" d); reflexivity.
Qed.

End parse_quiz_response_properties.



(** C1: on the text of an object [{"questions": [...]}] the function
    returns the decoded object itself, a dict, whereas on the decoded object
    it returns the list under ["questions"]: the two results differ, and the
    quiz form, which expects the list, stops with a TypeError on the dict. *)
Theorem parse_quiz_response_text_returns_object :
  json.loads sample_reply = Ok (PDict [("questions", PList [sample_question 1])]) /\
  @parse_quiz_response python_json (PStr sample_reply) =
    ([], Ok (PDict [("questions", PList [sample_question 1])])) /\
  @parse_quiz_response python_json (PDict [("questions", PList [sample_question 1])]) =
    ([], Ok (PList [sample_question 1])) /\
  @parse_quiz_response python_json (PStr sample_reply) <>
  @parse_quiz_response python_json (PDict [("questions", PList [sample_question 1])]) /\
  (forall (st : session) (doc_name : string),
      result (display_interactive_quiz_with_form st
                (PDict [("questions", PList [sample_question 1])]) doc_name)
      = Raise TypeError).
Proof.
  split; [reflexivity |]. split; [reflexivity |]. split; [reflexivity |].
  split; [| reflexivity].
  rewrite parse_quiz_response_text, parse_quiz_response_dict_questions.
  discriminate.
Qed.

(** ** The grading loop *)

Ltac run := cbv [bind lift call ret calls result]; cbn [app fst snd].

Lemma count_calls_app (p : st_call -> bool) (l1 l2 : list st_call) :
  count_calls p (l1 ++ l2) = (count_calls p l1 + count_calls p l2)%nat.
Proof. induction l1 as [| c l1 IH]; cbn; [reflexivity | rewrite IH; lia]. Qed.

(** Only a text with the same characters equals a text. *)
Lemma py_eq_text (a : pyval) (t : string) : py_eq a (PStr t) = true <-> a = PStr t.
Proof.
  destruct a; simpl; try (split; discriminate).
  rewrite String.eqb_eq. split; congruence.
Qed.

(** One round announces exactly one verdict and adds at most one to the
    count. *)
Lemma evaluate_answer_verdict answers idx q n log n' :
  evaluate_answer answers idx q n = (log, Ok n') ->
  (n' = n /\ count_calls is_correct_call log = 0 /\ count_calls is_wrong_call log = 1)%nat \/
  (n' = S n /\ count_calls is_correct_call log = 1 /\ count_calls is_wrong_call log = 0)%nat.
Proof.
  unfold evaluate_answer.
  destruct (py_getitem q (PStr "correct_answer")) as [ci | e]; [| discriminate].
  destruct (py_getitem q (PStr "options")) as [opts | e]; [run | discriminate].
  destruct (py_getitem opts ci) as [correct | e]; [| discriminate].
  destruct (py_contains "explanation" q) as [[] | e];
    destruct (py_getitem q (PStr "explanation")) as [ex | e'];
    destruct (py_eq _ correct); run; intros [= <- <-];
    try (left; repeat split; reflexivity);
    try (right; repeat split; [lia | reflexivity ..]).
Qed.

Lemma evaluate_answers_cons answers idx q rest n :
  evaluate_answers answers idx (q :: rest) n =
  bind (evaluate_answer answers idx q n)
       (fun correct_count => evaluate_answers answers (S idx) rest correct_count).
Proof. reflexivity. Qed.

Lemma bind_ok_inv {A B} (m : M A) (k : A -> M B) log b :
  bind m k = (log, Ok b) ->
  exists log1 a log2, m = (log1, Ok a) /\ k a = (log2, Ok b) /\ log = (log1 ++ log2)%list.
Proof.
  destruct m as [log1 [a | e]]; simpl; [| discriminate].
  destruct (k a) as [log2 r] eqn:Hk. intros [= <- ->].
  exists log1, a, log2. auto.
Qed.

Lemma evaluate_answers_counts answers items : forall idx n log n',
  evaluate_answers answers idx items n = (log, Ok n') ->
  n' = (n + count_calls is_correct_call log)%nat /\
  (count_calls is_correct_call log + count_calls is_wrong_call log)%nat = length items.
Proof.
  induction items as [| q rest IH]; intros idx n log n'.
  - intros [= <- <-]. split; reflexivity || (cbn; lia).
  - rewrite evaluate_answers_cons. intros H.
    apply bind_ok_inv in H as (log1 & c & log2 & Hq & Hrest & ->).
    apply IH in Hrest as [-> Hlen].
    rewrite !count_calls_app. cbn [length].
    apply evaluate_answer_verdict in Hq as [(-> & -> & ->) | (-> & -> & ->)]; lia.
Qed.

Lemma py_len_iter (v : pyval) (t : nat) :
  py_len v = Ok t -> exists items, py_iter v = Ok items /\ length items = t.
Proof.
  destruct v; try discriminate; intros [= <-]; eexists; (split; [reflexivity |]).
  - induction s; simpl; congruence.
  - reflexivity.
  - apply length_map.
Qed.

Lemma grade_inv quiz_data answers log c t :
  grade quiz_data answers = (log, Ok (c, t)) ->
  exists items log',
    py_len quiz_data = Ok t /\ py_iter quiz_data = Ok items /\ length items = t /\
    evaluate_answers answers 0 items 0 = (log', Ok c) /\
    log = (log' ++ [st_markdown (YourScore c t)])%list.
Proof.
  unfold grade.
  destruct (py_len quiz_data) as [t' | e] eqn:Hlen; [| discriminate].
  destruct (py_len_iter _ _ Hlen) as (items & Hiter & Hitems).
  rewrite Hiter, !bind_lift_ok.
  destruct (evaluate_answers answers 0 items 0) as [log' [c' | e]] eqn:Hloop;
    run; [| discriminate].
  intros [= <- <- <-]. exists items, log'. auto.
Qed.

(** *** Valid records *)

Lemma forallb_is_text_lookup (options : list pyval) (j : nat) (v : pyval) :
  forallb is_text options = true -> options !! j = Some v -> exists text, v = PStr text.
Proof.
  intros Hall Hj. apply list_elem_of_lookup_2, list_elem_of_In in Hj.
  rewrite forallb_forall in Hall. specialize (Hall v Hj).
  destruct v; try discriminate. eauto.
Qed.

Lemma valid_question_inv (q : pyval) :
  valid_question q = true ->
  exists d options c text,
    q = PDict d /\
    dict_lookup "options" d = Some (PList options) /\
    dict_lookup "correct_answer" d = Some (PInt c) /\
    0 <= c < Z.of_nat (length options) /\
    options !! Z.to_nat c = Some (PStr text) /\
    correct_option q = Some (PStr text).
Proof.
  destruct q as [| | | | | | d]; try discriminate. simpl.
  destruct (dict_lookup "options" d) as [[| | | | | options |] |] eqn:Hoptions;
    try discriminate.
  destruct (dict_lookup "correct_answer" d) as [[| | c | | | |] |] eqn:Hc;
    try discriminate.
  rewrite !andb_true_iff, Z.leb_le, Z.ltb_lt. intros [[Htext Hlo] Hhi].
  destruct (options !! Z.to_nat c) as [v |] eqn:Hv.
  - destruct (forallb_is_text_lookup _ _ _ Htext Hv) as [text ->].
    exists d, options, c, text. rewrite (proj2 (Z.leb_le 0 c) Hlo). auto 10.
  - apply lookup_ge_None in Hv. lia.
Qed.

Lemma list_item_in_range (options : list pyval) (c : Z) (v : pyval) :
  0 <= c -> options !! Z.to_nat c = Some v -> list_item options c = Ok v.
Proof.
  intros Hlo Hv. unfold list_item, normalize_index.
  pose proof (lookup_lt_Some _ _ _ Hv) as Hlt.
  rewrite (proj2 (Z.ltb_ge c 0) Hlo), (proj2 (Z.leb_le 0 c) Hlo).
  rewrite (proj2 (Z.ltb_lt c _)) by lia. simpl. rewrite Hv. reflexivity.
Qed.

Lemma py_eq_selection (selection : option pyval) (text : string) :
  py_eq (default PNone selection) (PStr text) =
  match selection with
  | Some (PStr selected) => String.eqb selected text
  | _ => false
  end.
Proof. destruct selection as [[] |]; reflexivity. Qed.

(** On a valid record a round cannot fail: it compares the selection with
    the text of the correct option and shows the verdict. *)
Lemma evaluate_answer_valid answers idx q n :
  valid_question q = true ->
  evaluate_answer answers idx q n =
  (question_calls answers idx q,
   Ok (if answered_correctly answers idx q then S n else n)).
Proof.
  intros Hvalid.
  destruct (valid_question_inv q Hvalid)
    as (d & options & c & text & -> & Hoptions & Hc & [Hlo Hhi] & Htext & Hcorrect).
  unfold evaluate_answer, question_calls, answered_correctly, explanation_calls.
  rewrite Hcorrect. cbn [py_getitem dict_item py_contains].
  rewrite Hc, Hoptions. rewrite !bind_lift_ok. cbn [py_getitem].
  rewrite (list_item_in_range _ _ _ Hlo Htext), bind_lift_ok.
  rewrite py_eq_selection, (Nat.add_1_r n).
  destruct (dict_lookup "explanation" d) as [explanation |];
    destruct (answers !! idx) as [[| | | | selected | |] |];
    try destruct (String.eqb selected text); reflexivity.
Qed.

Lemma evaluate_answers_valid answers items : forall idx n,
  forallb valid_question items = true ->
  evaluate_answers answers idx items n =
  (quiz_calls answers idx items, Ok (n + count_correct answers idx items)%nat).
Proof.
  induction items as [| q rest IH]; intros idx n Hvalid.
  - cbn. rewrite Nat.add_0_r. reflexivity.
  - cbn [forallb] in Hvalid. apply andb_true_iff in Hvalid as [Hq Hrest].
    rewrite evaluate_answers_cons, (evaluate_answer_valid _ _ _ _ Hq).
    unfold bind. rewrite (IH _ _ Hrest). cbn [quiz_calls count_correct].
    destruct (answered_correctly answers idx q); do 2 f_equal; lia.
Qed.

Lemma grade_valid items answers :
  forallb valid_question items = true ->
  grade (PList items) answers =
  ((quiz_calls answers 0 items
    ++ [st_markdown (YourScore (count_correct answers 0 items) (length items))])%list,
   Ok (count_correct answers 0 items, length items)).
Proof.
  intros Hvalid. unfold grade. cbn [py_len py_iter]. rewrite !bind_lift_ok.
  rewrite (evaluate_answers_valid _ _ _ _ Hvalid). reflexivity.
Qed.

Lemma count_correct_le answers items : forall idx,
  (count_correct answers idx items <= length items)%nat.
Proof.
  induction items as [| q rest IH]; intros idx; cbn; [lia |].
  specialize (IH (S idx)). destruct (answered_correctly answers idx q); lia.
Qed.

Lemma count_correct_lt answers items : forall idx i q,
  items !! i = Some q ->
  answered_correctly answers (idx + i) q = false ->
  (count_correct answers idx items < length items)%nat.
Proof.
  induction items as [| q0 rest IH]; intros idx i q Hi Hwrong; [discriminate |].
  destruct i as [| i]; cbn in *.
  - injection Hi as ->. rewrite Nat.add_0_r in Hwrong. rewrite Hwrong.
    pose proof (count_correct_le answers rest (S idx)). lia.
  - replace (idx + S i)%nat with (S idx + i)%nat in Hwrong by lia.
    specialize (IH _ _ _ Hi Hwrong).
    destruct (answered_correctly answers idx q0); lia.
Qed.

Lemma question_calls_wrong answers idx q :
  valid_question q = true ->
  answered_correctly answers idx q = false ->
  In (st_error (QuestionWrong (idx + 1))) (question_calls answers idx q).
Proof.
  intros Hvalid Hwrong.
  destruct (valid_question_inv q Hvalid) as (d & ? & ? & text & -> & _ & _ & _ & _ & Hcorrect).
  unfold question_calls. rewrite Hcorrect, Hwrong. left. reflexivity.
Qed.

Lemma question_calls_correct answers idx q k :
  In (st_success (QuestionCorrect k)) (question_calls answers idx q) ->
  k = (idx + 1)%nat /\ answered_correctly answers idx q = true.
Proof.
  unfold question_calls, explanation_calls.
  destruct q as [| | | | | | d]; try (intros []).
  destruct (correct_option (PDict d)) as [correct |]; [| intros []].
  destruct (answered_correctly answers idx (PDict d));
    destruct (dict_lookup "explanation" d); cbn;
    intuition (try discriminate; try congruence).
Qed.

Lemma quiz_calls_wrong answers items : forall idx i q,
  forallb valid_question items = true ->
  items !! i = Some q ->
  answered_correctly answers (idx + i) q = false ->
  In (st_error (QuestionWrong (idx + i + 1))) (quiz_calls answers idx items).
Proof.
  induction items as [| q0 rest IH]; intros idx i q Hvalid Hi Hwrong; [discriminate |].
  cbn [forallb] in Hvalid. apply andb_true_iff in Hvalid as [Hq0 Hrest].
  cbn [quiz_calls]. apply in_or_app. destruct i as [| i]; cbn in Hi.
  - injection Hi as ->. left. rewrite Nat.add_0_r in *.
    apply question_calls_wrong; assumption.
  - right. replace (idx + S i)%nat with (S idx + i)%nat in * by lia.
    apply (IH _ _ q); assumption.
Qed.

Lemma quiz_calls_correct answers items k : forall idx,
  In (st_success (QuestionCorrect k)) (quiz_calls answers idx items) ->
  exists i q, items !! i = Some q /\ k = (idx + i + 1)%nat /\
              answered_correctly answers (idx + i) q = true.
Proof.
  induction items as [| q0 rest IH]; intros idx; cbn [quiz_calls]; [intros [] |].
  intros Hin. apply in_app_or in Hin as [Hin | Hin].
  - apply question_calls_correct in Hin as [-> Hok].
    exists 0%nat, q0. rewrite Nat.add_0_r. auto.
  - apply IH in Hin as (i & q & Hi & -> & Hok).
    exists (S i), q. replace (idx + S i)%nat with (S idx + i)%nat by lia. auto.
Qed.

Lemma answered_correctly_iff answers idx q text :
  correct_option q = Some (PStr text) ->
  answered_correctly answers idx q = true <-> answers !! idx = Some (PStr text).
Proof.
  intros Hcorrect. unfold answered_correctly. rewrite Hcorrect.
  destruct (answers !! idx) as [[| | | | selected | |] |];
    try (split; [discriminate | congruence]).
  rewrite String.eqb_eq. split; congruence.
Qed.

Lemma answered_correctly_unanswered answers idx q :
  answers !! idx = None -> answered_correctly answers idx q = false.
Proof. intros Hnone. unfold answered_correctly. rewrite Hnone. reflexivity. Qed.

(** C10: when the grading loop returns a score, [correct_count] lies
    between 0 and [total_questions], [total_questions] is [len(quiz_data)],
    every question received exactly one verdict, and [correct_count] is the
    number of questions announced as correct. *)
Theorem grade_score_within_total (quiz_data : pyval) (answers : gmap nat pyval)
    (log : list st_call) (correct_count total_questions : nat) :
  grade quiz_data answers = (log, Ok (correct_count, total_questions)) ->
  (0 <= correct_count <= total_questions)%nat /\
  py_len quiz_data = Ok total_questions /\
  count_calls is_correct_call log = correct_count /\
  (count_calls is_correct_call log + count_calls is_wrong_call log)%nat = total_questions.
Proof.
  intros Hgrade.
  apply grade_inv in Hgrade as (items & log' & Hlen & _ & Hitems & Hloop & ->).
  apply evaluate_answers_counts in Hloop as [Hcount Hverdicts].
  rewrite !count_calls_app. cbn in *. repeat split; try assumption; lia.
Qed.

(** The quiz "2+2?" answered "4". *)
Lemma grade_score_within_total_witness :
  (0 <= 1 <= 1)%nat /\
  py_len (PList [sample_question 1]) = Ok 1%nat /\
  count_calls is_correct_call
    [st_success (QuestionCorrect 1); st_markdown (YourScore 1 1)] = 1%nat /\
  (count_calls is_correct_call [st_success (QuestionCorrect 1); st_markdown (YourScore 1 1)]
   + count_calls is_wrong_call [st_success (QuestionCorrect 1); st_markdown (YourScore 1 1)])%nat
  = 1%nat.
Proof.
  apply (grade_score_within_total (PList [sample_question 1]) {[0%nat := PStr "4"]}).
  reflexivity.
Defined.

(** C4: on valid records the score is the number of questions whose
    recorded selection is, as a text, the text of [options[correct_answer]];
    a round adds one exactly when the selection has that text, so with
    duplicate texts among the options, selecting any option that carries the
    correct text counts as correct, whatever its position; and the quiz
    "2+2?" answered "4" scores 1 out of 1. *)
Theorem grade_compares_text_by_value :
  (forall (items : list pyval) (answers : gmap nat pyval),
      forallb valid_question items = true ->
      result (grade (PList items) answers) =
      Ok (count_correct answers 0 items, length items)) /\
  (forall (answers : gmap nat pyval) (idx : nat) (q : pyval) (n : nat) (text : string),
      valid_question q = true ->
      correct_option q = Some (PStr text) ->
      (answers !! idx = Some (PStr text) ->
       result (evaluate_answer answers idx q n) = Ok (S n)) /\
      (answers !! idx <> Some (PStr text) ->
       result (evaluate_answer answers idx q n) = Ok n)) /\
  (forall (answers : gmap nat pyval) (idx : nat) (d : list (string * pyval))
          (options : list pyval) (j n : nat) (text : string),
      valid_question (PDict d) = true ->
      dict_lookup "options" d = Some (PList options) ->
      correct_option (PDict d) = Some (PStr text) ->
      options !! j = Some (PStr text) ->
      answers !! idx = options !! j ->
      evaluate_answer answers idx (PDict d) n =
      (st_success (QuestionCorrect (idx + 1)) :: explanation_calls d, Ok (S n))) /\
  grade (PList [sample_question 1]) {[0%nat := PStr "4"]} =
  ([st_success (QuestionCorrect 1); st_markdown (YourScore 1 1)], Ok (1%nat, 1%nat)).
Proof.
  split; [| split; [| split]].
  - intros items answers Hvalid. rewrite (grade_valid _ _ Hvalid). reflexivity.
  - intros answers idx q n text Hvalid Hcorrect.
    rewrite (evaluate_answer_valid _ _ _ _ Hvalid). cbn [result snd].
    pose proof (answered_correctly_iff answers idx q text Hcorrect) as Hiff.
    destruct (answered_correctly answers idx q); split; intros Hsel;
      try reflexivity.
    + exfalso. apply Hsel, Hiff. reflexivity.
    + apply Hiff in Hsel. discriminate.
  - intros answers idx d options j n text Hvalid Hoptions Hcorrect Hj Hsel.
    rewrite (evaluate_answer_valid _ _ _ _ Hvalid). unfold question_calls.
    rewrite Hj in Hsel.
    rewrite Hcorrect, (proj2 (answered_correctly_iff answers idx _ text Hcorrect) Hsel).
    reflexivity.
  - reflexivity.
Qed.

Lemma grade_compares_text_by_value_witness :
  result (grade (PList [sample_question 1; sample_question 0])
                {[0%nat := PStr "4"; 1%nat := PStr "4"]}) = Ok (1%nat, 2%nat) /\
  result (evaluate_answer {[0%nat := PStr "4"]} 0 (sample_question 1) 0) = Ok 1%nat /\
  evaluate_answer {[0%nat := PStr "4"]} 0
    (PDict [("options", PList [PStr "4"; PStr "4"; PStr "5"; PStr "6"]);
            ("correct_answer", PInt 0)]) 0 =
  ([st_success (QuestionCorrect 1)], Ok 1%nat).
Proof.
  split; [| split].
  - etransitivity.
    + apply (proj1 grade_compares_text_by_value
               [sample_question 1; sample_question 0]
               {[0%nat := PStr "4"; 1%nat := PStr "4"]}).
      reflexivity.
    + reflexivity.
  - apply (proj1 (proj2 grade_compares_text_by_value)
             {[0%nat := PStr "4"]} 0%nat (sample_question 1) 0%nat "4");
      reflexivity.
  - apply (proj1 (proj2 (proj2 grade_compares_text_by_value))
             {[0%nat := PStr "4"]} 0%nat
             [("options", PList [PStr "4"; PStr "4"; PStr "5"; PStr "6"]);
              ("correct_answer", PInt 0)]
             [PStr "4"; PStr "4"; PStr "5"; PStr "6"] 1%nat 0%nat "4");
      reflexivity.
Defined.

(** C5: on valid records a question without an entry in the answer mapping
    is announced as wrong and leaves [correct_count] as it was; grading
    still returns a score, which is then below the total, and no "Correct!"
    is shown for that question; the same holds for the entry [None], which
    is what the radio widget gives while nothing is selected; with one
    question and the empty mapping the score is 0 out of 1. *)
Theorem grade_unanswered_is_wrong :
  (forall (answers : gmap nat pyval) (idx : nat) (q : pyval) (n : nat),
      valid_question q = true ->
      answers !! idx = None ->
      result (evaluate_answer answers idx q n) = Ok n /\
      In (st_error (QuestionWrong (idx + 1))) (calls (evaluate_answer answers idx q n))) /\
  (forall (items : list pyval) (answers : gmap nat pyval) (i : nat),
      forallb valid_question items = true ->
      (i < length items)%nat ->
      answers !! i = None ->
      exists correct_count,
        result (grade (PList items) answers) = Ok (correct_count, length items) /\
        (correct_count < length items)%nat /\
        In (st_error (QuestionWrong (i + 1))) (calls (grade (PList items) answers)) /\
        ~ In (st_success (QuestionCorrect (i + 1))) (calls (grade (PList items) answers))) /\
  (forall (answers : gmap nat pyval) (idx : nat) (q : pyval) (n : nat),
      valid_question q = true ->
      answers !! idx = Some PNone ->
      result (evaluate_answer answers idx q n) = Ok n) /\
  grade (PList [sample_question 1]) ∅ =
  ([st_error (QuestionWrong 1); st_markdown (CorrectAnswer (PStr "4"));
    st_markdown (YourScore 0 1)], Ok (0%nat, 1%nat)).
Proof.
  split; [| split; [| split]].
  - intros answers idx q n Hvalid Hnone.
    rewrite (evaluate_answer_valid _ _ _ _ Hvalid). cbn [result calls fst snd].
    pose proof (answered_correctly_unanswered answers idx q Hnone) as Hwrong.
    rewrite Hwrong. split; [reflexivity |].
    apply question_calls_wrong; assumption.
  - intros items answers i Hvalid Hi Hnone.
    destruct (lookup_lt_is_Some_2 items i Hi) as [q Hq].
    pose proof (answered_correctly_unanswered answers i q Hnone) as Hwrong.
    exists (count_correct answers 0 items).
    rewrite (grade_valid _ _ Hvalid). cbn [result calls fst snd].
    split; [reflexivity |]. split; [| split].
    + apply (count_correct_lt answers items 0 i q); assumption.
    + apply in_or_app. left.
      apply (quiz_calls_wrong answers items 0 i q); assumption.
    + intros Hin. apply in_app_or in Hin as [Hin | [Hin | []]]; [| discriminate].
      apply quiz_calls_correct in Hin as (j & q' & _ & Hj & Hok).
      assert (j = i) as -> by lia. change (0 + i)%nat with i in Hok.
      rewrite (answered_correctly_unanswered answers i q' Hnone) in Hok.
      discriminate.
  - intros answers idx q n Hvalid Hnone.
    rewrite (evaluate_answer_valid _ _ _ _ Hvalid). cbn [result snd].
    unfold answered_correctly. rewrite Hnone. reflexivity.
  - reflexivity.
Qed.

Lemma grade_unanswered_is_wrong_witness :
  (result (evaluate_answer ∅ 0 (sample_question 1) 0) = Ok 0%nat /\
   In (st_error (QuestionWrong 1)) (calls (evaluate_answer ∅ 0 (sample_question 1) 0))) /\
  result (evaluate_answer {[0%nat := PNone]} 0 (sample_question 1) 0) = Ok 0%nat /\
  exists correct_count,
    result (grade (PList [sample_question 1; sample_question 2]) {[0%nat := PStr "4"]})
    = Ok (correct_count, 2%nat) /\
    (correct_count < 2)%nat /\
    In (st_error (QuestionWrong 2))
       (calls (grade (PList [sample_question 1; sample_question 2]) {[0%nat := PStr "4"]})) /\
    ~ In (st_success (QuestionCorrect 2))
       (calls (grade (PList [sample_question 1; sample_question 2]) {[0%nat := PStr "4"]})).
Proof.
  split; [| split].
  - apply (proj1 grade_unanswered_is_wrong ∅ 0%nat (sample_question 1) 0%nat);
      reflexivity.
  - apply (proj1 (proj2 (proj2 grade_unanswered_is_wrong))
             {[0%nat := PNone]} 0%nat (sample_question 1) 0%nat);
      reflexivity.
  - apply (proj1 (proj2 grade_unanswered_is_wrong)
             [sample_question 1; sample_question 2] {[0%nat := PStr "4"]} 1%nat);
      [reflexivity | simpl; lia | reflexivity].
Defined.

(** *** Records whose index is out of range *)

Lemma list_item_python_range (options : list pyval) (c : Z) :
  - Z.of_nat (length options) <= c < Z.of_nat (length options) ->
  exists v, options !! Z.to_nat (c mod Z.of_nat (length options)) = Some v /\
            list_item options c = Ok v.
Proof.
  intros Hrange. set (len := Z.of_nat (length options)) in *.
  assert (Hmod : 0 <= c mod len < len) by (apply Z.mod_pos_bound; lia).
  destruct (lookup_lt_is_Some_2 options (Z.to_nat (c mod len))) as [v Hv]; [lia |].
  exists v. split; [assumption |].
  unfold list_item, normalize_index. fold len.
  destruct (Z.ltb_spec c 0) as [Hneg | Hpos].
  - assert (c mod len = c + len) as Heq
      by (symmetry; apply (Z.mod_unique c len (-1)); lia).
    rewrite Heq in Hv.
    rewrite (proj2 (Z.leb_le 0 (c + len))), (proj2 (Z.ltb_lt (c + len) len)) by lia.
    simpl. rewrite Hv. reflexivity.
  - rewrite Z.mod_small in Hv by lia.
    rewrite (proj2 (Z.leb_le 0 c)), (proj2 (Z.ltb_lt c len)) by lia.
    simpl. rewrite Hv. reflexivity.
Qed.

Lemma list_item_out_of_range (options : list pyval) (c : Z) :
  c < - Z.of_nat (length options) \/ Z.of_nat (length options) <= c ->
  list_item options c = Raise IndexError.
Proof.
  intros Hout. unfold list_item, normalize_index.
  destruct (Z.ltb_spec c 0) as [Hneg | Hpos].
  - rewrite (proj2 (Z.leb_gt 0 (c + _))) by lia. reflexivity.
  - rewrite (proj2 (Z.leb_le 0 c)), (proj2 (Z.ltb_ge c _)) by lia. reflexivity.
Qed.

Lemma index_out_of_range_inv (q : pyval) :
  index_out_of_range q = true ->
  exists d options c,
    q = PDict d /\
    dict_lookup "options" d = Some (PList options) /\
    dict_lookup "correct_answer" d = Some (PInt c) /\
    (c < - Z.of_nat (length options) \/ Z.of_nat (length options) <= c).
Proof.
  destruct q as [| | | | | | d]; try discriminate. simpl.
  destruct (dict_lookup "options" d) as [[| | | | | options |] |] eqn:Hoptions;
    try discriminate.
  destruct (dict_lookup "correct_answer" d) as [[| | c | | | |] |] eqn:Hc;
    try discriminate.
  rewrite orb_true_iff, Z.ltb_lt, Z.leb_le. intros Hout.
  exists d, options, c. auto.
Qed.

Lemma evaluate_answer_out_of_range answers idx q n :
  index_out_of_range q = true ->
  evaluate_answer answers idx q n = ([], Raise IndexError).
Proof.
  intros Hout.
  destruct (index_out_of_range_inv q Hout) as (d & options & c & -> & Hoptions & Hc & Hc').
  unfold evaluate_answer. cbn [py_getitem dict_item].
  rewrite Hc, Hoptions, !bind_lift_ok. cbn [py_getitem].
  rewrite (list_item_out_of_range _ _ Hc'). reflexivity.
Qed.

Lemma evaluate_answers_out_of_range answers items q : forall idx n,
  In q items ->
  index_out_of_range q = true ->
  exists e, result (evaluate_answers answers idx items n) = Raise e.
Proof.
  induction items as [| q0 rest IH]; intros idx n Hin Hout; [destruct Hin |].
  rewrite evaluate_answers_cons, result_bind.
  destruct Hin as [-> | Hin].
  - rewrite (evaluate_answer_out_of_range _ _ _ _ Hout). eauto.
  - destruct (result (evaluate_answer answers idx q0 n)) as [c | e]; eauto.
Qed.

Lemma grade_out_of_range items answers q :
  In q items ->
  index_out_of_range q = true ->
  exists e, result (grade (PList items) answers) = Raise e.
Proof.
  intros Hin Hout. unfold grade. cbn [py_len py_iter]. rewrite !bind_lift_ok.
  rewrite result_bind.
  destruct (evaluate_answers_out_of_range answers items q 0 0 Hin Hout) as [e ->].
  eauto.
Qed.

(** C2: the index is not validated.  A [correct_answer] from
    [-len(options)] up to [len(options) - 1] resolves, a negative one
    counting from the end; for any other integer the lookup in the grading
    loop raises IndexError before anything is shown for the question, and a
    quiz that contains such a record ends in an exception instead of a
    score, also when run through the whole form. *)
Theorem correct_answer_index_is_not_validated :
  (forall (options : list pyval) (c : Z),
      - Z.of_nat (length options) <= c < Z.of_nat (length options) ->
      exists v, options !! Z.to_nat (c mod Z.of_nat (length options)) = Some v /\
                py_getitem (PList options) (PInt c) = Ok v) /\
  (forall (answers : gmap nat pyval) (idx : nat) (q : pyval) (n : nat),
      index_out_of_range q = true ->
      evaluate_answer answers idx q n = ([], Raise IndexError)) /\
  (forall (items : list pyval) (answers : gmap nat pyval) (q : pyval),
      In q items ->
      index_out_of_range q = true ->
      exists e, result (grade (PList items) answers) = Raise e) /\
  (forall (st : session) (items : list pyval) (doc_name : string) (q : pyval),
      In q items ->
      index_out_of_range q = true ->
      form_submit_button st = true ->
      exists e, result (display_interactive_quiz_with_form st (PList items) doc_name)
                = Raise e).
Proof.
  split; [| split; [| split]].
  - intros options c Hrange. apply list_item_python_range. assumption.
  - intros. apply evaluate_answer_out_of_range. assumption.
  - intros. eapply grade_out_of_range; eassumption.
  - intros st items doc_name q Hin Hout Hsubmit.
    unfold display_interactive_quiz_with_form.
    rewrite !bind_call. cbn [result snd py_iter]. rewrite bind_lift_ok, result_bind.
    destruct (result (display_questions st _ 0 items ∅)) as [answers | e]; [| eauto].
    rewrite bind_call. cbn [result snd]. rewrite Hsubmit, result_bind.
    destruct (grade_out_of_range items answers q Hin Hout) as [e ->]. eauto.
Qed.

Lemma correct_answer_index_is_not_validated_witness :
  (exists v, [PStr "3"; PStr "4"; PStr "5"; PStr "6"] !! Z.to_nat (-1 mod 4) = Some v /\
             py_getitem sample_options (PInt (-1)) = Ok v) /\
  evaluate_answer {[0%nat := PStr "4"]} 0 (sample_question 4) 0 = ([], Raise IndexError) /\
  (exists e, result (grade (PList [sample_question 1; sample_question (-5)]) ∅) = Raise e) /\
  (exists e, result (display_interactive_quiz_with_form (visitor (fun _ => Some 1%nat) true)
                       (PList [sample_question 4]) "doc") = Raise e).
Proof.
  split; [| split; [| split]].
  - apply (proj1 correct_answer_index_is_not_validated
             [PStr "3"; PStr "4"; PStr "5"; PStr "6"] (-1)).
    simpl. lia.
  - apply (proj1 (proj2 correct_answer_index_is_not_validated)
             {[0%nat := PStr "4"]} 0%nat (sample_question 4) 0%nat).
    reflexivity.
  - apply (proj1 (proj2 (proj2 correct_answer_index_is_not_validated))
             [sample_question 1; sample_question (-5)] ∅ (sample_question (-5)));
      [simpl; auto | reflexivity].
  - apply (proj2 (proj2 (proj2 correct_answer_index_is_not_validated))
             (visitor (fun _ => Some 1%nat) true) [sample_question 4] "doc"
             (sample_question 4));
      [simpl; auto | reflexivity | reflexivity].
Defined.

(** No validation stands before the grading loop: a record with
    [correct_answer = 4] and four options goes through the form, reaches the
    loop when the form is submitted, and the lookup there raises
    IndexError. *)
Lemma out_of_range_record_is_graded :
  ~ (0 <= 4 < Z.of_nat (length [PStr "3"; PStr "4"; PStr "5"; PStr "6"])) /\
  display_interactive_quiz_with_form (visitor (fun _ => Some 1%nat) true)
    (PList [sample_question 4]) "doc" =
  ([st_form "quiz_form_doc";
    st_write (Literal "Answer the questions and click 'Submit' to check your score.");
    st_subheader (QuestionHeading 1 (PStr "2+2?"));
    st_radio (ChooseAnswer 1) sample_options ("quiz_form_doc", 0%nat);
    st_form_submit_button "Submit & Check Score"],
   Raise IndexError).
Proof. split; [simpl; lia | reflexivity]. Qed.

(** ** display_enhanced_summary *)

Lemma display_enhanced_summary_unfold (summary_data : pyval) :
  display_enhanced_summary summary_data =
  bind (call (st_markdown StyleSheet)) (fun _ =>
  bind (summary_section summary_data) (fun _ =>
  bind (key_skills_section summary_data) (fun _ =>
  bind (difficulty_section summary_data) (fun _ =>
  estimated_time_section summary_data)))).
Proof. reflexivity. Qed.

Lemma summary_section_dict (d : list (string * pyval)) :
  summary_section (PDict d) =
  match dict_lookup "summary" d with
  | Some summary => ([st_markdown (SummaryCard summary)], Ok tt)
  | None => ([], Raise (KeyError (PStr "summary")))
  end.
Proof.
  unfold summary_section. cbn [py_getitem dict_item].
  destruct (dict_lookup "summary" d); reflexivity.
Qed.

Lemma key_skills_section_missing (d : list (string * pyval)) :
  dict_lookup "key_skills" d = None ->
  key_skills_section (PDict d) = ([], Raise (KeyError (PStr "key_skills"))).
Proof.
  intros Hnone. unfold key_skills_section. cbn [py_getitem dict_item].
  rewrite Hnone. reflexivity.
Qed.

Lemma difficulty_section_dict (d : list (string * pyval)) :
  difficulty_section (PDict d) =
  match from_option id (PStr "Medium") (dict_lookup "difficulty" d) with
  | PStr s =>
      ([st_markdown (DifficultyCard (String.eqb (lower s) "easy")
                                    (String.eqb (lower s) "medium")
                                    (String.eqb (lower s) "hard"))], Ok tt)
  | _ => ([], Raise (AttributeError "lower"))
  end.
Proof.
  unfold difficulty_section. cbn [py_get]. rewrite bind_lift_ok.
  destruct (from_option id (PStr "Medium") (dict_lookup "difficulty" d)); reflexivity.
Qed.

Lemma estimated_time_section_missing (d : list (string * pyval)) :
  dict_lookup "estimated_time" d = None ->
  estimated_time_section (PDict d) = ([], Raise (KeyError (PStr "estimated_time"))).
Proof.
  intros Hnone. unfold estimated_time_section. cbn [py_getitem dict_item].
  rewrite Hnone. reflexivity.
Qed.

(** C6: none of [summary], [key_skills] and [estimated_time] has a default.
    A record without [key_skills] makes the function raise
    KeyError('key_skills') once the summary card is shown, no empty list of
    skills is drawn; a record without [summary] raises KeyError('summary');
    and a record without [estimated_time] ends in an exception, which is
    KeyError('estimated_time') when the three cards before it could be
    drawn. *)
Theorem summary_keys_are_not_defaulted (d : list (string * pyval)) :
  (dict_lookup "summary" d = None ->
   display_enhanced_summary (PDict d) =
   ([st_markdown StyleSheet], Raise (KeyError (PStr "summary")))) /\
  (forall summary : pyval,
      dict_lookup "summary" d = Some summary ->
      dict_lookup "key_skills" d = None ->
      display_enhanced_summary (PDict d) =
      ([st_markdown StyleSheet; st_markdown (SummaryCard summary)],
       Raise (KeyError (PStr "key_skills")))) /\
  (dict_lookup "estimated_time" d = None ->
   exists e, result (display_enhanced_summary (PDict d)) = Raise e) /\
  (forall (summary : pyval) (skills : list pyval) (difficulty : string),
      dict_lookup "summary" d = Some summary ->
      dict_lookup "key_skills" d = Some (PList skills) ->
      from_option id (PStr "Medium") (dict_lookup "difficulty" d) = PStr difficulty ->
      dict_lookup "estimated_time" d = None ->
      result (display_enhanced_summary (PDict d)) = Raise (KeyError (PStr "estimated_time"))).
Proof.
  rewrite display_enhanced_summary_unfold.
  split; [| split; [| split]].
  - intros Hnone. rewrite summary_section_dict, Hnone. reflexivity.
  - intros summary Hsummary Hnone.
    rewrite summary_section_dict, Hsummary, (key_skills_section_missing _ Hnone).
    reflexivity.
  - intros Hnone. rewrite bind_call. cbn [result snd]. rewrite !result_bind.
    destruct (result (summary_section (PDict d))); [| eauto].
    destruct (result (key_skills_section (PDict d))); [| eauto].
    destruct (result (difficulty_section (PDict d))); [| eauto].
    rewrite (estimated_time_section_missing _ Hnone). eauto.
  - intros summary skills difficulty Hsummary Hskills Hdifficulty Hnone.
    rewrite summary_section_dict, Hsummary, difficulty_section_dict, Hdifficulty.
    rewrite (estimated_time_section_missing _ Hnone).
    unfold key_skills_section. cbn [py_getitem dict_item]. rewrite Hskills.
    reflexivity.
Qed.

Lemma summary_keys_are_not_defaulted_witness :
  display_enhanced_summary (PDict [("key_skills", PList []); ("estimated_time", PInt 30)]) =
    ([st_markdown StyleSheet], Raise (KeyError (PStr "summary"))) /\
  display_enhanced_summary (PDict [("summary", PStr "..."); ("estimated_time", PInt 30)]) =
    ([st_markdown StyleSheet; st_markdown (SummaryCard (PStr "..."))],
     Raise (KeyError (PStr "key_skills"))) /\
  (exists e, result (display_enhanced_summary
                       (PDict [("summary", PStr "..."); ("key_skills", PList [])]))
             = Raise e) /\
  result (display_enhanced_summary
            (PDict [("summary", PStr "..."); ("key_skills", PList [])]))
  = Raise (KeyError (PStr "estimated_time")).
Proof.
  split; [| split; [| split]].
  - apply (proj1 (summary_keys_are_not_defaulted
                    [("key_skills", PList []); ("estimated_time", PInt 30)])).
    reflexivity.
  - apply (proj1 (proj2 (summary_keys_are_not_defaulted
                           [("summary", PStr "..."); ("estimated_time", PInt 30)])));
      reflexivity.
  - apply (proj1 (proj2 (proj2 (summary_keys_are_not_defaulted
                                  [("summary", PStr "..."); ("key_skills", PList [])])))).
    reflexivity.
  - apply (proj2 (proj2 (proj2 (summary_keys_are_not_defaulted
                                  [("summary", PStr "..."); ("key_skills", PList [])])))
             (PStr "...") [] "Medium");
      reflexivity.
Defined.

(** A record with [summary], [difficulty] and [estimated_time] but no
    [key_skills] does not get an empty list of skills: the function raises
    KeyError('key_skills'). *)
Lemma missing_key_skills_raises :
  dict_lookup "key_skills"
    [("summary", PStr "..."); ("difficulty", PStr "Easy"); ("estimated_time", PInt 30)]
  = None /\
  display_enhanced_summary
    (PDict [("summary", PStr "..."); ("difficulty", PStr "Easy");
            ("estimated_time", PInt 30)]) =
  ([st_markdown StyleSheet; st_markdown (SummaryCard (PStr "..."))],
   Raise (KeyError (PStr "key_skills"))).
Proof. split; reflexivity. Qed.

(** C7: without a [difficulty] key the value used is ["Medium"], so the
    Medium item is the one highlighted; a text under [difficulty] is
    lower-cased before it is compared with "easy", "medium" and "hard", so
    two texts that differ only in case give the same card; and the spec's
    summary without [difficulty] is drawn with Medium highlighted. *)
Theorem difficulty_defaults_to_medium :
  (forall d : list (string * pyval),
      dict_lookup "difficulty" d = None ->
      py_get (PDict d) "difficulty" (PStr "Medium") = Ok (PStr "Medium") /\
      difficulty_section (PDict d) =
      ([st_markdown (DifficultyCard false true false)], Ok tt)) /\
  (forall (d : list (string * pyval)) (s : string),
      dict_lookup "difficulty" d = Some (PStr s) ->
      difficulty_section (PDict d) =
      ([st_markdown (DifficultyCard (String.eqb (lower s) "easy")
                                    (String.eqb (lower s) "medium")
                                    (String.eqb (lower s) "hard"))], Ok tt)) /\
  (forall (d1 d2 : list (string * pyval)) (s1 s2 : string),
      dict_lookup "difficulty" d1 = Some (PStr s1) ->
      dict_lookup "difficulty" d2 = Some (PStr s2) ->
      lower s1 = lower s2 ->
      difficulty_section (PDict d1) = difficulty_section (PDict d2)) /\
  display_enhanced_summary (PDict sample_summary) =
  ([st_markdown StyleSheet;
    st_markdown (SummaryCard (PStr "..."));
    st_markdown (KeySkillsCard [PStr "a"; PStr "b"]);
    st_markdown (DifficultyCard false true false);
    st_markdown (EstimatedTimeCard (PInt 30))], Ok tt).
Proof.
  split; [| split; [| split]].
  - intros d Hnone. unfold py_get. rewrite difficulty_section_dict, Hnone.
    split; reflexivity.
  - intros d s Hs. rewrite difficulty_section_dict, Hs. reflexivity.
  - intros d1 d2 s1 s2 Hs1 Hs2 Hlower.
    rewrite !difficulty_section_dict, Hs1, Hs2. cbn [from_option id].
    rewrite Hlower. reflexivity.
  - reflexivity.
Qed.

Lemma difficulty_defaults_to_medium_witness :
  (py_get (PDict sample_summary) "difficulty" (PStr "Medium") = Ok (PStr "Medium") /\
   difficulty_section (PDict sample_summary) =
   ([st_markdown (DifficultyCard false true false)], Ok tt)) /\
  difficulty_section (PDict [("difficulty", PStr "HARD")]) =
    ([st_markdown (DifficultyCard false false true)], Ok tt) /\
  difficulty_section (PDict [("difficulty", PStr "Easy")]) =
  difficulty_section (PDict [("difficulty", PStr "EASY")]).
Proof.
  split; [| split].
  - apply (proj1 difficulty_defaults_to_medium sample_summary). reflexivity.
  - apply (proj1 (proj2 difficulty_defaults_to_medium)
             [("difficulty", PStr "HARD")] "HARD").
    reflexivity.
  - apply (proj1 (proj2 (proj2 difficulty_defaults_to_medium))
             [("difficulty", PStr "Easy")] [("difficulty", PStr "EASY")] "Easy" "EASY");
      reflexivity.
Defined.

(** * Further properties *)

(** ** The quiz form *)

Lemma display_questions_cons st form_key idx q rest answers :
  display_questions st form_key idx (q :: rest) answers =
  bind (lift (py_getitem q (PStr "question"))) (fun question =>
  bind (call (st_subheader (QuestionHeading (idx + 1) question))) (fun _ =>
  bind (lift (py_getitem q (PStr "options"))) (fun options =>
  bind (call (st_radio (ChooseAnswer (idx + 1)) options (form_key, idx))) (fun _ =>
  bind (lift (radio st idx options)) (fun selected =>
  display_questions st form_key (S idx) rest (<[idx := selected]> answers)))))).
Proof. reflexivity. Qed.

(** One step of the form loop that goes on: the record has both keys and the
    radio returned a value. *)
Lemma display_questions_step st form_key idx q rest answers log final :
  display_questions st form_key idx (q :: rest) answers = (log, Ok final) ->
  exists question options selected log',
    py_getitem q (PStr "question") = Ok question /\
    py_getitem q (PStr "options") = Ok options /\
    radio st idx options = Ok selected /\
    display_questions st form_key (S idx) rest (<[idx := selected]> answers) = (log', Ok final) /\
    log = st_subheader (QuestionHeading (idx + 1) question)
          :: st_radio (ChooseAnswer (idx + 1)) options (form_key, idx) :: log'.
Proof.
  rewrite display_questions_cons.
  destruct (py_getitem q (PStr "question")) as [question | e]; [| discriminate].
  rewrite bind_lift_ok, bind_call.
  destruct (py_getitem q (PStr "options")) as [options | e]; [| discriminate].
  rewrite bind_lift_ok, bind_call.
  destruct (radio st idx options) as [selected | e] eqn:Hradio; [| discriminate].
  rewrite bind_lift_ok.
  destruct (display_questions st form_key (S idx) rest _) as [log' r] eqn:Hrest.
  cbn [calls result fst snd]. intros [= <- ->].
  exists question, options, selected, log'. auto 10.
Qed.

Lemma display_questions_records st form_key items : forall idx answers log final,
  display_questions st form_key idx items answers = (log, Ok final) ->
  (forall i, (i < idx)%nat -> final !! i = answers !! i) /\
  (forall i, (idx + length items <= i)%nat -> final !! i = answers !! i) /\
  (forall i q, items !! i = Some q ->
     exists options selected,
       py_getitem q (PStr "options") = Ok options /\
       radio st (idx + i) options = Ok selected /\
       final !! (idx + i)%nat = Some selected).
Proof.
  induction items as [| q0 rest IH]; intros idx answers log final Hrun.
  - injection Hrun as _ <-. repeat split; try reflexivity. intros i q [=].
  - apply display_questions_step in Hrun
      as (question & options & selected & log' & _ & Hoptions & Hradio & Hrest & _).
    apply IH in Hrest as (Hbelow & Habove & Hitems).
    split; [| split].
    + intros i Hi. rewrite Hbelow by lia. apply lookup_insert_ne. lia.
    + intros i Hi. cbn [length] in Hi. rewrite Habove by lia.
      apply lookup_insert_ne. lia.
    + intros [| i] q Hq; cbn in Hq.
      * injection Hq as ->. exists options, selected.
        rewrite Nat.add_0_r, Hbelow by lia.
        rewrite lookup_insert_eq. auto.
      * replace (idx + S i)%nat with (S idx + i)%nat by lia. eauto.
Qed.

(** X1: when the form loop has drawn every question, the selections it
    recorded have an entry for each question index and for no other index,
    and the entry is what the radio of that question returned for the
    record's options. *)
Theorem form_records_every_question (st : session) (form_key : string)
    (items : list pyval) (log : list st_call) (selected_answers : gmap nat pyval) :
  display_questions st form_key 0 items ∅ = (log, Ok selected_answers) ->
  (forall i : nat, is_Some (selected_answers !! i) <-> (i < length items)%nat) /\
  (forall (i : nat) (q : pyval),
      items !! i = Some q ->
      exists options selected,
        py_getitem q (PStr "options") = Ok options /\
        radio st i options = Ok selected /\
        selected_answers !! i = Some selected).
Proof.
  intros Hrun.
  apply display_questions_records in Hrun as (_ & Habove & Hitems).
  split; [| exact Hitems].
  intros i. split.
  - intros Hsome. destruct (Nat.lt_ge_cases i (length items)) as [Hlt | Hge]; [exact Hlt |].
    rewrite Habove, lookup_empty in Hsome by (simpl; lia). destruct Hsome as [v [=]].
  - intros Hlt. destruct (lookup_lt_is_Some_2 items i Hlt) as [q Hq].
    destruct (Hitems i q Hq) as (options & selected & _ & _ & Hsel). eauto.
Qed.

Lemma form_records_every_question_witness :
  (forall i : nat,
      is_Some (({[0%nat := PStr "4"]} : gmap nat pyval) !! i)
      <-> (i < length [sample_question 1])%nat) /\
  (forall (i : nat) (q : pyval),
      [sample_question 1] !! i = Some q ->
      exists options selected,
        py_getitem q (PStr "options") = Ok options /\
        radio (visitor (fun _ => Some 1%nat) false) i options = Ok selected /\
        ({[0%nat := PStr "4"]} : gmap nat pyval) !! i = Some selected).
Proof.
  apply (form_records_every_question (visitor (fun _ => Some 1%nat) false) "quiz_form_doc"
           [sample_question 1]
           [st_subheader (QuestionHeading 1 (PStr "2+2?"));
            st_radio (ChooseAnswer 1) sample_options ("quiz_form_doc", 0%nat)]).
  reflexivity.
Defined.

Lemma calls_bind {A B} (m : M A) (k : A -> M B) :
  calls (bind m k) =
  match result m with
  | Ok a => (calls m ++ calls (k a))%list
  | Raise _ => calls m
  end.
Proof.
  destruct m as [log [a | e]]; simpl; [| reflexivity].
  destruct (k a) as [log' r]. reflexivity.
Qed.

Lemma bind_ok {A B} (log : list st_call) (a : A) (k : A -> M B) :
  bind (log, Ok a) k = ((log ++ calls (k a))%list, result (k a)).
Proof. unfold bind, calls, result. destruct (k a) as [log' r]. reflexivity. Qed.

Lemma display_questions_calls st form_key items : forall idx answers,
  forallb (fun c => negb (is_grading_call c))
          (calls (display_questions st form_key idx items answers)) = true.
Proof.
  induction items as [| q rest IH]; intros idx answers; [reflexivity |].
  rewrite display_questions_cons.
  destruct (py_getitem q (PStr "question")) as [question | e]; [| reflexivity].
  rewrite bind_lift_ok, bind_call.
  destruct (py_getitem q (PStr "options")) as [options | e]; [| reflexivity].
  rewrite bind_lift_ok, bind_call.
  destruct (radio st idx options) as [selected | e]; [| reflexivity].
  rewrite bind_lift_ok. cbn [calls fst forallb is_grading_call negb andb].
  apply IH.
Qed.

Lemma display_form_unfold st quiz_data doc_name :
  display_interactive_quiz_with_form st quiz_data doc_name =
  bind (call (st_form (form_key_of doc_name))) (fun _ =>
  bind (call (st_write (Literal "Answer the questions and click 'Submit' to check your score."))) (fun _ =>
  bind (lift (py_iter quiz_data)) (fun items =>
  bind (display_questions st (form_key_of doc_name) 0 items ∅) (fun selected_answers =>
  bind (call (st_form_submit_button "Submit & Check Score")) (fun _ =>
  if form_submit_button st
  then bind (grade quiz_data selected_answers) (fun _ => ret tt)
  else ret tt))))).
Proof. reflexivity. Qed.

(** X2: until the form is submitted nothing is graded: no verdict, no
    correct answer, no explanation and no score is shown, and the function
    returns normally whenever every question could be drawn, whatever the
    [correct_answer] of the records is. *)
Theorem unsubmitted_form_is_not_graded (st : session) (quiz_data : pyval)
    (doc_name : string) :
  form_submit_button st = false ->
  forallb (fun c => negb (is_grading_call c))
          (calls (display_interactive_quiz_with_form st quiz_data doc_name)) = true /\
  (forall items log selected_answers,
      py_iter quiz_data = Ok items ->
      display_questions st (form_key_of doc_name) 0 items ∅ = (log, Ok selected_answers) ->
      result (display_interactive_quiz_with_form st quiz_data doc_name) = Ok tt).
Proof.
  intros Hsubmit. rewrite display_form_unfold, Hsubmit, !bind_call.
  cbn [calls result fst snd forallb is_grading_call negb andb].
  split.
  - destruct (py_iter quiz_data) as [items | e]; [| reflexivity].
    rewrite bind_lift_ok, calls_bind.
    pose proof (display_questions_calls st (form_key_of doc_name) items 0 ∅) as Hform.
    destruct (result (display_questions _ _ _ _ _)); [| exact Hform].
    rewrite forallb_app, Hform. reflexivity.
  - intros items log selected_answers -> Hform.
    rewrite bind_lift_ok, Hform. reflexivity.
Qed.

Lemma unsubmitted_form_is_not_graded_witness :
  forallb (fun c => negb (is_grading_call c))
          (calls (display_interactive_quiz_with_form (visitor (fun _ => Some 1%nat) false)
                    (PList [sample_question 4]) "doc")) = true /\
  result (display_interactive_quiz_with_form (visitor (fun _ => Some 1%nat) false)
            (PList [sample_question 4]) "doc") = Ok tt.
Proof.
  destruct (unsubmitted_form_is_not_graded (visitor (fun _ => Some 1%nat) false)
              (PList [sample_question 4]) "doc" eq_refl) as [Hcalls Hresult].
  split; [exact Hcalls |].
  apply (Hresult [sample_question 4]
           [st_subheader (QuestionHeading 1 (PStr "2+2?"));
            st_radio (ChooseAnswer 1) sample_options ("quiz_form_doc", 0%nat)]
           {[0%nat := PStr "4"]}); reflexivity.
Defined.

(** *** From the form to the score *)

Lemma askable_inv (q : pyval) :
  askable q = true ->
  valid_question q = true /\
  exists question, py_getitem q (PStr "question") = Ok question.
Proof.
  unfold askable. rewrite andb_true_iff. intros [Hvalid Hquestion].
  split; [exact Hvalid |].
  destruct q as [| | | | | | d]; try discriminate. cbn [py_getitem dict_item].
  destruct (dict_lookup "question" d) as [question |]; [eauto | discriminate].
Qed.

Lemma askable_options (q : pyval) :
  askable q = true -> exists options, py_getitem q (PStr "options") = Ok options.
Proof.
  intros Hask. apply askable_inv in Hask as [Hvalid _].
  destruct (valid_question_inv q Hvalid) as (d & options & _ & _ & -> & Hoptions & _).
  cbn [py_getitem dict_item]. rewrite Hoptions. eauto.
Qed.

Lemma forallb_askable_valid (items : list pyval) :
  forallb askable items = true -> forallb valid_question items = true.
Proof.
  induction items as [| q rest IH]; [reflexivity |]. cbn [forallb].
  rewrite !andb_true_iff. intros [Hq Hrest].
  split; [apply askable_inv in Hq as [Hq _]; exact Hq | auto].
Qed.

(** The form loop draws every askable record when the radios answer. *)
Lemma display_questions_askable st form_key items : forall idx answers,
  forallb askable items = true ->
  (forall i q options,
      items !! i = Some q -> py_getitem q (PStr "options") = Ok options ->
      exists selected, radio st (idx + i) options = Ok selected) ->
  exists log final, display_questions st form_key idx items answers = (log, Ok final).
Proof.
  induction items as [| q rest IH]; intros idx answers Hask Hradio;
    [eexists _, _; reflexivity |].
  cbn [forallb] in Hask. apply andb_true_iff in Hask as [Hq Hrest].
  destruct (askable_inv q Hq) as [_ [question Hquestion]].
  destruct (askable_options q Hq) as [options Hoptions].
  destruct (Hradio 0%nat q options eq_refl Hoptions) as [selected Hselected].
  rewrite Nat.add_0_r in Hselected.
  destruct (IH (S idx) (<[idx := selected]> answers) Hrest) as (log & final & Hrun).
  { intros i q' options' Hi Hoptions'.
    replace (S idx + i)%nat with (idx + S i)%nat by lia.
    apply (Hradio (S i) q' options'); assumption. }
  rewrite display_questions_cons, Hquestion, bind_lift_ok, bind_call.
  rewrite Hoptions, bind_lift_ok, bind_call, Hselected, bind_lift_ok, Hrun.
  eexists _, _. reflexivity.
Qed.

Lemma count_correct_all answers items : forall idx,
  (forall i q, items !! i = Some q -> answered_correctly answers (idx + i) q = true) ->
  count_correct answers idx items = length items.
Proof.
  induction items as [| q rest IH]; intros idx Hall; [reflexivity |].
  cbn [count_correct length].
  pose proof (Hall 0%nat q eq_refl) as Hq. rewrite Nat.add_0_r in Hq. rewrite Hq.
  rewrite IH; [reflexivity |].
  intros i q' Hi. replace (S idx + i)%nat with (idx + S i)%nat by lia.
  apply Hall. exact Hi.
Qed.

Lemma count_correct_none answers items : forall idx,
  (forall i q, items !! i = Some q -> answered_correctly answers (idx + i) q = false) ->
  count_correct answers idx items = 0%nat.
Proof.
  induction items as [| q rest IH]; intros idx Hall; [reflexivity |].
  cbn [count_correct].
  pose proof (Hall 0%nat q eq_refl) as Hq. rewrite Nat.add_0_r in Hq. rewrite Hq.
  rewrite IH; [reflexivity |].
  intros i q' Hi. replace (S idx + i)%nat with (idx + S i)%nat by lia.
  apply Hall. exact Hi.
Qed.

(** A submitted form over askable records: the calls of the form, the
    button, the verdicts, and the score. *)
Lemma display_form_askable st items doc_name form_log selected_answers :
  forallb askable items = true ->
  form_submit_button st = true ->
  display_questions st (form_key_of doc_name) 0 items ∅ = (form_log, Ok selected_answers) ->
  display_interactive_quiz_with_form st (PList items) doc_name =
  ((st_form (form_key_of doc_name)
    :: st_write (Literal "Answer the questions and click 'Submit' to check your score.")
    :: form_log
    ++ st_form_submit_button "Submit & Check Score"
    :: quiz_calls selected_answers 0 items
    ++ [st_markdown (YourScore (count_correct selected_answers 0 items) (length items))])%list,
   Ok tt).
Proof.
  intros Hask Hsubmit Hform.
  rewrite display_form_unfold, Hsubmit, !bind_call. cbn [py_iter].
  rewrite bind_lift_ok, Hform, bind_ok, bind_call.
  rewrite (grade_valid items selected_answers (forallb_askable_valid _ Hask)), bind_ok.
  cbn [calls result fst snd ret]. rewrite app_nil_r. reflexivity.
Qed.

Lemma count_calls_quiz_calls answers items : forall idx,
  forallb valid_question items = true ->
  count_calls is_correct_call (quiz_calls answers idx items) = count_correct answers idx items /\
  (count_calls is_correct_call (quiz_calls answers idx items)
   + count_calls is_wrong_call (quiz_calls answers idx items))%nat = length items.
Proof.
  intros idx Hvalid.
  pose proof (evaluate_answers_valid answers items idx 0 Hvalid) as Hrun.
  apply evaluate_answers_counts in Hrun as [Hcount Hverdicts].
  split; [lia | exact Hverdicts].
Qed.

Lemma count_calls_form (p : st_call -> bool) (log : list st_call) :
  (forall c, p c = true -> is_grading_call c = true) ->
  forallb (fun c => negb (is_grading_call c)) log = true ->
  count_calls p log = 0%nat.
Proof.
  intros Hp. induction log as [| c log IH]; [reflexivity |].
  cbn [forallb count_calls]. rewrite andb_true_iff, negb_true_iff. intros [Hc Hlog].
  destruct (p c) eqn:Hpc; [apply Hp in Hpc; congruence |].
  rewrite (IH Hlog). reflexivity.
Qed.

Lemma is_correct_call_grading c : is_correct_call c = true -> is_grading_call c = true.
Proof. destruct c; try discriminate; reflexivity. Qed.

Lemma is_wrong_call_grading c : is_wrong_call c = true -> is_grading_call c = true.
Proof. destruct c; try discriminate; reflexivity. Qed.

(** The verdicts of a submitted form over askable records. *)
Lemma display_form_verdicts st items doc_name :
  forallb askable items = true ->
  form_submit_button st = true ->
  (forall i q options,
      items !! i = Some q -> py_getitem q (PStr "options") = Ok options ->
      exists selected, radio st i options = Ok selected) ->
  exists selected_answers form_log,
    display_questions st (form_key_of doc_name) 0 items ∅ = (form_log, Ok selected_answers) /\
    result (display_interactive_quiz_with_form st (PList items) doc_name) = Ok tt /\
    In (st_markdown (YourScore (count_correct selected_answers 0 items) (length items)))
       (calls (display_interactive_quiz_with_form st (PList items) doc_name)) /\
    count_calls is_correct_call (calls (display_interactive_quiz_with_form st (PList items) doc_name))
    = count_correct selected_answers 0 items /\
    (count_calls is_correct_call (calls (display_interactive_quiz_with_form st (PList items) doc_name))
     + count_calls is_wrong_call (calls (display_interactive_quiz_with_form st (PList items) doc_name)))%nat
    = length items.
Proof.
  intros Hask Hsubmit Hradio.
  destruct (display_questions_askable st (form_key_of doc_name) items 0 ∅ Hask Hradio)
    as (form_log & selected_answers & Hform).
  exists selected_answers, form_log. split; [exact Hform |].
  rewrite (display_form_askable st items doc_name form_log selected_answers Hask Hsubmit Hform).
  cbn [calls result fst snd]. split; [reflexivity |].
  pose proof (display_questions_calls st (form_key_of doc_name) items 0 ∅) as Hcalls.
  rewrite Hform in Hcalls. cbn [calls fst] in Hcalls.
  pose proof (count_calls_form is_correct_call form_log is_correct_call_grading Hcalls) as Hc.
  pose proof (count_calls_form is_wrong_call form_log is_wrong_call_grading Hcalls) as Hw.
  destruct (count_calls_quiz_calls selected_answers items 0 (forallb_askable_valid _ Hask))
    as [Hcount Hverdicts].
  split; [| split].
  - right. right. apply in_or_app. right. right. apply in_or_app. right. left. reflexivity.
  - cbn [count_calls is_correct_call]. rewrite count_calls_app. cbn [count_calls is_correct_call].
    rewrite count_calls_app. cbn. lia.
  - cbn [count_calls is_correct_call is_wrong_call]. rewrite !count_calls_app.
    cbn [count_calls is_correct_call is_wrong_call]. rewrite !count_calls_app. cbn. lia.
Qed.

(** X3: a visitor who selects, for every question, the option at
    [correct_answer] and submits gets the full score: the function returns
    normally, shows "Your Score: n/n" for the n questions, announces n
    questions as correct and none as wrong. *)
Theorem all_correct_selections_score_full (st : session) (items : list pyval)
    (doc_name : string) :
  forallb askable items = true ->
  form_submit_button st = true ->
  (forall i q options correct,
      items !! i = Some q ->
      py_getitem q (PStr "options") = Ok options ->
      correct_option q = Some correct ->
      radio st i options = Ok correct) ->
  result (display_interactive_quiz_with_form st (PList items) doc_name) = Ok tt /\
  In (st_markdown (YourScore (length items) (length items)))
     (calls (display_interactive_quiz_with_form st (PList items) doc_name)) /\
  count_calls is_correct_call
    (calls (display_interactive_quiz_with_form st (PList items) doc_name)) = length items /\
  count_calls is_wrong_call
    (calls (display_interactive_quiz_with_form st (PList items) doc_name)) = 0%nat.
Proof.
  intros Hask Hsubmit Hradio.
  pose proof (forallb_askable_valid _ Hask) as Hvalid.
  assert (Hcorrect : forall i q, items !! i = Some q -> exists text, correct_option q = Some (PStr text)).
  { intros i q Hq. rewrite forallb_forall in Hvalid.
    apply list_elem_of_lookup_2, list_elem_of_In, Hvalid in Hq.
    destruct (valid_question_inv q Hq) as (_ & _ & _ & text & _ & _ & _ & _ & _ & Hc). eauto. }
  destruct (display_form_verdicts st items doc_name Hask Hsubmit)
    as (answers & form_log & Hform & Hresult & Hscore & Hcount & Hverdicts).
  { intros i q options Hq Hoptions. destruct (Hcorrect i q Hq) as [text Htext]. eauto. }
  assert (Hall : count_correct answers 0 items = length items).
  { apply count_correct_all. intros i q Hq. cbn [Nat.add].
    destruct (proj2 (proj2 (display_questions_records _ _ _ _ _ _ _ Hform)) i q Hq)
      as (options & selected & Hoptions & Hselected & Hanswer).
    cbn [Nat.add] in Hselected, Hanswer.
    destruct (Hcorrect i q Hq) as [text Htext].
    rewrite (Hradio i q options (PStr text) Hq Hoptions Htext) in Hselected.
    injection Hselected as <-.
    apply (answered_correctly_iff answers i q text Htext). exact Hanswer. }
  rewrite Hall in *. repeat split; try assumption. lia.
Qed.

(** X4: a visitor who selects nothing (every radio gives [None]) and
    submits gets 0 out of n: every question is announced wrong. *)
Theorem no_selection_scores_zero (st : session) (items : list pyval) (doc_name : string) :
  forallb askable items = true ->
  form_submit_button st = true ->
  (forall i options, radio st i options = Ok PNone) ->
  result (display_interactive_quiz_with_form st (PList items) doc_name) = Ok tt /\
  In (st_markdown (YourScore 0 (length items)))
     (calls (display_interactive_quiz_with_form st (PList items) doc_name)) /\
  count_calls is_correct_call
    (calls (display_interactive_quiz_with_form st (PList items) doc_name)) = 0%nat /\
  count_calls is_wrong_call
    (calls (display_interactive_quiz_with_form st (PList items) doc_name)) = length items.
Proof.
  intros Hask Hsubmit Hradio.
  destruct (display_form_verdicts st items doc_name Hask Hsubmit)
    as (answers & form_log & Hform & Hresult & Hscore & Hcount & Hverdicts).
  { intros i q options _ _. eauto. }
  assert (Hnone : count_correct answers 0 items = 0%nat).
  { apply count_correct_none. intros i q Hq. cbn [Nat.add].
    destruct (proj2 (proj2 (display_questions_records _ _ _ _ _ _ _ Hform)) i q Hq)
      as (options & selected & _ & Hselected & Hanswer).
    cbn [Nat.add] in Hselected, Hanswer.
    rewrite Hradio in Hselected. injection Hselected as <-.
    unfold answered_correctly. rewrite Hanswer. reflexivity. }
  rewrite Hnone in *. repeat split; try assumption. lia.
Qed.

Lemma all_correct_selections_score_full_witness :
  result (display_interactive_quiz_with_form (visitor (fun _ => Some 1%nat) true)
            (PList [sample_question 1; sample_question 1]) "doc") = Ok tt /\
  In (st_markdown (YourScore 2 2))
     (calls (display_interactive_quiz_with_form (visitor (fun _ => Some 1%nat) true)
               (PList [sample_question 1; sample_question 1]) "doc")) /\
  count_calls is_correct_call
    (calls (display_interactive_quiz_with_form (visitor (fun _ => Some 1%nat) true)
              (PList [sample_question 1; sample_question 1]) "doc")) = 2%nat /\
  count_calls is_wrong_call
    (calls (display_interactive_quiz_with_form (visitor (fun _ => Some 1%nat) true)
              (PList [sample_question 1; sample_question 1]) "doc")) = 0%nat.
Proof.
  apply (all_correct_selections_score_full (visitor (fun _ => Some 1%nat) true)
           [sample_question 1; sample_question 1] "doc"); [reflexivity | reflexivity |].
  intros [| [| i]] q options correct [= <-] [= <-] [= <-]; reflexivity.
Defined.

Lemma no_selection_scores_zero_witness :
  result (display_interactive_quiz_with_form (visitor (fun _ => None) true)
            (PList [sample_question 1; sample_question 3]) "doc") = Ok tt /\
  In (st_markdown (YourScore 0 2))
     (calls (display_interactive_quiz_with_form (visitor (fun _ => None) true)
               (PList [sample_question 1; sample_question 3]) "doc")) /\
  count_calls is_correct_call
    (calls (display_interactive_quiz_with_form (visitor (fun _ => None) true)
              (PList [sample_question 1; sample_question 3]) "doc")) = 0%nat /\
  count_calls is_wrong_call
    (calls (display_interactive_quiz_with_form (visitor (fun _ => None) true)
              (PList [sample_question 1; sample_question 3]) "doc")) = 2%nat.
Proof.
  apply (no_selection_scores_zero (visitor (fun _ => None) true)
           [sample_question 1; sample_question 3] "doc"); reflexivity.
Defined.

(** *** What is shown before a record fails *)

Lemma evaluate_answers_app answers good : forall more idx n,
  forallb valid_question good = true ->
  evaluate_answers answers idx (good ++ more) n =
  bind (quiz_calls answers idx good, Ok (n + count_correct answers idx good)%nat)
       (fun correct_count =>
          evaluate_answers answers (idx + length good) more correct_count).
Proof.
  induction good as [| q good IH]; intros more idx n Hvalid.
  - cbn [app quiz_calls count_correct length]. rewrite bind_ok. cbn [app].
    rewrite !Nat.add_0_r. apply surjective_pairing.
  - cbn [forallb] in Hvalid. apply andb_true_iff in Hvalid as [Hq Hgood].
    cbn [app]. rewrite evaluate_answers_cons, (evaluate_answer_valid _ _ _ _ Hq), bind_ok.
    rewrite (IH more (S idx) _ Hgood), !bind_ok.
    cbn [quiz_calls count_correct length calls result fst snd].
    replace (S idx + length good)%nat with (idx + S (length good))%nat by lia.
    replace (n + ((if answered_correctly answers idx q then 1 else 0)
                  + count_correct answers (S idx) good))%nat
      with ((if answered_correctly answers idx q then S n else n)
            + count_correct answers (S idx) good)%nat
      by (destruct (answered_correctly answers idx q); lia).
    rewrite app_assoc. reflexivity.
Qed.

(** X5: when the first record whose index is out of range comes after
    valid records, grading shows the verdicts of those valid records, then
    raises IndexError: nothing is shown for the failing record or for the
    records after it, and no score. *)
Theorem grading_stops_at_first_bad_index (answers : gmap nat pyval)
    (good rest : list pyval) (bad : pyval) :
  forallb valid_question good = true ->
  index_out_of_range bad = true ->
  grade (PList (good ++ bad :: rest)) answers =
  (quiz_calls answers 0 good, Raise IndexError).
Proof.
  intros Hgood Hbad. unfold grade. cbn [py_len py_iter]. rewrite !bind_lift_ok.
  rewrite (evaluate_answers_app answers good (bad :: rest) 0 0 Hgood), bind_ok.
  rewrite evaluate_answers_cons, (evaluate_answer_out_of_range _ _ _ _ Hbad).
  cbn. rewrite app_nil_r. reflexivity.
Qed.

Lemma grading_stops_at_first_bad_index_witness :
  grade (PList ([sample_question 1] ++ sample_question 7 :: [sample_question 2]))
        {[0%nat := PStr "4"]} =
  (quiz_calls {[0%nat := PStr "4"]} 0 [sample_question 1], Raise IndexError).
Proof.
  apply (grading_stops_at_first_bad_index {[0%nat := PStr "4"]}
           [sample_question 1] [sample_question 2] (sample_question 7)); reflexivity.
Defined.

(** *** The form key *)

Lemma has_space_replace_space (s : string) : has_space (replace_space s) = false.
Proof.
  induction s as [| c s IH]; [reflexivity |]. cbn [replace_space has_space].
  rewrite IH, orb_false_r. destruct (Ascii.eqb c " ") eqn:Hc; [reflexivity | exact Hc].
Qed.

Lemma replace_space_no_space (s : string) :
  has_space s = false -> replace_space s = s.
Proof.
  induction s as [| c s IH]; [reflexivity |]. cbn [replace_space has_space].
  rewrite orb_false_iff. intros [-> Hs]. rewrite (IH Hs). reflexivity.
Qed.

Lemma replace_space_changes (s : string) :
  has_space s = true -> replace_space s <> s.
Proof.
  intros Hs Heq. rewrite <- Heq, has_space_replace_space in Hs. discriminate.
Qed.

(** X6: the key of the form never contains a space, and it does not tell a
    space from an underscore: a document name with a space has the same
    form key as the different name in which the spaces are underscores. *)
Theorem form_key_merges_space_and_underscore (st : session) (quiz_data : pyval)
    (doc_name : string) :
  (exists log,
      calls (display_interactive_quiz_with_form st quiz_data doc_name)
      = st_form (form_key_of doc_name) :: log) /\
  has_space (form_key_of doc_name) = false /\
  form_key_of (replace_space doc_name) = form_key_of doc_name /\
  (has_space doc_name = true -> replace_space doc_name <> doc_name).
Proof.
  split; [| split; [| split]].
  - rewrite display_form_unfold, bind_call. eexists. reflexivity.
  - unfold form_key_of. cbn. apply has_space_replace_space.
  - unfold form_key_of. f_equal. apply replace_space_no_space, has_space_replace_space.
  - apply replace_space_changes.
Qed.

Lemma form_key_merges_space_and_underscore_witness :
  form_key_of "a_b" = form_key_of "a b" /\ "a_b" <> "a b".
Proof.
  destruct (form_key_merges_space_and_underscore (visitor (fun _ => None) false)
              (PList []) "a b") as (_ & _ & Hkey & Hname).
  split; [exact Hkey | apply Hname; reflexivity].
Defined.

(** ** The summary card, further *)

Lemma py_iter_can_iterate (v : pyval) :
  can_iterate v = true <-> exists items, py_iter v = Ok items.
Proof.
  destruct v; simpl; split; try discriminate; try (intros [items [=]]); eauto.
Qed.

Lemma key_skills_section_dict (d : list (string * pyval)) :
  key_skills_section (PDict d) =
  match dict_lookup "key_skills" d with
  | Some key_skills =>
      match py_iter key_skills with
      | Ok skills => ([st_markdown (KeySkillsCard skills)], Ok tt)
      | Raise e => ([], Raise e)
      end
  | None => ([], Raise (KeyError (PStr "key_skills")))
  end.
Proof.
  unfold key_skills_section. cbn [py_getitem dict_item].
  destruct (dict_lookup "key_skills" d) as [key_skills |]; [| reflexivity].
  rewrite bind_lift_ok. destruct (py_iter key_skills); reflexivity.
Qed.

Lemma estimated_time_section_dict (d : list (string * pyval)) :
  estimated_time_section (PDict d) =
  match dict_lookup "estimated_time" d with
  | Some minutes => ([st_markdown (EstimatedTimeCard minutes)], Ok tt)
  | None => ([], Raise (KeyError (PStr "estimated_time")))
  end.
Proof.
  unfold estimated_time_section. cbn [py_getitem dict_item].
  destruct (dict_lookup "estimated_time" d); reflexivity.
Qed.

(** X7: [display_enhanced_summary] returns normally exactly on a dict that
    has [summary], [estimated_time] and a [key_skills] that can be
    iterated, and whose [difficulty], when present, is a text; it then makes
    five [st.markdown] calls: the style sheet and the four cards. *)
Theorem display_enhanced_summary_succeeds_iff (summary_data : pyval) :
  (result (display_enhanced_summary summary_data) = Ok tt
   <-> drawable_summary summary_data = true) /\
  (drawable_summary summary_data = true ->
   exists summary skills e m h minutes,
     calls (display_enhanced_summary summary_data) =
     [st_markdown StyleSheet; st_markdown (SummaryCard summary);
      st_markdown (KeySkillsCard skills); st_markdown (DifficultyCard e m h);
      st_markdown (EstimatedTimeCard minutes)]).
Proof.
  destruct summary_data as [| b | z | f | s | l | d];
    try (split; [split; discriminate | discriminate]).
  rewrite display_enhanced_summary_unfold, bind_call. cbn [calls result fst snd].
  rewrite summary_section_dict, key_skills_section_dict, difficulty_section_dict,
    estimated_time_section_dict.
  unfold drawable_summary.
  destruct (dict_lookup "summary" d) as [summary |];
    destruct (dict_lookup "key_skills" d) as [[| | | | ks | ks | ks] |];
    destruct (dict_lookup "estimated_time" d) as [minutes |];
    destruct (dict_lookup "difficulty" d) as [[| | | | difficulty | |] |];
    cbn;
    (split;
     [ split; intros H; first [reflexivity | discriminate H]
     | intros H; first [discriminate H | eexists _, _, _, _, _, _; reflexivity] ]).
Qed.

Lemma display_enhanced_summary_succeeds_iff_witness :
  result (display_enhanced_summary (PDict sample_summary)) = Ok tt /\
  exists summary skills e m h minutes,
    calls (display_enhanced_summary (PDict sample_summary)) =
    [st_markdown StyleSheet; st_markdown (SummaryCard summary);
     st_markdown (KeySkillsCard skills); st_markdown (DifficultyCard e m h);
     st_markdown (EstimatedTimeCard minutes)].
Proof.
  split.
  - apply (proj1 (display_enhanced_summary_succeeds_iff (PDict sample_summary))).
    reflexivity.
  - apply (proj2 (display_enhanced_summary_succeeds_iff (PDict sample_summary))).
    reflexivity.
Defined.

Lemma highlighted_at_most_one (s : string) :
  (highlighted (String.eqb s "easy") (String.eqb s "medium") (String.eqb s "hard") <= 1)%nat.
Proof.
  unfold highlighted.
  destruct (String.eqb_spec s "easy") as [-> |]; [cbn; lia |].
  destruct (String.eqb_spec s "medium") as [-> |]; [cbn; lia |].
  destruct (String.eqb s "hard"); cbn; lia.
Qed.

(** X8: a difficulty card highlights at most one item, and it highlights
    none when the lower-cased difficulty is not one of "easy", "medium",
    "hard": an unrecognised difficulty does not fall back to Medium. *)
Theorem difficulty_card_highlights_at_most_one :
  (forall (summary_data : pyval) (e m h : bool),
      In (st_markdown (DifficultyCard e m h)) (calls (difficulty_section summary_data)) ->
      (highlighted e m h <= 1)%nat) /\
  (forall (d : list (string * pyval)) (s : string),
      dict_lookup "difficulty" d = Some (PStr s) ->
      lower s <> "easy" -> lower s <> "medium" -> lower s <> "hard" ->
      difficulty_section (PDict d) = ([st_markdown (DifficultyCard false false false)], Ok tt)).
Proof.
  split.
  - intros summary_data e m h. unfold difficulty_section.
    destruct (py_get summary_data "difficulty" (PStr "Medium")) as [v | err]; [| intros []].
    rewrite bind_lift_ok.
    destruct (py_lower v) as [s | err]; [| intros []].
    rewrite bind_lift_ok. intros [[= <- <- <-] | []]. apply highlighted_at_most_one.
  - intros d s Hs Heasy Hmedium Hhard.
    rewrite difficulty_section_dict, Hs. cbn [from_option id].
    rewrite (proj2 (String.eqb_neq _ _) Heasy), (proj2 (String.eqb_neq _ _) Hmedium),
      (proj2 (String.eqb_neq _ _) Hhard).
    reflexivity.
Qed.

Lemma difficulty_card_highlights_at_most_one_witness :
  (highlighted false false true <= 1)%nat /\
  difficulty_section (PDict [("difficulty", PStr "Expert")]) =
  ([st_markdown (DifficultyCard false false false)], Ok tt).
Proof.
  split.
  - apply (proj1 difficulty_card_highlights_at_most_one
             (PDict [("difficulty", PStr "HARD")]) false false true).
    simpl. left. reflexivity.
  - apply (proj2 difficulty_card_highlights_at_most_one
             [("difficulty", PStr "Expert")] "Expert"); [reflexivity | | |];
      discriminate.
Defined.

(** X9: the default applies only to an absent key.  When [difficulty] is
    present but is not a text (a JSON null or a number, say), the summary
    and key-skills cards are shown and then the function raises
    AttributeError for [lower]: no difficulty card and no time card. *)
Theorem non_text_difficulty_raises (d : list (string * pyval))
    (summary difficulty : pyval) (skills : list pyval) :
  dict_lookup "summary" d = Some summary ->
  dict_lookup "key_skills" d = Some (PList skills) ->
  dict_lookup "difficulty" d = Some difficulty ->
  is_text difficulty = false ->
  display_enhanced_summary (PDict d) =
  ([st_markdown StyleSheet; st_markdown (SummaryCard summary);
    st_markdown (KeySkillsCard skills)],
   Raise (AttributeError "lower")).
Proof.
  intros Hsummary Hskills Hdifficulty Htext.
  rewrite display_enhanced_summary_unfold, summary_section_dict, Hsummary,
    key_skills_section_dict, Hskills, difficulty_section_dict, Hdifficulty.
  destruct difficulty; try discriminate; reflexivity.
Qed.

Lemma non_text_difficulty_raises_witness :
  display_enhanced_summary
    (PDict [("summary", PStr "..."); ("key_skills", PList [PStr "a"]);
            ("difficulty", PNone); ("estimated_time", PInt 30)]) =
  ([st_markdown StyleSheet; st_markdown (SummaryCard (PStr "..."));
    st_markdown (KeySkillsCard [PStr "a"])],
   Raise (AttributeError "lower")).
Proof.
  apply (non_text_difficulty_raises
           [("summary", PStr "..."); ("key_skills", PList [PStr "a"]);
            ("difficulty", PNone); ("estimated_time", PInt 30)]
           (PStr "...") PNone [PStr "a"]); reflexivity.
Defined.

(** ** parse_quiz_response, further *)

Section parse_quiz_response_diagnostics.
Context {J : JsonModule}.

(** What [parse_quiz_response] reports: nothing, or one error together
    with the empty list. *)
Lemma parse_quiz_response_reports (raw_response : pyval) :
  (exists v, parse_quiz_response raw_response = ([], Ok v)) \/
  (exists t, parse_quiz_response raw_response = ([st_error t], Ok (PList []))).
Proof.
  destruct raw_response as [| b | z | f | s | l | d];
    try (right; eexists; reflexivity).
  - rewrite parse_quiz_response_text.
    destruct (json_loads s) as [v | e]; [left; eauto |].
    right. destruct e; eexists; reflexivity.
  - left. eexists. reflexivity.
  - left. unfold parse_quiz_response, parse_quiz_response_body, try_except, ret.
    destruct (dict_lookup "questions" d); eexists; reflexivity.
Qed.

(** X10: [parse_quiz_response] reports at most one error, and it reports one
    only together with the empty list: whatever it is given, the calls it
    makes are none or one [st.error], and in the second case the result is
    the empty list. *)
Theorem parse_quiz_response_one_diagnostic_at_most (raw_response : pyval) :
  calls (parse_quiz_response raw_response) = [] \/
  (exists t, calls (parse_quiz_response raw_response) = [st_error t] /\
             result (parse_quiz_response raw_response) = Ok (PList [])).
Proof.
  destruct (parse_quiz_response_reports raw_response) as [[v ->] | [t ->]];
    [left; reflexivity | right; exists t; split; reflexivity].
Qed.

(** X11: whenever [parse_quiz_response] has reported an error, the quiz it
    hands on is empty: the form drawn from it has no question, and on
    submission it shows "Your Score: 0/0". *)
Theorem reported_error_gives_empty_quiz (raw_response quiz_data : pyval) (t : text)
    (log : list st_call) (st : session) (doc_name : string) :
  parse_quiz_response raw_response = (st_error t :: log, Ok quiz_data) ->
  form_submit_button st = true ->
  display_interactive_quiz_with_form st quiz_data doc_name =
  ([st_form (form_key_of doc_name);
    st_write (Literal "Answer the questions and click 'Submit' to check your score.");
    st_form_submit_button "Submit & Check Score";
    st_markdown (YourScore 0 0)], Ok tt).
Proof.
  intros Hparse Hsubmit.
  destruct (parse_quiz_response_reports raw_response)
    as [[v Hv] | [t' Ht']]; rewrite Hparse in *; [discriminate |].
  injection Ht' as _ _ ->.
  rewrite display_form_unfold, Hsubmit. reflexivity.
Qed.
End parse_quiz_response_diagnostics.

Lemma reported_error_gives_empty_quiz_witness :
  display_interactive_quiz_with_form (visitor (fun _ => None) true) (PList []) "doc" =
  ([st_form (form_key_of "doc");
    st_write (Literal "Answer the questions and click 'Submit' to check your score.");
    st_form_submit_button "Submit & Check Score";
    st_markdown (YourScore 0 0)], Ok tt).
Proof.
  apply (@reported_error_gives_empty_quiz python_json (PStr "not json") (PList [])
           (JSONDecodeErrorText (JSONDecodeError "Expecting value" 0)) []
           (visitor (fun _ => None) true) "doc"); reflexivity.
Defined.

(** ** display_coding_question_with_answer *)

Module coding_facts.
Import coding.
Local Open Scope w_scope.

Lemma bindW_lift_ok {E A B} (a : A) (k : A -> W E B) : bindW (liftW (Ok a)) k = k a.
Proof. unfold bindW, liftW. destruct (k a) as [log r]. reflexivity. Qed.

Lemma bindW_call {E B} (c : E) (k : unit -> W E B) :
  bindW (callW c) k = (c :: fst (k tt), snd (k tt)).
Proof. unfold bindW, callW. destruct (k tt) as [log r]. reflexivity. Qed.

Lemma bindW_ok {E A B} (log : list E) (a : A) (k : A -> W E B) :
  bindW (log, Ok a) k = ((log ++ fst (k a))%list, snd (k a)).
Proof. unfold bindW. destruct (k a) as [log' r]. reflexivity. Qed.

Lemma present_dict (key : string) (d : list (string * pyval)) :
  present key (PDict d) = Ok (negb (blank key d)).
Proof.
  unfold present, blank. cbn [py_contains py_getitem dict_item].
  destruct (dict_lookup key d) as [v |]; cbn; [rewrite negb_involutive |]; reflexivity.
Qed.

Lemma starter_code_section_dict (d : list (string * pyval)) :
  starter_code_section (PDict d) =
  match dict_lookup "starter_code" d with
  | Some starter_code =>
      if py_bool starter_code
      then ([st_markdown (Heading "**Starter Code:**");
             st_code (Body starter_code) "python"], Ok tt)
      else ([], Ok tt)
  | None => ([], Ok tt)
  end.
Proof.
  unfold starter_code_section. rewrite present_dict, bindW_lift_ok. unfold blank.
  cbn [py_getitem dict_item].
  destruct (dict_lookup "starter_code" d) as [v |]; [| reflexivity].
  destruct (py_bool v); reflexivity.
Qed.

Lemma show_tests_returns (tests : list pyval) : forall i, snd (show_tests i tests) = Ok tt.
Proof.
  induction tests as [| test rest IH]; intros i; [reflexivity |].
  cbn [show_tests]. rewrite !bindW_call. cbn [snd]. apply IH.
Qed.

Lemma show_tests_cons (i : nat) (test : pyval) (rest : list pyval) :
  fst (show_tests i (test :: rest)) =
  st_markdown (TestNumber i) :: st_code (StrOf test) "python" :: fst (show_tests (S i) rest).
Proof. cbn [show_tests]. rewrite !bindW_call. reflexivity. Qed.

Lemma test_cases_section_dict (d : list (string * pyval)) :
  test_cases_section (PDict d) =
  match dict_lookup "test_cases" d with
  | Some test_cases =>
      if py_bool test_cases then
        match py_iter test_cases with
        | Ok tests => (st_markdown (Heading "**Test Cases:**") :: fst (show_tests 1 tests), Ok tt)
        | Raise e => ([st_markdown (Heading "**Test Cases:**")], Raise e)
        end
      else ([], Ok tt)
  | None => ([], Ok tt)
  end.
Proof.
  unfold test_cases_section. rewrite present_dict, bindW_lift_ok. unfold blank.
  cbn [py_getitem dict_item].
  destruct (dict_lookup "test_cases" d) as [v |]; [| reflexivity].
  destruct (py_bool v); [| reflexivity]. cbn [negb].
  rewrite bindW_call, bindW_lift_ok.
  destruct (py_iter v) as [tests | e]; [| reflexivity].
  rewrite bindW_lift_ok, show_tests_returns. reflexivity.
Qed.

(** On a dict the last section cannot fail. *)
Lemma solution_section_dict (d : list (string * pyval)) (show_explanation : bool) :
  snd (solution_section (PDict d) show_explanation) = Ok tt.
Proof.
  unfold solution_section. destruct show_explanation; [| reflexivity].
  cbn [py_contains py_getitem dict_item]. rewrite bindW_call. cbn [snd].
  destruct (dict_lookup "solution" d), (dict_lookup "explanation" d); reflexivity.
Qed.

Lemma display_unfold (question_data : pyval) (show_explanation : bool) :
  display_coding_question_with_answer question_data show_explanation =
  bindW (liftW (py_getitem question_data (PStr "question"))) (fun question =>
  bindW (callW (st_markdown (Question question))) (fun _ =>
  bindW (starter_code_section question_data) (fun _ =>
  bindW (test_cases_section question_data) (fun _ =>
  solution_section question_data show_explanation)))).
Proof. reflexivity. Qed.

Lemma getitem_text_key_dict (question_data v : pyval) (key : string) :
  py_getitem question_data (PStr key) = Ok v -> exists d, question_data = PDict d.
Proof. destruct question_data; try discriminate. eauto. Qed.

Lemma show_tests_no_expander (tests : list pyval) (label : string) : forall i,
  ~ In (st_expander label) (fst (show_tests i tests)).
Proof.
  induction tests as [| test rest IH]; intros i; [intros [] |].
  rewrite show_tests_cons. intros [[=] | [[=] | Hin]]. exact (IH _ Hin).
Qed.

Lemma count_app (p : st_call -> bool) (l1 l2 : list st_call) :
  count p (l1 ++ l2) = (count p l1 + count p l2)%nat.
Proof. induction l1 as [| c l1 IH]; cbn; [reflexivity | rewrite IH; lia]. Qed.

Lemma show_tests_labels (tests : list pyval) : forall i,
  count is_test_label (fst (show_tests i tests)) = length tests.
Proof.
  induction tests as [| test rest IH]; intros i; [reflexivity |].
  rewrite show_tests_cons. cbn. rewrite IH. reflexivity.
Qed.

Lemma show_tests_nth (tests : list pyval) : forall i k test,
  tests !! k = Some test ->
  exists before after,
    fst (show_tests i tests) =
    (before ++ st_markdown (TestNumber (i + k)) :: st_code (StrOf test) "python" :: after)%list
    /\ length before = (2 * k)%nat.
Proof.
  induction tests as [| test0 rest IH]; intros i k test Hk; [discriminate |].
  rewrite show_tests_cons. destruct k as [| k]; cbn in Hk.
  - injection Hk as ->. exists [], (fst (show_tests (S i) rest)).
    rewrite Nat.add_0_r. split; reflexivity.
  - destruct (IH (S i) k test Hk) as (before & after & -> & Hlen).
    exists (st_markdown (TestNumber i) :: st_code (StrOf test0) "python" :: before), after.
    replace (i + S k)%nat with (S i + k)%nat by lia.
    split; [reflexivity | cbn [length]; lia].
Qed.

Lemma solution_section_labels (d : list (string * pyval)) (show_explanation : bool) :
  count is_test_label (fst (solution_section (PDict d) show_explanation)) = 0%nat.
Proof.
  unfold solution_section. destruct show_explanation; [| reflexivity].
  cbn [py_contains py_getitem dict_item].
  destruct (dict_lookup "solution" d), (dict_lookup "explanation" d); reflexivity.
Qed.

End coding_facts.

Section display_coding_question_properties.
Import coding coding_facts.
Local Open Scope w_scope.

(** X12: with [show_explanation=False] the function shows the same
    whatever the record holds under [solution] and [explanation], and it
    opens no expander. *)
Theorem hidden_solution_is_not_shown :
  (forall d d' : list (string * pyval),
      (forall k, k <> "solution" -> k <> "explanation" ->
                 dict_lookup k d = dict_lookup k d') ->
      display_coding_question_with_answer (PDict d) false =
      display_coding_question_with_answer (PDict d') false) /\
  (forall (question_data : pyval) (label : string),
      ~ In (st_expander label)
           (fst (display_coding_question_with_answer question_data false))).
Proof.
  split.
  - intros d d' Hsame. rewrite !display_unfold.
    rewrite !starter_code_section_dict, !test_cases_section_dict.
    cbn [py_getitem dict_item solution_section].
    rewrite <- (Hsame "question"), <- (Hsame "starter_code"), <- (Hsame "test_cases")
      by discriminate.
    reflexivity.
  - intros question_data label. rewrite display_unfold.
    destruct (py_getitem question_data (PStr "question")) as [question | e] eqn:Hquestion;
      [| intros []].
    destruct (getitem_text_key_dict _ _ _ Hquestion) as [d ->].
    rewrite bindW_lift_ok, bindW_call, starter_code_section_dict, test_cases_section_dict.
    cbn [solution_section].
    destruct (dict_lookup "starter_code" d) as [starter |];
      [destruct (py_bool starter) |];
      (destruct (dict_lookup "test_cases" d) as [test_cases |];
       [destruct (py_bool test_cases); [destruct (py_iter test_cases) as [tests | e] |] |]);
      cbn; rewrite ?app_nil_r;
      intuition (try discriminate);
      eapply show_tests_no_expander; eassumption.
Qed.

Lemma hidden_solution_is_not_shown_witness :
  display_coding_question_with_answer
    (PDict [("question", PStr "Reverse a list"); ("solution", PStr "return xs[::-1]")]) false =
  display_coding_question_with_answer (PDict [("question", PStr "Reverse a list")]) false.
Proof.
  apply (proj1 hidden_solution_is_not_shown).
  intros k Hsolution Hexplanation. cbn [dict_lookup].
  destruct (String.eqb k "question"); [reflexivity |].
  destruct (String.eqb_spec k "solution"); [contradiction | reflexivity].
Defined.

(** X13: an empty [starter_code] or [test_cases] (an empty text or list,
    a null) counts as absent: two records that differ only in having
    nothing or something false under these two keys are shown alike. *)
Theorem blank_entries_count_as_absent (d d' : list (string * pyval))
    (show_explanation : bool) :
  (forall k, k <> "starter_code" -> k <> "test_cases" ->
             dict_lookup k d = dict_lookup k d') ->
  blank "starter_code" d = true -> blank "starter_code" d' = true ->
  blank "test_cases" d = true -> blank "test_cases" d' = true ->
  display_coding_question_with_answer (PDict d) show_explanation =
  display_coding_question_with_answer (PDict d') show_explanation /\
  starter_code_section (PDict d) = ([], Ok tt) /\
  test_cases_section (PDict d) = ([], Ok tt).
Proof.
  unfold blank. intros Hsame Hstarter Hstarter' Htests Htests'.
  assert (Hs : starter_code_section (PDict d) = ([], Ok tt)).
  { rewrite starter_code_section_dict.
    destruct (dict_lookup "starter_code" d) as [v |]; [| reflexivity].
    apply negb_true_iff in Hstarter. rewrite Hstarter. reflexivity. }
  assert (Hs' : starter_code_section (PDict d') = ([], Ok tt)).
  { rewrite starter_code_section_dict.
    destruct (dict_lookup "starter_code" d') as [v |]; [| reflexivity].
    apply negb_true_iff in Hstarter'. rewrite Hstarter'. reflexivity. }
  assert (Ht : test_cases_section (PDict d) = ([], Ok tt)).
  { rewrite test_cases_section_dict.
    destruct (dict_lookup "test_cases" d) as [v |]; [| reflexivity].
    apply negb_true_iff in Htests. rewrite Htests. reflexivity. }
  assert (Ht' : test_cases_section (PDict d') = ([], Ok tt)).
  { rewrite test_cases_section_dict.
    destruct (dict_lookup "test_cases" d') as [v |]; [| reflexivity].
    apply negb_true_iff in Htests'. rewrite Htests'. reflexivity. }
  split; [| split; assumption].
  rewrite !display_unfold, Hs, Hs', Ht, Ht'.
  unfold solution_section. cbn [py_getitem dict_item py_contains].
  rewrite <- (Hsame "question"), <- (Hsame "solution"), <- (Hsame "explanation")
    by discriminate.
  reflexivity.
Qed.

Lemma blank_entries_count_as_absent_witness :
  display_coding_question_with_answer
    (PDict [("question", PStr "Reverse a list"); ("starter_code", PStr "");
            ("test_cases", PList [])]) true =
  display_coding_question_with_answer (PDict [("question", PStr "Reverse a list")]) true /\
  starter_code_section
    (PDict [("question", PStr "Reverse a list"); ("starter_code", PStr "");
            ("test_cases", PList [])]) = ([], Ok tt) /\
  test_cases_section
    (PDict [("question", PStr "Reverse a list"); ("starter_code", PStr "");
            ("test_cases", PList [])]) = ([], Ok tt).
Proof.
  apply (blank_entries_count_as_absent
           [("question", PStr "Reverse a list"); ("starter_code", PStr "");
            ("test_cases", PList [])]
           [("question", PStr "Reverse a list")] true); try reflexivity.
  intros k Hstarter Htests. cbn [dict_lookup].
  destruct (String.eqb k "question"); [reflexivity |].
  destruct (String.eqb_spec k "starter_code"); [contradiction |].
  destruct (String.eqb_spec k "test_cases"); [contradiction | reflexivity].
Defined.

(** X14: the test cases are shown once each, in their order, numbered from
    1: for n tests there are n labels "Test i:", and the k-th test (from 0)
    is shown right after the label "Test k+1:". *)
Theorem test_cases_are_numbered_from_one (d : list (string * pyval))
    (question test_cases : pyval) (tests : list pyval) (show_explanation : bool) :
  dict_lookup "question" d = Some question ->
  dict_lookup "test_cases" d = Some test_cases ->
  py_bool test_cases = true ->
  py_iter test_cases = Ok tests ->
  count is_test_label
    (fst (display_coding_question_with_answer (PDict d) show_explanation)) = length tests /\
  (forall (k : nat) (test : pyval),
      tests !! k = Some test ->
      exists before after,
        fst (display_coding_question_with_answer (PDict d) show_explanation) =
        (before ++ st_markdown (TestNumber (k + 1))
                :: st_code (StrOf test) "python" :: after)%list).
Proof.
  intros Hquestion Htest_cases Htrue Htests.
  rewrite display_unfold. cbn [py_getitem dict_item]. rewrite Hquestion.
  rewrite bindW_lift_ok, bindW_call, starter_code_section_dict, test_cases_section_dict.
  rewrite Htest_cases, Htrue, Htests.
  pose proof (solution_section_labels d show_explanation) as Hlabels.
  destruct (solution_section (PDict d) show_explanation) as [solution_log r].
  cbn [fst] in Hlabels.
  assert (Hstarter : exists starter_log,
             starter_code_section (PDict d) = (starter_log, Ok tt) /\
             count is_test_label starter_log = 0%nat).
  { rewrite starter_code_section_dict.
    destruct (dict_lookup "starter_code" d) as [v |];
      [destruct (py_bool v) |]; eexists; split; reflexivity. }
  destruct Hstarter as (starter_log & Hsection & Hstarter).
  rewrite <- starter_code_section_dict, Hsection.
  rewrite !bindW_ok. cbn [fst snd bindW]. split.
  - cbn [count is_test_label]. rewrite !count_app. cbn [count is_test_label].
    rewrite show_tests_labels, Hstarter, Hlabels. lia.
  - intros k test Hk.
    destruct (show_tests_nth tests 1 k test Hk) as (before & after & -> & _).
    exists (st_markdown (Question question) :: starter_log
            ++ st_markdown (Heading "**Test Cases:**") :: before),
           (after ++ solution_log)%list.
    replace (k + 1)%nat with (1 + k)%nat by lia.
    cbn [app]. rewrite <- !app_assoc. reflexivity.
Qed.

Lemma test_cases_are_numbered_from_one_witness :
  count is_test_label
    (fst (display_coding_question_with_answer
            (PDict [("question", PStr "Double it");
                    ("test_cases", PList [PStr "f(1) == 2"; PStr "f(2) == 4"])]) true))
  = length [PStr "f(1) == 2"; PStr "f(2) == 4"] /\
  (forall (k : nat) (test : pyval),
      [PStr "f(1) == 2"; PStr "f(2) == 4"] !! k = Some test ->
      exists before after,
        fst (display_coding_question_with_answer
               (PDict [("question", PStr "Double it");
                       ("test_cases", PList [PStr "f(1) == 2"; PStr "f(2) == 4"])]) true) =
        (before ++ st_markdown (TestNumber (k + 1))
                :: st_code (StrOf test) "python" :: after)%list).
Proof.
  apply (test_cases_are_numbered_from_one
           [("question", PStr "Double it");
            ("test_cases", PList [PStr "f(1) == 2"; PStr "f(2) == 4"])]
           (PStr "Double it") (PList [PStr "f(1) == 2"; PStr "f(2) == 4"])
           [PStr "f(1) == 2"; PStr "f(2) == 4"] true); reflexivity.
Defined.

(** X15: the function returns normally exactly on a dict that has a
    [question] and whose [test_cases], when there and true, can be
    iterated.  Without [question] nothing is shown and KeyError is raised;
    with a true [test_cases] that cannot be iterated (a number, [true])
    the heading "Test Cases:" is the last thing shown before TypeError. *)
Theorem display_coding_question_succeeds_iff :
  (forall (question_data : pyval) (show_explanation : bool),
      snd (display_coding_question_with_answer question_data show_explanation) = Ok tt
      <-> showable question_data = true) /\
  (forall (d : list (string * pyval)) (show_explanation : bool),
      dict_lookup "question" d = None ->
      display_coding_question_with_answer (PDict d) show_explanation =
      ([], Raise (KeyError (PStr "question")))) /\
  (forall (d : list (string * pyval)) (question test_cases : pyval) (show_explanation : bool),
      dict_lookup "question" d = Some question ->
      dict_lookup "test_cases" d = Some test_cases ->
      py_bool test_cases = true ->
      can_iterate test_cases = false ->
      snd (display_coding_question_with_answer (PDict d) show_explanation) = Raise TypeError /\
      exists log,
        fst (display_coding_question_with_answer (PDict d) show_explanation) =
        (log ++ [st_markdown (Heading "**Test Cases:**")])%list).
Proof.
  split; [| split].
  - intros question_data show_explanation.
    destruct question_data as [| | | | | | d]; try (split; discriminate).
    rewrite display_unfold. cbn [py_getitem dict_item showable].
    destruct (dict_lookup "question" d) as [question |]; [| split; discriminate].
    rewrite bindW_lift_ok, bindW_call, starter_code_section_dict, test_cases_section_dict.
    pose proof (solution_section_dict d show_explanation) as Hsolution.
    destruct (solution_section (PDict d) show_explanation) as [solution_log r].
    cbn [snd] in Hsolution. subst r.
    destruct (dict_lookup "starter_code" d) as [starter |];
      [destruct (py_bool starter) |];
      (destruct (dict_lookup "test_cases" d) as [test_cases |];
       [destruct (py_bool test_cases);
        [destruct test_cases as [| | | | ? | ? | ?] |] |]);
      cbn; split; intros H; first [reflexivity | discriminate H].
  - intros d show_explanation Hquestion. rewrite display_unfold.
    cbn [py_getitem dict_item]. rewrite Hquestion. reflexivity.
  - intros d question test_cases show_explanation Hquestion Htests Htrue Hiter.
    rewrite display_unfold. cbn [py_getitem dict_item]. rewrite Hquestion.
    rewrite bindW_lift_ok, bindW_call, starter_code_section_dict, test_cases_section_dict.
    rewrite Htests, Htrue.
    assert (Hraise : py_iter test_cases = Raise TypeError)
      by (destruct test_cases; try discriminate; reflexivity).
    rewrite Hraise.
    destruct (dict_lookup "starter_code" d) as [starter |];
      [destruct (py_bool starter) |]; cbn; (split; [reflexivity |]).
    + exists [st_markdown (Question question); st_markdown (Heading "**Starter Code:**");
              st_code (Body starter) "python"]. reflexivity.
    + exists [st_markdown (Question question)]. reflexivity.
    + exists [st_markdown (Question question)]. reflexivity.
Qed.

Lemma display_coding_question_succeeds_iff_witness :
  snd (display_coding_question_with_answer (PDict [("question", PStr "Double it")]) true)
  = Ok tt /\
  display_coding_question_with_answer (PDict [("solution", PStr "x")]) true =
  ([], Raise (KeyError (PStr "question"))) /\
  snd (display_coding_question_with_answer
         (PDict [("question", PStr "Double it"); ("test_cases", PInt 3)]) true)
  = Raise TypeError.
Proof.
  split; [| split].
  - apply (proj1 display_coding_question_succeeds_iff). reflexivity.
  - apply (proj1 (proj2 display_coding_question_succeeds_iff)). reflexivity.
  - apply (proj2 (proj2 display_coding_question_succeeds_iff)
             [("question", PStr "Double it"); ("test_cases", PInt 3)]
             (PStr "Double it") (PInt 3) true); reflexivity.
Defined.
End display_coding_question_properties.

(** ** extract_text_from_pdfs *)

Module pdf_facts.
Import pdf.

Lemma append_empty (s : string) : s ++ "" = s.
Proof.
  induction s as [| c s IH]; [reflexivity |].
  change (String c (s ++ "") = String c s). rewrite IH. reflexivity.
Qed.

Lemma append_associative (s t u : string) : (s ++ t) ++ u = s ++ (t ++ u).
Proof.
  induction s as [| c s IH]; [reflexivity |].
  change (String c ((s ++ t) ++ u) = String c (s ++ (t ++ u))). rewrite IH. reflexivity.
Qed.

Section reader.
Context {E : Type}.
Implicit Types (file : uploaded_file E) (files : list (uploaded_file E)).

Lemma extract_pages_texts (pages : list (E + string)) :
  forall (text : string) (texts : list string),
    page_texts pages = Some texts ->
    extract_pages pages text = inr (text ++ joined texts).
Proof.
  induction pages as [| [e | page_text] rest IH]; intros text texts.
  - intros [= <-]. cbn [extract_pages joined]. rewrite append_empty. reflexivity.
  - discriminate.
  - cbn [page_texts extract_pages].
    destruct (page_texts rest) as [texts' |] eqn:Hrest; [| discriminate].
    intros [= <-]. rewrite (IH _ texts' eq_refl). cbn [joined].
    rewrite append_associative. reflexivity.
Qed.

Lemma extract_pages_fails (pages : list (E + string)) : forall text : string,
  page_texts pages = None -> exists e, extract_pages pages text = inl e.
Proof.
  induction pages as [| [e | page_text] rest IH]; intros text; [discriminate | eauto |].
  cbn [page_texts extract_pages].
  destruct (page_texts rest); [discriminate |]. intros _. apply IH. reflexivity.
Qed.

Lemma document_of_readable file :
  match readable file with
  | Some document => document_of file = inr document
  | None => exists e, document_of file = inl e
  end.
Proof.
  unfold readable, document_of. destruct (pdf_reader file) as [e | pages]; [eauto |].
  destruct (page_texts pages) as [texts |] eqn:Htexts.
  - rewrite (extract_pages_texts pages "" texts Htexts). reflexivity.
  - destruct (extract_pages_fails pages "" Htexts) as [e ->]. eauto.
Qed.

Lemma extract_loop_readable files : forall (documents read : list pyval),
  Forall2 (fun file document => readable file = Some document) files read ->
  extract_loop files documents = inr (documents ++ read)%list.
Proof.
  induction files as [| file rest IH]; intros documents read Hread.
  - inversion Hread. cbn. rewrite app_nil_r. reflexivity.
  - inversion Hread as [| ? document ? read' Hfile Hrest]; subst.
    cbn [extract_loop]. pose proof (document_of_readable file) as Hdoc.
    rewrite Hfile in Hdoc. rewrite Hdoc, (IH _ read' Hrest), <- app_assoc. reflexivity.
Qed.

End reader.

End pdf_facts.

Section extract_text_from_pdfs_properties.
Import pdf pdf_facts.

Section any_reader.
Context {E : Type}.
Implicit Types (file : uploaded_file E) (files : list (uploaded_file E)).

(** X16: when PyPDF2 reads every file, [extract_text_from_pdfs] returns one
    document per uploaded file, in the order of the files: the i-th
    document is [{"name": ..., "content": ...}] with the name of the i-th
    file and the texts of its pages one after the other.  Files of the same
    name give separate documents. *)
Theorem extract_text_gives_one_document_per_file files :
  Forall (fun file => is_Some (readable file)) files ->
  exists documents : list pyval,
    extract_text_from_pdfs files = inr documents /\
    length documents = length files /\
    (forall (i : nat) file,
        files !! i = Some file ->
        exists (pages : list (E + string)) (texts : list string),
          pdf_reader file = inr pages /\
          page_texts pages = Some texts /\
          documents !! i =
          Some (PDict [("name", PStr (name file)); ("content", PStr (joined texts))])).
Proof.
  intros Hfiles.
  assert (exists read,
             Forall2 (fun file document => readable file = Some document) files read)
    as [read Hread].
  { induction Hfiles as [| file rest [document Hfile] _ [read IH]].
    - exists []. constructor.
    - exists (document :: read). constructor; assumption. }
  exists read. split; [apply (extract_loop_readable files [] read Hread) |].
  split; [symmetry; apply (Forall2_length _ _ _ Hread) |].
  intros i file Hfile.
  destruct (Forall2_lookup_l _ _ _ _ _ Hread Hfile) as (document & Hdocument & Hreadable).
  unfold readable in Hreadable.
  destruct (pdf_reader file) as [e | pages]; [discriminate |].
  destruct (page_texts pages) as [texts |] eqn:Htexts; [| discriminate].
  injection Hreadable as <-. exists pages, texts.
  split; [reflexivity | split; [exact Htexts | exact Hdocument]].
Qed.

(** X17: the first file that cannot be read ends the whole extraction:
    its exception is the outcome, and the documents of the files read
    before it are not returned. *)
Theorem extract_text_fails_with_first_unreadable_file files file (e : E) files' :
  Forall (fun file => is_Some (readable file)) files ->
  document_of file = inl e ->
  extract_text_from_pdfs (files ++ file :: files') = inl e.
Proof.
  intros Hread Hfile. unfold extract_text_from_pdfs.
  generalize (@nil pyval) as documents.
  induction Hread as [| file0 rest [document Hfile0] _ IH]; intros documents.
  - cbn. rewrite Hfile. reflexivity.
  - cbn [app extract_loop]. pose proof (document_of_readable file0) as Hdoc.
    rewrite Hfile0 in Hdoc. rewrite Hdoc. apply IH.
Qed.
End any_reader.

Lemma extract_text_gives_one_document_per_file_witness :
  exists documents : list pyval,
    extract_text_from_pdfs [two_pages; no_pages] = inr documents /\
    length documents = length [two_pages; no_pages] /\
    (forall (i : nat) (file : uploaded_file nat),
        [two_pages; no_pages] !! i = Some file ->
        exists (pages : list (nat + string)) (texts : list string),
          pdf_reader file = inr pages /\
          page_texts pages = Some texts /\
          documents !! i =
          Some (PDict [("name", PStr (name file)); ("content", PStr (joined texts))])).
Proof.
  apply (@extract_text_gives_one_document_per_file nat [two_pages; no_pages]).
  repeat first [eexists; reflexivity | constructor].
Defined.

Lemma extract_text_fails_with_first_unreadable_file_witness :
  extract_text_from_pdfs ([two_pages] ++ bad_page :: [no_pages]) = inl 7%nat.
Proof.
  apply (@extract_text_fails_with_first_unreadable_file nat [two_pages] bad_page 7%nat
           [no_pages]).
  - repeat constructor. eexists. reflexivity.
  - reflexivity.
Defined.
End extract_text_from_pdfs_properties.

(** ** utils/openai_utils.py, from the reply on *)

Section openai_utils_properties.
Context {J : JsonModule}.

(** X18: for a reply that decodes to an object, [generate_quiz] returns what
    [parse_quiz_response] returns for the decoded object, the value under
    ["questions"] or the empty list, and [parse_quiz_response] reports
    nothing. *)
Theorem generate_quiz_agrees_with_parse_quiz_response (content : string)
    (d : list (string * pyval)) :
  json_loads content = Ok (PDict d) ->
  parse_quiz_response (PDict d) = ([], quiz_of_reply content).
Proof.
  intros Hloads. unfold quiz_of_reply. rewrite Hloads.
  unfold parse_quiz_response, parse_quiz_response_body, try_except, ret, py_get.
  destruct (dict_lookup "questions" d); reflexivity.
Qed.

(** X19: the end of [generate_quiz], lines 87-88, catches nothing.  Given
    the content of the reply's first choice, a text or [None], it raises in
    exactly three cases: the content is [None], and [json.loads] raises
    TypeError; [json.loads] raises on the text, and that exception leaves
    the function; or the text decodes to something that is not an object (a
    list of questions, say), and [result.get] raises AttributeError. *)
Theorem generate_quiz_decoding_exceptions (content : option string) (e : exn) :
  quiz_of_content content = Raise e <->
  (content = None /\ e = TypeError) \/
  (exists text : string, content = Some text /\ json_loads text = Raise e) \/
  (e = AttributeError "get" /\
   exists (text : string) (v : pyval),
     content = Some text /\ json_loads text = Ok v /\ forall d, v <> PDict d).
Proof.
  destruct content as [text |]; cbn [quiz_of_content].
  - unfold quiz_of_reply. destruct (json_loads text) as [v | e'] eqn:Hloads.
    + split.
      * intros Hraise. right. right.
        destruct v; try discriminate Hraise; injection Hraise as <-;
          (split; [reflexivity |]); eexists _, _;
          (split; [reflexivity | split; [exact Hloads | discriminate]]).
      * intros [[[=] _] | [(text' & [= <-] & Hraise) | [-> (text' & v' & [= <-] & Hv' & Hv)]]].
        { rewrite Hloads in Hraise. discriminate Hraise. }
        rewrite Hloads in Hv'. injection Hv' as <-.
        destruct v; try reflexivity. destruct (Hv _ eq_refl).
    + split.
      * intros [= <-]. right. left. exists text. split; [reflexivity | exact Hloads].
      * intros [[[=] _] | [(text' & [= <-] & Hraise) | [_ (text' & v' & [= <-] & Hv' & _)]]].
        { rewrite Hloads in Hraise. exact Hraise. }
        rewrite Hloads in Hv'. discriminate Hv'.
  - split.
    + intros [= <-]. left. split; reflexivity.
    + intros [[_ ->] | [(text & [=] & _) | [_ (text & v & [=] & _)]]]. reflexivity.
Qed.
End openai_utils_properties.

Lemma generate_quiz_agrees_with_parse_quiz_response_witness :
  @parse_quiz_response python_json (PDict [("questions", PList [sample_question 1])]) =
  ([], @quiz_of_reply python_json sample_reply).
Proof.
  apply (@generate_quiz_agrees_with_parse_quiz_response python_json sample_reply
           [("questions", PList [sample_question 1])]).
  reflexivity.
Defined.

Lemma generate_quiz_decoding_exceptions_witness :
  @quiz_of_content python_json None = Raise TypeError /\
  @quiz_of_content python_json (Some "not json") =
  Raise (JSONDecodeError "Expecting value" 0) /\
  @quiz_of_content python_json (Some "[]") = Raise (AttributeError "get").
Proof.
  split; [| split].
  - apply (proj2 (@generate_quiz_decoding_exceptions python_json None TypeError)).
    left. split; reflexivity.
  - apply (proj2 (@generate_quiz_decoding_exceptions python_json (Some "not json")
                    (JSONDecodeError "Expecting value" 0))).
    right. left. exists "not json". split; reflexivity.
  - apply (proj2 (@generate_quiz_decoding_exceptions python_json (Some "[]")
                    (AttributeError "get"))).
    right. right. split; [reflexivity |]. exists "[]", (PList []).
    split; [reflexivity | split; [reflexivity | discriminate]].
Defined.

(** ** pages/Settings.py *)

Module settings_facts.
Import settings.

Lemma dict_lookup_dict_set {A : Type} (k k' : string) (v : A) (d : list (string * A)) :
  dict_lookup k (dict_set k' v d) = if String.eqb k k' then Some v else dict_lookup k d.
Proof.
  induction d as [| [key value] d IH]; cbn [dict_set dict_lookup].
  - destruct (String.eqb k k'); reflexivity.
  - destruct (String.eqb_spec k' key) as [-> | Hkey]; cbn [dict_lookup].
    + destruct (String.eqb k key); reflexivity.
    + rewrite IH. destruct (String.eqb_spec k key) as [-> | Hk]; [| reflexivity].
      destruct (String.eqb_spec key k'); [congruence | reflexivity].
Qed.

Lemma ensure_dict (key : string) (value : pyval) (d : list (string * pyval)) :
  ensure key value (PDict d) = Ok (PDict (ensured key value d)).
Proof.
  unfold ensure, ensured, py_contains, py_setitem.
  destruct (bool_decide (is_Some (dict_lookup key d))); reflexivity.
Qed.

Lemma dict_lookup_ensured (k key : string) (value : pyval) (d : list (string * pyval)) :
  dict_lookup k (ensured key value d) =
  match dict_lookup k d with
  | Some v => Some v
  | None => if String.eqb k key then Some value else None
  end.
Proof.
  unfold ensured. destruct (bool_decide (is_Some (dict_lookup key d))) eqn:Hin.
  - apply bool_decide_eq_true in Hin as [v Hv].
    destruct (dict_lookup k d) eqn:Hk; [reflexivity |].
    destruct (String.eqb_spec k key) as [-> | _]; [congruence | reflexivity].
  - apply bool_decide_eq_false in Hin. rewrite dict_lookup_dict_set.
    destruct (String.eqb_spec k key) as [-> | _].
    + destruct (dict_lookup key d) eqn:Hk; [| reflexivity].
      destruct Hin. eauto.
    + destruct (dict_lookup k d); reflexivity.
Qed.

Section initialize.
Context {J : JsonModule}.

(** On a dict the three steps go through, and they only add. *)
Lemma initialize_settings_dict (session : option pyval) (settings_file : option string)
    (d : list (string * pyval)) :
  load_settings session settings_file = Ok (PDict d) ->
  initialize_settings session settings_file =
  (Some (PDict (ensured "api_keys" default_api_keys
                  (ensured "ui_preferences" default_ui_preferences
                     (ensured "model_preferences" default_model_preferences d)))),
   Ok tt).
Proof.
  intros Hload. unfold initialize_settings. rewrite Hload, !ensure_dict. reflexivity.
Qed.

Lemma ensure_non_dict (key : string) (value settings : pyval) :
  (forall d, settings <> PDict d) ->
  ensure key value settings =
  match py_contains key settings with
  | Ok true => Ok settings
  | _ => Raise TypeError
  end.
Proof.
  intros Hsettings. unfold ensure.
  destruct settings; cbn; try reflexivity.
  destruct (Hsettings _ eq_refl).
Qed.

(** On settings that are not a dict nothing is added. *)
Lemma initialize_settings_non_dict (session : option pyval) (settings_file : option string)
    (settings : pyval) :
  load_settings session settings_file = Ok settings ->
  (forall d, settings <> PDict d) ->
  initialize_settings session settings_file =
  (Some settings,
   match py_contains "model_preferences" settings,
         py_contains "ui_preferences" settings,
         py_contains "api_keys" settings with
   | Ok true, Ok true, Ok true => Ok tt
   | _, _, _ => Raise TypeError
   end).
Proof.
  intros Hload Hsettings. unfold initialize_settings. rewrite Hload.
  rewrite (ensure_non_dict "model_preferences" _ _ Hsettings).
  destruct (py_contains "model_preferences" settings) as [[] | e1]; try reflexivity.
  rewrite (ensure_non_dict "ui_preferences" _ _ Hsettings).
  destruct (py_contains "ui_preferences" settings) as [[] | e2]; try reflexivity.
  rewrite (ensure_non_dict "api_keys" _ _ Hsettings).
  destruct (py_contains "api_keys" settings) as [[] | e3]; reflexivity.
Qed.

Lemma ensure_contains (key : string) (value settings settings' : pyval) :
  ensure key value settings = Ok settings' ->
  py_contains key settings' = Ok true /\
  (forall k, py_contains k settings = Ok true -> py_contains k settings' = Ok true).
Proof.
  unfold ensure. destruct (py_contains key settings) as [[] | e] eqn:Hin.
  - intros [= <-]. auto.
  - destruct settings; try discriminate. cbn [py_setitem]. intros [= <-].
    cbn [py_contains]. split.
    + f_equal. apply bool_decide_eq_true. rewrite dict_lookup_dict_set, String.eqb_refl. eauto.
    + intros k [= Hk]. f_equal. apply bool_decide_eq_true.
      apply bool_decide_eq_true in Hk as [v Hv]. rewrite dict_lookup_dict_set.
      destruct (String.eqb k key); eauto.
  - discriminate.
Qed.

Lemma ensure_contained (key : string) (value settings : pyval) :
  py_contains key settings = Ok true -> ensure key value settings = Ok settings.
Proof. unfold ensure. intros ->. reflexivity. Qed.

End initialize.

End settings_facts.

Section settings_properties.
Import settings settings_facts.

Section any_json.
Context {J : JsonModule}.

(** X20: settings that are a dict (those of the session, or those decoded
    from settings.json) are completed, never overwritten:
    [initialize_settings] returns normally, every key they had keeps its
    value, and of the other keys exactly the three top-level names are
    there, with their default values. *)
Theorem initialize_settings_completes_with_defaults (session : option pyval)
    (settings_file : option string) (d : list (string * pyval)) :
  load_settings session settings_file = Ok (PDict d) ->
  exists d' : list (string * pyval),
    initialize_settings session settings_file = (Some (PDict d'), Ok tt) /\
    forall k : string,
      dict_lookup k d' =
      match dict_lookup k d with
      | Some v => Some v
      | None => dict_lookup k default_settings
      end.
Proof.
  intros Hload. eexists. split; [apply (initialize_settings_dict _ _ _ Hload) |].
  intros k. rewrite !dict_lookup_ensured.
  destruct (dict_lookup k d); [reflexivity |].
  cbn [default_settings dict_lookup].
  destruct (String.eqb_spec k "api_keys") as [-> | _]; [reflexivity |].
  destruct (String.eqb_spec k "ui_preferences") as [-> | _]; [reflexivity |].
  destruct (String.eqb k "model_preferences"); reflexivity.
Qed.

(** X21: only the top level is completed.  After [initialize_settings] on
    dict settings, line 99 of the page,
    [st.session_state.settings["api_keys"]["openai"]], gives the empty text
    when the settings had no ["api_keys"], and otherwise whatever indexing
    the value they had under ["api_keys"] gives: the KeyError for a section
    without ["openai"]. *)
Theorem initialize_settings_keeps_incomplete_sections (session : option pyval)
    (settings_file : option string) (d : list (string * pyval)) :
  load_settings session settings_file = Ok (PDict d) ->
  exists settings : pyval,
    initialize_settings session settings_file = (Some settings, Ok tt) /\
    openai_key_of settings =
    match dict_lookup "api_keys" d with
    | Some api_keys => py_getitem api_keys (PStr "openai")
    | None => Ok (PStr "")
    end.
Proof.
  intros Hload. eexists. split; [apply (initialize_settings_dict _ _ _ Hload) |].
  unfold openai_key_of. cbn [py_getitem dict_item].
  rewrite !dict_lookup_ensured. cbn [String.eqb Ascii.eqb Bool.eqb].
  destruct (dict_lookup "api_keys" d); reflexivity.
Qed.

(** X22: settings that are not a dict are never repaired.  They stay in the
    session as they are, and [initialize_settings] raises a TypeError,
    unless each of the three names is found in them (as an item of a list
    or inside a text), in which case it returns and nothing has been
    added. *)
Theorem non_dict_settings_are_kept (session : option pyval)
    (settings_file : option string) (settings : pyval) :
  load_settings session settings_file = Ok settings ->
  (forall d, settings <> PDict d) ->
  exists r : outcome unit,
    initialize_settings session settings_file = (Some settings, r) /\
    (r = Ok tt \/ r = Raise TypeError) /\
    (r = Ok tt <->
     py_contains "model_preferences" settings = Ok true /\
     py_contains "ui_preferences" settings = Ok true /\
     py_contains "api_keys" settings = Ok true).
Proof.
  intros Hload Hsettings.
  rewrite (initialize_settings_non_dict _ _ _ Hload Hsettings).
  eexists. split; [reflexivity |].
  destruct (py_contains "model_preferences" settings) as [[] | e1];
    [| split; [right; reflexivity |
        split; [discriminate | intros (H & _ & _); discriminate H]] ..].
  destruct (py_contains "ui_preferences" settings) as [[] | e2];
    [| split; [right; reflexivity |
        split; [discriminate | intros (_ & H & _); discriminate H]] ..].
  destruct (py_contains "api_keys" settings) as [[] | e3];
    [| split; [right; reflexivity |
        split; [discriminate | intros (_ & _ & H); discriminate H]] ..].
  split; [left; reflexivity | split; auto].
Qed.

(** X23: [initialize_settings] changes nothing the second time.  When a run
    has returned, a later run of the same session returns as well and
    leaves the settings as they are, whatever settings.json holds by
    then. *)
Theorem initialize_settings_is_idempotent (session : option pyval)
    (settings_file settings_file' : option string) (settings : pyval) :
  initialize_settings session settings_file = (Some settings, Ok tt) ->
  initialize_settings (Some settings) settings_file' = (Some settings, Ok tt).
Proof.
  unfold initialize_settings at 1.
  destruct (load_settings session settings_file) as [s0 | e]; [| discriminate].
  destruct (ensure "model_preferences" _ s0) as [s1 | e] eqn:H1; [| discriminate].
  destruct (ensure "ui_preferences" _ s1) as [s2 | e] eqn:H2; [| discriminate].
  destruct (ensure "api_keys" _ s2) as [s3 | e] eqn:H3; [| discriminate].
  intros [= <-].
  apply ensure_contains in H1 as [Hm1 _].
  apply ensure_contains in H2 as [Hu2 Hkeep2].
  apply ensure_contains in H3 as [Ha3 Hkeep3].
  unfold initialize_settings, load_settings.
  rewrite (ensure_contained "model_preferences" _ _ (Hkeep3 _ (Hkeep2 _ Hm1))).
  rewrite (ensure_contained "ui_preferences" _ _ (Hkeep3 _ Hu2)).
  rewrite (ensure_contained "api_keys" _ _ Ha3). reflexivity.
Qed.

(** X24: the exceptions that leave [initialize_settings], which has no
    [except] clause.  An exception of the file system leaves it exactly
    when the session has no settings and settings.json is there but cannot
    be read; an exception of [json.load] can leave it when the session has
    no settings and the text of settings.json does not decode; in both
    cases the session is left without settings.  Any other exception is a
    TypeError, raised on settings that are not a dict, which stay in the
    session. *)
Theorem initialize_settings_exceptions {E : Type} (session : option pyval)
    (disk : settings_json E) :
  (forall e : E,
      snd (initialize_settings_on_disk session disk) = inl e <->
      session = None /\ disk = Unreadable e) /\
  (forall e : E,
      snd (initialize_settings_on_disk session disk) = inl e ->
      fst (initialize_settings_on_disk session disk) = None) /\
  (forall e : exn,
      snd (initialize_settings_on_disk session disk) = inr (Raise e) ->
      (exists content : string,
          session = None /\ disk = Content content /\
          json_loads content = Raise e /\
          fst (initialize_settings_on_disk session disk) = None) \/
      (exists settings : pyval,
          load_settings session (file_text disk) = Ok settings /\
          (forall d, settings <> PDict d) /\
          e = TypeError /\
          fst (initialize_settings_on_disk session disk) = Some settings)).
Proof.
  assert (Hrun : forall e : exn,
             snd (initialize_settings session (file_text disk)) = Raise e ->
             (exists content : string,
                 session = None /\ disk = Content content /\
                 json_loads content = Raise e /\
                 fst (initialize_settings session (file_text disk)) = None) \/
             (exists settings : pyval,
                 load_settings session (file_text disk) = Ok settings /\
                 (forall d, settings <> PDict d) /\
                 e = TypeError /\
                 fst (initialize_settings session (file_text disk)) = Some settings)).
  { intros e Hraise.
    destruct (load_settings session (file_text disk)) as [settings | e'] eqn:Hload.
    - right. exists settings.
      assert (Hsettings : forall d, settings <> PDict d).
      { intros d ->. rewrite (initialize_settings_dict _ _ _ Hload) in Hraise.
        discriminate Hraise. }
      rewrite (initialize_settings_non_dict _ _ _ Hload Hsettings) in Hraise |- *.
      cbn [fst snd] in Hraise |- *.
      repeat split; [exact Hsettings |].
      destruct (py_contains "model_preferences" settings) as [[] | e1];
        destruct (py_contains "ui_preferences" settings) as [[] | e2];
        destruct (py_contains "api_keys" settings) as [[] | e3];
        congruence.
    - left. unfold initialize_settings in Hraise |- *. rewrite Hload in Hraise |- *.
      cbn [fst snd] in Hraise |- *. injection Hraise as <-.
      unfold load_settings in Hload.
      destruct session as [settings |]; [discriminate |].
      destruct disk as [| e0 | content]; try discriminate.
      exists content. auto. }
  unfold initialize_settings_on_disk.
  destruct session as [settings |]; [| destruct disk as [| e0 | content]];
    cbn [fst snd].
  - split; [| split].
    + intros e. split; [intros [=] | intros [[=] _]].
    + intros e [=].
    + intros e [= Hraise]; exact (Hrun e Hraise).
  - split; [| split].
    + intros e. split; [intros [=] | intros [_ [=]]].
    + intros e [=].
    + intros e [= Hraise]; exact (Hrun e Hraise).
  - split; [| split].
    + intros e. split; [intros [= ->]; split; reflexivity | intros [_ [= ->]]; reflexivity].
    + intros e _. reflexivity.
    + intros e [=].
  - split; [| split].
    + intros e. split; [intros [=] | intros [_ [=]]].
    + intros e [=].
    + intros e [= Hraise]; exact (Hrun e Hraise).
Qed.
End any_json.

(** X25: [validate_api_key] accepts exactly the keys of more than 20
    characters of the providers "mistral" and "together", and those of the
    provider "openai" that also start with "sk-"; [None], the empty key
    and every other provider are refused. *)
Theorem validate_api_key_true_iff (api_key : option string) (provider : string) :
  validate_api_key api_key provider = true <->
  exists key : string,
    api_key = Some key /\ (20 < len key)%nat /\
    (provider = "mistral" \/ provider = "together" \/
     (provider = "openai" /\ String.prefix "sk-" key = true)).
Proof.
  destruct api_key as [key |]; [| split; [discriminate | intros (key & [=] & _)]].
  unfold validate_api_key.
  destruct (String.eqb_spec key "") as [-> | Hkey].
  { split; [discriminate |]. intros (key & [= <-] & Hlen & _). cbn in Hlen. lia. }
  destruct (String.eqb_spec provider "openai") as [-> | Hopenai];
    [| destruct (String.eqb_spec provider "mistral") as [-> | Hmistral];
       [| destruct (String.eqb_spec provider "together") as [-> | Htogether]]];
    cbn [andb String.eqb Ascii.eqb Bool.eqb];
    destruct (String.prefix "sk-" key) eqn:Hprefix;
    destruct (Nat.ltb_spec 20 (len key)) as [Hlen | Hlen];
    cbn [andb];
    (split;
     [ first [ discriminate
             | intros _; exists key; repeat split; auto; fail ]
     | intros (key' & [= <-] & Hlen' & [Hp | [Hp | [Hp Hsk]]]);
       first [ reflexivity | lia | congruence | discriminate ] ]).
Qed.

Lemma validate_api_key_true_iff_witness :
  validate_api_key (Some "sk-0123456789abcdefghij") "openai" = true.
Proof.
  apply (proj2 (validate_api_key_true_iff (Some "sk-0123456789abcdefghij") "openai")).
  exists "sk-0123456789abcdefghij".
  split; [reflexivity | split; [apply Nat.ltb_lt; reflexivity | right; right; split; reflexivity]].
Defined.

Lemma initialize_settings_completes_with_defaults_witness :
  exists d' : list (string * pyval),
    @initialize_settings python_json None (Some partial_file) = (Some (PDict d'), Ok tt) /\
    forall k : string,
      dict_lookup k d' =
      match dict_lookup k [("api_keys", PDict [("mistral", PStr "k")])] with
      | Some v => Some v
      | None => dict_lookup k default_settings
      end.
Proof.
  apply (@initialize_settings_completes_with_defaults python_json None (Some partial_file)
           [("api_keys", PDict [("mistral", PStr "k")])]).
  reflexivity.
Defined.

Lemma initialize_settings_keeps_incomplete_sections_witness :
  exists settings : pyval,
    @initialize_settings python_json None (Some partial_file) = (Some settings, Ok tt) /\
    openai_key_of settings = Raise (KeyError (PStr "openai")).
Proof.
  apply (@initialize_settings_keeps_incomplete_sections python_json None (Some partial_file)
           [("api_keys", PDict [("mistral", PStr "k")])]).
  reflexivity.
Defined.

Lemma non_dict_settings_are_kept_witness :
  exists r : outcome unit,
    @initialize_settings python_json None (Some "[1, 2]") =
    (Some (PList [PInt 1; PInt 2]), r) /\
    (r = Ok tt \/ r = Raise TypeError) /\
    (r = Ok tt <->
     py_contains "model_preferences" (PList [PInt 1; PInt 2]) = Ok true /\
     py_contains "ui_preferences" (PList [PInt 1; PInt 2]) = Ok true /\
     py_contains "api_keys" (PList [PInt 1; PInt 2]) = Ok true).
Proof.
  apply (@non_dict_settings_are_kept python_json None (Some "[1, 2]")
           (PList [PInt 1; PInt 2])).
  - reflexivity.
  - intros d. discriminate.
Defined.

Lemma initialize_settings_is_idempotent_witness :
  @initialize_settings python_json (Some (PDict default_settings)) (Some "not json") =
  (Some (PDict default_settings), Ok tt).
Proof.
  apply (@initialize_settings_is_idempotent python_json None None (Some "not json")
           (PDict default_settings)).
  reflexivity.
Defined.

Lemma initialize_settings_exceptions_witness :
  snd (@initialize_settings_on_disk string python_json None
         (Unreadable "IsADirectoryError")) = inl "IsADirectoryError" /\
  ((exists content : string,
       @None pyval = None /\ @Content string "not json" = Content content /\
       json.loads content = Raise (JSONDecodeError "Expecting value" 0) /\
       fst (@initialize_settings_on_disk string python_json None (Content "not json")) =
       None) \/
   (exists settings : pyval,
       @load_settings python_json None (file_text (@Content string "not json")) =
       Ok settings /\
       (forall d, settings <> PDict d) /\
       JSONDecodeError "Expecting value" 0 = TypeError /\
       fst (@initialize_settings_on_disk string python_json None (Content "not json")) =
       Some settings)).
Proof.
  split.
  - apply (proj2 (proj1 (@initialize_settings_exceptions python_json string None
                           (Unreadable "IsADirectoryError"))
                    "IsADirectoryError")).
    split; reflexivity.
  - apply (proj2 (proj2 (@initialize_settings_exceptions python_json string None
                           (Content "not json")))
             (JSONDecodeError "Expecting value" 0)).
    reflexivity.
Defined.
End settings_properties.
